(** * usdc_material: the USDZ material importer of [__init__.py]

    A shallow embedding of [IMPORT_OT_usdz_material.execute].  The operator
    is a sequence of calls into the host application (Blender's [bpy]), so
    the embedding has three layers:

    - the pure string helpers the operator uses from Python
      ([str.endswith], [in] on strings, [os.path.splitext], ...);
    - the part of the host's data model the operator reads and writes
      (materials, shader nodes, objects, reports, the temporary directories);
    - the operator itself, written in a small state monad whose outcomes are
      Python's: normal completion, [continue], or a raised exception.

    Strings are byte strings holding UTF-8 text, and paths are POSIX paths.
    [str.lower] follows the Unicode case tables, so it is a function of the
    environment ([str_lower] of [Host]); [Py.ascii_lower] is what it does on
    ASCII text.  The names and labels the host keeps are the host's too: a
    datablock name is made unique and cut to the name buffer, a node label
    is cut to the label buffer.  Node coordinates are integers ([Z]); the
    host stores them as floats.  What the host does to the shading of a
    mesh and to the thumbnail of an asset is not part of the scene: the
    calls are kept for the exceptions they may raise.  The [print] calls of
    the source write to the console only and are left out. *)

From Stdlib Require Import ZArith String Ascii List Lia Bool DecimalString.
From stdpp Require Import base option list gmap sets strings.

Open Scope string_scope.
Open Scope Z_scope.

(** ** Python string helpers *)

Module Py.

(** [c.lower()] on one byte: 'A'..'Z' are moved to 'a'..'z'. *)
Definition lower_ascii (c : ascii) : ascii :=
  let n := nat_of_ascii c in
  if ((65 <=? n) && (n <=? 90))%nat then ascii_of_nat (n + 32) else c.

(** [s.lower()] for an ASCII string [s]. *)
Fixpoint ascii_lower (s : string) : string :=
  match s with
  | EmptyString => EmptyString
  | String c t => String (lower_ascii c) (ascii_lower t)
  end.

(** [s.isascii()] *)
Fixpoint is_ascii (s : string) : bool :=
  match s with
  | EmptyString => true
  | String c t => (nat_of_ascii c <? 128)%nat && is_ascii t
  end.

(** [s.startswith(p)] *)
Fixpoint startswith (s p : string) : bool :=
  match p, s with
  | EmptyString, _ => true
  | String _ _, EmptyString => false
  | String a p', String b s' => if Ascii.eqb a b then startswith s' p' else false
  end.

(** [sub in s]: [sub] occurs in [s] as a contiguous run. *)
Fixpoint contains (s sub : string) : bool :=
  startswith s sub ||
  match s with
  | EmptyString => false
  | String _ t => contains t sub
  end.

(** [s[n:]] *)
Fixpoint drop (n : nat) (s : string) : string :=
  match n, s with
  | O, _ => s
  | S _, EmptyString => EmptyString
  | S n', String _ t => drop n' t
  end.

(** [s[:n]] *)
Fixpoint take (n : nat) (s : string) : string :=
  match n, s with
  | O, _ => EmptyString
  | S _, EmptyString => EmptyString
  | S n', String c t => String c (take n' t)
  end.

(** [s.endswith(suffix)]: the last [len(suffix)] characters are [suffix]. *)
Definition endswith (s suffix : string) : bool :=
  (String.length suffix <=? String.length s)%nat &&
  String.eqb (drop (String.length s - String.length suffix) s) suffix.

(** [s.endswith((a, b, ...))] with a tuple of suffixes. *)
Definition endswith_any (s : string) (suffixes : list string) : bool :=
  existsb (endswith s) suffixes.

(** [s.rfind(c)] for a one-character [c]: the highest index, or -1. *)
Fixpoint rfind_from (i : Z) (c : ascii) (s : string) : Z :=
  match s with
  | EmptyString => -1
  | String a t =>
      let r := rfind_from (i + 1) c t in
      if 0 <=? r then r else if Ascii.eqb a c then i else -1
  end.

Definition rfind (c : ascii) (s : string) : Z := rfind_from 0 c s.

(** [genericpath._splitext(p, sep = '/', altsep = None, extsep = '.')],
    which is [os.path.splitext] on POSIX: the extension starts at the last
    dot, unless that dot is before the last separator or only dots lie
    between the separator and it. *)
Definition splitext (p : string) : string * string :=
  let sepIndex := rfind "/"%char p in
  let dotIndex := rfind "."%char p in
  if (sepIndex <? dotIndex)
     && existsb (fun k => negb (String.eqb
                   (String.substring k 1 p) "."))
                (seq (Z.to_nat (sepIndex + 1)) (Z.to_nat (dotIndex - (sepIndex + 1))))
  then (take (Z.to_nat dotIndex) p, drop (Z.to_nat dotIndex) p)
  else (p, EmptyString).

(** [posixpath.basename(p)]: what follows the last '/'. *)
Definition basename (p : string) : string :=
  drop (Z.to_nat (rfind "/"%char p + 1)) p.

(** [s.rstrip('/')] *)
Fixpoint rstrip_slash (s : string) : string :=
  match s with
  | EmptyString => EmptyString
  | String c t =>
      match rstrip_slash t with
      | EmptyString => if Ascii.eqb c "/" then EmptyString else String c EmptyString
      | String c' t' => String c (String c' t')
      end
  end.

(** [posixpath.dirname(p)]: the head up to the last '/', without its
    trailing slashes unless it consists of slashes only. *)
Definition dirname (p : string) : string :=
  let head := take (Z.to_nat (rfind "/"%char p + 1)) p in
  if negb (String.eqb head "") && negb (String.eqb (rstrip_slash head) "")
  then rstrip_slash head
  else head.

(** [posixpath.join(a, b)] *)
Definition path_join (a b : string) : string :=
  if startswith b "/" then b
  else if String.eqb a "" || endswith a "/" then a ++ b
  else a ++ "/" ++ b.

End Py.

(** ** The host's data model, as far as the operator touches it *)

(** [bpy.types.Image] *)
Record Image := mkImage {
  image_name : string;
  image_filepath : string }.

(** [bpy.types.ShaderNode]: [node_image] is [node.image] ([None] when
    unset), [node_location] is [(node.location.x, node.location.y)]. *)
Record Node := mkNode {
  node_type : string;
  node_image : option Image;
  node_label : string;
  node_location : Z * Z;
  node_uv_map : string }.

(** [material.asset_data] *)
Record AssetData := mkAssetData {
  author : string;
  license : string }.

(** [bpy.types.Material]; [node_tree] is [None] for a material without
    nodes, [asset_data] is [None] until the material is marked as asset. *)
Record Material := mkMaterial {
  mat_name : string;
  node_tree : option (list Node);
  displacement_method : string;
  asset_data : option AssetData }.

(** [bpy.types.Object] with a mesh: [obj_materials] is [obj.data.materials],
    each slot a reference (an index into [bpy.data.materials]). *)
Record Object := mkObject {
  obj_name : string;
  obj_materials : list nat }.

(** [bpy.data] and [context]: materials, images and objects are stores;
    a material, node or object held in a Python variable is its index.
    [packed_images] are the images of [bpy.data.images] (by index) whose
    file is packed into the .blend file. *)
Record Scene := mkScene {
  materials : list Material;
  images : list Image;
  objects : list Object;
  active_object : option nat;
  packed_images : gset nat }.

Inductive Level := INFO | WARNING | ERROR.

Global Instance Level_eq_dec : EqDecision Level.
Proof. solve_decision. Defined.

(** What the operator can observe and change: the scene, the temporary
    directories that exist (with the names [os.listdir] yields for each)
    and the messages passed to [self.report]. *)
Record World := mkWorld {
  scene : Scene;
  tmpfs : gmap nat (list string);
  reports : list (Level * string) }.

(** A Python call either returns or raises; [Err e] carries [str(e)]. *)
Inductive exc (A : Type) :=
| Ok (a : A)
| Err (e : string).
Arguments Ok {A} a.
Arguments Err {A} e.

(** The host calls made for their effect, which the host may refuse:
    [bpy.ops.mesh.primitive_uv_sphere_add], [bpy.ops.object.shade_auto_smooth],
    [new_mat.asset_generate_preview] and [bpy.ops.file.pack_all]. *)
Inductive Op :=
| OpSphereAdd
| OpShadeAutoSmooth
| OpAssetGeneratePreview
| OpPackAll.

(** The kinds of datablock the operator names. *)
Inductive IdKind := MaterialID | ObjectID.

(** Behaviour the source only calls: the Python runtime and the host
    application.

    - [str_lower s] is [s.lower()].
    - [mkdtemp_error w] tells when [tempfile.mkdtemp()] raises.
    - [zip_extractall p] is the outcome of
      [ZipFile(p).extractall(temp_dir)]: the names [os.listdir(temp_dir)]
      then yields, or the exception.
    - [usd_import] is [bpy.ops.wm.usd_import] on a path.
    - [images_load] is [bpy.data.images.load].
    - [op_error] tells when a call of [Op] raises (a failed poll, a
      reported error).
    - [id_name kind others name] is the name a datablock has after
      [name] was assigned to it while the other datablocks of its kind are
      named [others]: the host keeps names unique, not empty and within
      its name buffer.
    - [stored_label l] is what [node.label] reads after [l] was assigned:
      the host cuts it to its label buffer.
    - [packable img] tells whether [bpy.ops.file.pack_all] packs the file
      of an image. *)
Record Host := mkHost {
  str_lower : string -> string;
  mkdtemp_error : World -> option string;
  zip_extractall : string -> exc (list string);
  usd_import : string -> Scene -> exc Scene;
  images_load : string -> exc Image;
  op_error : Op -> Scene -> option string;
  id_name : IdKind -> list string -> string -> string;
  stored_label : string -> string;
  packable : Image -> bool }.

(** *** Field updates *)

Definition set_node_image (i : option Image) (n : Node) : Node :=
  mkNode (node_type n) i (node_label n) (node_location n) (node_uv_map n).
Definition set_node_label (l : string) (n : Node) : Node :=
  mkNode (node_type n) (node_image n) l (node_location n) (node_uv_map n).
Definition set_node_location_x (x : Z) (n : Node) : Node :=
  mkNode (node_type n) (node_image n) (node_label n) (x, snd (node_location n)) (node_uv_map n).
Definition set_node_location_y (y : Z) (n : Node) : Node :=
  mkNode (node_type n) (node_image n) (node_label n) (fst (node_location n), y) (node_uv_map n).
Definition set_node_uv_map (u : string) (n : Node) : Node :=
  mkNode (node_type n) (node_image n) (node_label n) (node_location n) u.

Definition set_mat_name (s : string) (m : Material) : Material :=
  mkMaterial s (node_tree m) (displacement_method m) (asset_data m).
Definition set_node_tree (t : option (list Node)) (m : Material) : Material :=
  mkMaterial (mat_name m) t (displacement_method m) (asset_data m).
Definition set_displacement_method (d : string) (m : Material) : Material :=
  mkMaterial (mat_name m) (node_tree m) d (asset_data m).
Definition set_asset_data (a : option AssetData) (m : Material) : Material :=
  mkMaterial (mat_name m) (node_tree m) (displacement_method m) a.

Definition set_author (s : string) (a : AssetData) : AssetData := mkAssetData s (license a).
Definition set_license (s : string) (a : AssetData) : AssetData := mkAssetData (author a) s.

Definition set_obj_name (s : string) (o : Object) : Object :=
  mkObject s (obj_materials o).
Definition set_obj_materials (l : list nat) (o : Object) : Object :=
  mkObject (obj_name o) l.

Definition set_materials (l : list Material) (s : Scene) : Scene :=
  mkScene l (images s) (objects s) (active_object s) (packed_images s).
Definition set_images (l : list Image) (s : Scene) : Scene :=
  mkScene (materials s) l (objects s) (active_object s) (packed_images s).
Definition set_objects (l : list Object) (s : Scene) : Scene :=
  mkScene (materials s) (images s) l (active_object s) (packed_images s).
Definition set_active_object (a : option nat) (s : Scene) : Scene :=
  mkScene (materials s) (images s) (objects s) a (packed_images s).
Definition set_packed_images (p : gset nat) (s : Scene) : Scene :=
  mkScene (materials s) (images s) (objects s) (active_object s) p.

Definition set_scene (s : Scene) (w : World) : World :=
  mkWorld s (tmpfs w) (reports w).
Definition set_tmpfs (f : gmap nat (list string)) (w : World) : World :=
  mkWorld (scene w) f (reports w).
Definition add_report (l : Level) (msg : string) (w : World) : World :=
  mkWorld (scene w) (tmpfs w) (reports w ++ [(l, msg)])%list.

(** ** The operator monad: state, [continue] and exceptions *)

Inductive outcome (A : Type) :=
| Normal (a : A)
| Continue
| Raise (e : string).
Arguments Normal {A} a.
Arguments Continue {A}.
Arguments Raise {A} e.

Definition M (A : Type) : Type := World -> outcome A * World.

Definition ret {A} (a : A) : M A := fun w => (Normal a, w).

Definition bind {A B} (m : M A) (k : A -> M B) : M B :=
  fun w =>
    match m w with
    | (Normal a, w') => k a w'
    | (Continue, w') => (Continue, w')
    | (Raise e, w') => (Raise e, w')
    end.

Declare Scope op_scope.
Delimit Scope op_scope with op.
Notation "x <- m ;; k" := (bind m (fun x => k))
  (at level 100, m at next level, right associativity) : op_scope.
Notation "m ;; k" := (bind m (fun _ => k))
  (at level 100, right associativity) : op_scope.
Open Scope op_scope.

Definition raise {A} (e : string) : M A := fun w => (Raise e, w).
Definition continue_ {A} : M A := fun w => (Continue, w).
Definition get_scene : M Scene := fun w => (Normal (scene w), w).
Definition modify_scene (f : Scene -> Scene) : M unit :=
  fun w => (Normal tt, set_scene (f (scene w)) w).
Definition lift_exc {A} (r : exc A) : M A :=
  match r with Ok a => ret a | Err e => raise e end.

(** [self.report({lvl}, msg)] *)
Definition report (lvl : Level) (msg : string) : M unit :=
  fun w => (Normal tt, add_report lvl msg w).

(** [try: m  except Exception as e: handler(e)] *)
Definition try_except {A} (m : M A) (handler : string -> M A) : M A :=
  fun w =>
    match m w with
    | (Raise e, w') => handler e w'
    | r => r
    end.

(** [try: m  finally: final]: [final] runs on every outcome of [m]; when it
    completes, the pending outcome of [m] (also a [continue] or an
    exception) is resumed. *)
Definition try_finally {A} (m : M A) (final : M unit) : M A :=
  fun w =>
    let '(o, w1) := m w in
    match final w1 with
    | (Normal _, w2) => (o, w2)
    | (Continue, w2) => (Continue, w2)
    | (Raise e, w2) => (Raise e, w2)
    end.

(** [for x in l: f(x)]: a [continue] in the body ends that iteration only,
    an exception ends the loop. *)
Fixpoint for_each {A} (l : list A) (f : A -> M unit) : M unit :=
  match l with
  | [] => ret tt
  | x :: l' =>
      fun w =>
        match f x w with
        | (Normal _, w') => for_each l' f w'
        | (Continue, w') => for_each l' f w'
        | (Raise e, w') => (Raise e, w')
        end
  end.

(** ** The operator *)

Definition image_extensions : list string :=
  [".png"; ".jpg"; ".jpeg"; ".tga"; ".bmp"; ".tiff"].

(** The node [nodes.new('ShaderNodeTexImage')] creates. *)
Definition new_tex_image_node : Node :=
  mkNode "TEX_IMAGE" None "" (0, 0) "".

(** [tempfile.mkdtemp()] picks a name that does not exist yet. *)
Definition fresh_dir (fs : gmap nat (list string)) : nat :=
  S (max_list (elements (dom fs))).

Definition temp_path (d : nat) : string :=
  "/tmp/tmp" ++ NilZero.string_of_uint (Nat.to_uint d).

(** [os.listdir(temp_dir)] *)
Definition listdir (d : nat) : M (list string) :=
  fun w =>
    match tmpfs w !! d with
    | Some l => (Normal l, w)
    | None => (Raise "FileNotFoundError", w)
    end.

(** [shutil.rmtree(temp_dir, ignore_errors=True)] *)
Definition rmtree (d : nat) : M unit :=
  fun w => (Normal tt, set_tmpfs (delete d (tmpfs w)) w).

(** [bpy.data.materials[name]]: the material of that name. *)
Fixpoint materials_getitem (name : string) (i : nat) (l : list Material) : option nat :=
  match l with
  | [] => None
  | m :: l' =>
      if String.eqb (mat_name m) name then Some i
      else materials_getitem name (S i) l'
  end.

(** Reading through a reference held in a Python variable. *)
Definition get_material (new_mat : nat) : M Material :=
  fun w =>
    match materials (scene w) !! new_mat with
    | Some m => (Normal m, w)
    | None => (Raise "ReferenceError", w)
    end.

Definition modify_material (new_mat : nat) (f : Material -> Material) : M unit :=
  modify_scene (fun s => set_materials (alter f new_mat (materials s)) s).

(** [new_mat.node_tree.nodes]; a material without a node tree has
    [node_tree = None], and the attribute access raises. *)
Definition get_nodes (new_mat : nat) : M (list Node) :=
  m <- get_material new_mat;;
  match node_tree m with
  | Some nodes => ret nodes
  | None => raise "'NoneType' object has no attribute 'nodes'"
  end.

Definition modify_nodes (new_mat : nat) (f : list Node -> list Node) : M unit :=
  modify_material new_mat (fun m => set_node_tree (f <$> node_tree m) m).

Definition modify_node (new_mat tex_node : nat) (f : Node -> Node) : M unit :=
  modify_nodes new_mat (alter f tex_node).

(** [new_mat.node_tree.nodes.new('ShaderNodeTexImage')]: the new node is
    appended to the collection. *)
Definition nodes_new_tex_image (new_mat : nat) : M nat :=
  nodes <- get_nodes new_mat;;
  modify_nodes new_mat (fun l => (l ++ [new_tex_image_node])%list);;
  ret (length nodes).

Definition get_object (obj : nat) : M Object :=
  fun w =>
    match objects (scene w) !! obj with
    | Some o => (Normal o, w)
    | None => (Raise "ReferenceError", w)
    end.

Definition modify_object (obj : nat) (f : Object -> Object) : M unit :=
  modify_scene (fun s => set_objects (alter f obj (objects s)) s).

(** [context.active_object], then an attribute access on it. *)
Definition get_active_object : M nat :=
  s <- get_scene;;
  match active_object s with
  | Some o => ret o
  | None => raise "'NoneType' object has no attribute 'name'"
  end.

(** The names of the materials other than [new_mat], and of the objects
    other than [obj]. *)
Definition other_material_names (s : Scene) (new_mat : nat) : list string :=
  map mat_name (delete new_mat (materials s)).
Definition other_object_names (s : Scene) (obj : nat) : list string :=
  map obj_name (delete obj (objects s)).

Section Operator.

Variable h : Host.

(** [img_name.lower() in ex.lower() or ex.lower() in img_name.lower()] *)
Definition name_matches (img_name ex : string) : bool :=
  Py.contains (str_lower h ex) (str_lower h img_name)
  || Py.contains (str_lower h img_name) (str_lower h ex).

(** [any(... for ex in existing_images)] *)
Definition is_duplicate (img_name : string) (existing_images : gset string) : bool :=
  existsb (name_matches img_name) (elements existing_images).

(** [tempfile.mkdtemp()]: raises when the environment says so, else
    creates an empty directory. *)
Definition mkdtemp : M nat :=
  fun w =>
    match mkdtemp_error h w with
    | Some e => (Raise e, w)
    | None =>
        let d := fresh_dir (tmpfs w) in
        (Normal d, set_tmpfs (<[d := []]> (tmpfs w)) w)
    end.

(** [new_mat.name = name]: the host stores the name it makes of [name],
    given the names of the other materials. *)
Definition set_material_name (new_mat : nat) (name : string) : M unit :=
  s <- get_scene;;
  modify_material new_mat
    (set_mat_name (id_name h MaterialID (other_material_names s new_mat) name)).

(** [obj.name = name], likewise among the objects. *)
Definition set_object_name (obj : nat) (name : string) : M unit :=
  s <- get_scene;;
  modify_object obj
    (set_obj_name (id_name h ObjectID (other_object_names s obj) name)).

(** The object [primitive_uv_sphere_add] creates in scene [s]: the host
    names it after "Sphere"; it has no material slot yet. *)
Definition new_uv_sphere (s : Scene) : Object :=
  mkObject (id_name h ObjectID (map obj_name (objects s)) "Sphere") [].

(** What [bpy.ops.file.pack_all] packs: every image of [bpy.data.images]
    whose file the host can pack. *)
Definition pack_all_images (s : Scene) : gset nat :=
  list_to_set
    (List.filter (fun i => match images s !! i with
                           | Some img => packable h img
                           | None => false
                           end)
                 (seq 0 (length (images s)))).

(** A call of [Op]: raises when the host says so, else has its effect. *)
Definition call_op (op : Op) (effect : Scene -> Scene) : M unit :=
  s <- get_scene;;
  match op_error h op s with
  | Some e => raise e
  | None => modify_scene effect
  end.

(** [with zipfile.ZipFile(zip_path, 'r') as zip_ref: zip_ref.extractall(temp_dir)] *)
Definition extractall (zip_path : string) (temp_dir : nat) : M unit :=
  entries <- lift_exc (zip_extractall h zip_path);;
  fun w => (Normal tt, set_tmpfs (<[temp_dir := entries]> (tmpfs w)) w).

(** [bpy.ops.wm.usd_import(filepath=usdc_path, import_all_materials=True)] *)
Definition wm_usd_import (usdc_path : string) : M unit :=
  s <- get_scene;;
  s' <- lift_exc (usd_import h usdc_path s);;
  modify_scene (fun _ => s').

(** [bpy.data.images.load(img_path)] *)
Definition data_images_load (img_path : string) : M Image :=
  img <- lift_exc (images_load h img_path);;
  modify_scene (fun s => set_images (images s ++ [img])%list s);;
  ret img.

(** Step 4: [[bpy.data.materials[name] for name in bpy.data.materials.keys()
    if name not in existing_mats]] *)
Definition new_materials (existing_mats : gset string) (s : Scene) : list nat :=
  omap (fun name => materials_getitem name 0 (materials s))
       (List.filter (fun name => bool_decide (name ∉ existing_mats))
                    (map mat_name (materials s))).

(** Step 5: [next((n for n in nodes if n.type == 'OUTPUT_MATERIAL'), None)] *)
Definition find_output_node (nodes : list Node) : option Node :=
  List.find (fun n => String.eqb (node_type n) "OUTPUT_MATERIAL") nodes.

(** Step 6: the origin of the grid. *)
Definition grid_start (output_node : option Node) : Z * Z :=
  match output_node with
  | Some n => (fst (node_location n) + 400, snd (node_location n))
  | None => (400, 0)
  end.

Definition node_spacing_x : Z := 300.
Definition node_spacing_y : Z := 350.
Definition nodes_per_row : Z := 3.

(** Step 7: the names of the images the texture nodes reference. *)
Definition existing_images_of (nodes : list Node) : gset string :=
  list_to_set
    (omap (fun node =>
             if String.eqb (node_type node) "TEX_IMAGE"
             then image_name <$> node_image node
             else None)
          nodes).

(** Step 8: the loop over [os.listdir(temp_dir)]; [texture_nodes] is the
    list being appended to. *)
Fixpoint add_texture_nodes (new_mat : nat) (temp_dir : nat)
    (existing_images : gset string) (files : list string)
    (texture_nodes : list nat) : M (list nat) :=
  match files with
  | [] => ret texture_nodes
  | img_file :: rest =>
      if Py.endswith_any (str_lower h img_file) image_extensions then
        let img_path := Py.path_join (temp_path temp_dir) img_file in
        let img_name := fst (Py.splitext img_file) in
        if is_duplicate img_name existing_images then
          add_texture_nodes new_mat temp_dir existing_images rest texture_nodes
        else
          img <- data_images_load img_path;;
          tex_node <- nodes_new_tex_image new_mat;;
          modify_node new_mat tex_node (set_node_image (Some img));;
          modify_node new_mat tex_node (set_node_label (stored_label h img_file));;
          add_texture_nodes new_mat temp_dir existing_images rest
                            (texture_nodes ++ [tex_node])%list
      else
        add_texture_nodes new_mat temp_dir existing_images rest texture_nodes
  end.

(** Step 9: [for i, tex_node in enumerate(texture_nodes)], from index [i]. *)
Fixpoint position_texture_nodes (new_mat : nat) (grid_start_x grid_start_y : Z)
    (i : Z) (texture_nodes : list nat) : M unit :=
  match texture_nodes with
  | [] => ret tt
  | tex_node :: rest =>
      let row := i / nodes_per_row in
      let col := i mod nodes_per_row in
      modify_node new_mat tex_node
        (set_node_location_x (grid_start_x + col * node_spacing_x));;
      modify_node new_mat tex_node
        (set_node_location_y (grid_start_y - row * node_spacing_y));;
      position_texture_nodes new_mat grid_start_x grid_start_y (i + 1) rest
  end.

(** Step 10: the preview object. *)
Definition create_preview_object (new_mat : nat) : M unit :=
  modify_material new_mat (set_displacement_method "BOTH");;
  call_op OpSphereAdd
    (fun s => set_active_object (Some (length (objects s)))
                (set_objects (objects s ++ [new_uv_sphere s])%list s));;
  obj <- get_active_object;;
  m <- get_material new_mat;;
  set_object_name obj ("ImportedSphere_" ++ mat_name m);;
  call_op OpShadeAutoSmooth (fun s => s);;
  o <- get_object obj;;
  match obj_materials o with
  | [] => modify_object obj (set_obj_materials (obj_materials o ++ [new_mat])%list)
  | _ :: _ => modify_object obj (fun o' => set_obj_materials (<[0%nat := new_mat]> (obj_materials o')) o')
  end.

(** [new_mat.asset_mark()]: the material gets its asset metadata, empty. *)
Definition asset_mark (m : Material) : Material :=
  match asset_data m with
  | Some _ => m
  | None => set_asset_data (Some (mkAssetData "" "")) m
  end.

(** Writing [new_mat.asset_data.author] or [.license]. *)
Definition modify_asset_data (new_mat : nat) (f : AssetData -> AssetData) : M unit :=
  m <- get_material new_mat;;
  match asset_data m with
  | Some _ => modify_material new_mat (fun m' => set_asset_data (f <$> asset_data m') m')
  | None => raise "'NoneType' object has no attribute 'author'"
  end.

(** Step 11: tag as asset and adjust the metadata. *)
Definition tag_asset (new_mat : nat) : M unit :=
  modify_material new_mat asset_mark;;
  m <- get_material new_mat;;
  if Py.startswith (mat_name m) "aCG_" then
    set_material_name new_mat (Py.drop 4 (mat_name m));;
    modify_asset_data new_mat (set_author "AmbientCG.com");;
    modify_asset_data new_mat (set_license "Creative Commons CC0 1.0 Universal License")
  else ret tt.

(** Step 12: every UV-map node uses the default map name. *)
Definition normalize_uvmap (new_mat : nat) : M unit :=
  _ <- get_nodes new_mat;;
  modify_nodes new_mat
    (map (fun node => if String.eqb (node_type node) "UVMAP"
                      then set_node_uv_map "UVMap" node else node)).

(** Steps 5 to 9: the texture nodes and their layout. *)
Definition add_textures (temp_dir : nat) (new_mat : nat) : M unit :=
  nodes <- get_nodes new_mat;;
  let output_node := find_output_node nodes in
  let '(grid_start_x, grid_start_y) := grid_start output_node in
  nodes <- get_nodes new_mat;;
  let existing_images := existing_images_of nodes in
  files <- listdir temp_dir;;
  texture_nodes <- add_texture_nodes new_mat temp_dir existing_images files [];;
  position_texture_nodes new_mat grid_start_x grid_start_y 0 texture_nodes.

(** Steps 10 to 15: preview object, asset metadata, UV map, thumbnail,
    packing. *)
Definition finish_material (new_mat : nat) : M unit :=
  create_preview_object new_mat;;
  tag_asset new_mat;;
  normalize_uvmap new_mat;;
  call_op OpAssetGeneratePreview (fun s => s);;
  call_op OpPackAll
    (fun s => set_packed_images (packed_images s ∪ pack_all_images s) s).

(** Steps 5 to 15 on the material selected in step 4. *)
Definition build_material (temp_dir : nat) (new_mat : nat) : M unit :=
  add_textures temp_dir new_mat;;
  finish_material new_mat.

(** Steps 3 to 15, once the scene-description file is known. *)
Definition import_usdc (zip_path : string) (temp_dir : nat) (usdc_file : string) : M unit :=
  let usdc_path := Py.path_join (temp_path temp_dir) usdc_file in
  s <- get_scene;;
  let existing_mats : gset string := list_to_set (map mat_name (materials s)) in
  wm_usd_import usdc_path;;
  s <- get_scene;;
  match new_materials existing_mats s with
  | [] =>
      report WARNING ("No new materials imported from " ++ Py.basename zip_path);;
      continue_
  | new_mat :: _ => build_material temp_dir new_mat
  end.

(** The body of the [try] block. *)
Definition try_body (zip_path : string) (temp_dir : nat) : M unit :=
  extractall zip_path temp_dir;;
  files <- listdir temp_dir;;
  let usdc_files := List.filter (fun f => Py.endswith f ".usdc") files in
  match usdc_files with
  | [] =>
      report WARNING ("No .usdc file found in " ++ Py.basename zip_path);;
      continue_
  | usdc_file :: _ => import_usdc zip_path temp_dir usdc_file
  end.

(** One iteration of [for zip_path in zip_paths]. *)
Definition process_archive (zip_path : string) : M unit :=
  report INFO ("Importing " ++ Py.basename zip_path);;
  temp_dir <- mkdtemp;;
  try_finally
    (try_except (try_body zip_path temp_dir)
       (fun e => report ERROR ("Failed importing " ++ Py.basename zip_path ++ ": " ++ e)))
    (rmtree temp_dir).

Inductive Status := FINISHED.

(** The loop of [execute] over [zip_paths], and its return value. *)
Definition import_archives (zip_paths : list string) : M Status :=
  for_each zip_paths process_archive;;
  ret FINISHED.

(** The selected files: [self.filepath] alone when [self.files] is empty,
    else the names of [self.files] in the directory of [self.filepath]. *)
Definition selected_paths (filepath : string) (files : list string) : list string :=
  let directory := Py.dirname filepath in
  match files with
  | [] => [filepath]
  | _ :: _ => map (fun name => Py.path_join directory name) files
  end.

(** [IMPORT_OT_usdz_material.execute]; [filepath] and [files] are the
    properties the file selector fills in. *)
Definition execute (filepath : string) (files : list string) : M Status :=
  import_archives (selected_paths filepath files).

End Operator.

(** ** What step 8 is expected to produce *)

(** The files of a listing that get a texture node: an image extension,
    and no match against the referenced image names. *)
Definition gets_texture_node (h : Host) (existing_images : gset string)
    (img_file : string) : bool :=
  Py.endswith_any (str_lower h img_file) image_extensions
  && negb (is_duplicate h (fst (Py.splitext img_file)) existing_images).

(** The image the host loads for a file of the temporary directory. *)
Definition loaded_image (h : Host) (temp_dir : nat) (img_file : string) : option Image :=
  match images_load h (Py.path_join (temp_path temp_dir) img_file) with
  | Ok img => Some img
  | Err _ => None
  end.

(** The texture node of a file: bound to the loaded image, labelled with
    the file name as the host stores it, not yet placed. *)
Definition texture_node_for (h : Host) (temp_dir : nat) (img_file : string) : Node :=
  mkNode "TEX_IMAGE" (loaded_image h temp_dir img_file) (stored_label h img_file)
    (0, 0) "".

(** The world in which material [new_mat] has become [m']. *)
Definition with_material (w : World) (new_mat : nat) (m' : Material) : World :=
  set_scene (set_materials (<[new_mat := m']> (materials (scene w))) (scene w)) w.

(** The world after the texture nodes [new_nodes] were appended to the node
    tree [nodes] of material [new_mat] and the images [imgs] were loaded. *)
Definition with_textures (w : World) (new_mat : nat) (m : Material)
    (nodes new_nodes : list Node) (imgs : list Image) : World :=
  set_scene
    (set_images (images (scene w) ++ imgs)%list
       (set_materials
          (<[new_mat := set_node_tree (Some (nodes ++ new_nodes)%list) m]>
             (materials (scene w)))
          (scene w)))
    w.

(** The node tree of a material of the world. *)
Definition material_nodes (w : World) (new_mat : nat) : option (list Node) :=
  materials (scene w) !! new_mat ≫= node_tree.

(** ** What step 9 is expected to produce *)

(** The column and the row of the [i]-th new node give its place. *)
Definition grid_position (grid_start_x grid_start_y : Z) (i : Z) : Z * Z :=
  (grid_start_x + (i mod 3) * 300, grid_start_y - (i / 3) * 350).

(** The node list after the loop of step 9 has run over [texture_nodes]
    from index [i]. *)
Fixpoint placed (grid_start_x grid_start_y : Z) (i : Z)
    (texture_nodes : list nat) (nodes : list Node) : list Node :=
  match texture_nodes with
  | [] => nodes
  | tex_node :: rest =>
      placed grid_start_x grid_start_y (i + 1) rest
        (alter (set_node_location_y (snd (grid_position grid_start_x grid_start_y i)))
           tex_node
           (alter (set_node_location_x (fst (grid_position grid_start_x grid_start_y i)))
              tex_node nodes))
  end.

(** A computation that leaves the temporary directories and the reports
    as they are: it works on the scene only. *)
Definition scene_only {A} (m : M A) : Prop :=
  forall w, tmpfs (snd (m w)) = tmpfs w /\ reports (snd (m w)) = reports w.

(** ** The messages of the operator *)

Definition msg_importing (zip_path : string) : Level * string :=
  (INFO, "Importing " ++ Py.basename zip_path).
Definition msg_no_usdc (zip_path : string) : Level * string :=
  (WARNING, "No .usdc file found in " ++ Py.basename zip_path).
Definition msg_no_new_materials (zip_path : string) : Level * string :=
  (WARNING, "No new materials imported from " ++ Py.basename zip_path).
Definition msg_failed (zip_path e : string) : Level * string :=
  (ERROR, "Failed importing " ++ Py.basename zip_path ++ ": " ++ e).

(** The reports of one level. *)
Definition reports_of (l : Level) (rs : list (Level * string)) : list (Level * string) :=
  List.filter (fun r => bool_decide (fst r = l)) rs.

(** The world in which [tempfile.mkdtemp] is called for an archive: the
    "Importing" message is reported. *)
Definition announced (zip_path : string) (w : World) : World :=
  add_report INFO ("Importing " ++ Py.basename zip_path) w.

(** The world in which the [try] block of an archive starts: the
    "Importing" message is reported and the temporary directory exists. *)
Definition try_start (zip_path : string) (w : World) : World :=
  set_tmpfs (<[fresh_dir (tmpfs w) := []]> (tmpfs w))
    (add_report INFO ("Importing " ++ Py.basename zip_path) w).

(** ** What the environment is known to do *)

(** [str.lower] on ASCII text: an ASCII string is lowered letter by
    letter, and the ASCII end of any string is lowered so whatever comes
    before it. *)
Definition lowers_ascii (h : Host) : Prop :=
  (forall s, Py.is_ascii s = true -> str_lower h s = Py.ascii_lower s) /\
  (forall pre s, Py.is_ascii s = true ->
     exists pre', str_lower h (pre ++ s) = pre' ++ Py.ascii_lower s).

(** The host stores a name as it is given. *)
Definition keeps_name (h : Host) (kind : IdKind) (others : list string)
    (name : string) : Prop :=
  id_name h kind others name = name.

(** ** Sample hosts, for the concrete runs *)

(** Names as the host application makes them in the simple cases: an
    empty name becomes the default of the kind, a name is cut to 63
    bytes, and a name in use gets the first free numeric suffix. *)
Definition default_name (kind : IdKind) : string :=
  match kind with
  | MaterialID => "Material"
  | ObjectID => "Object"
  end.

Definition sample_id_name (kind : IdKind) (others : list string) (name : string) : string :=
  let base := if String.eqb name "" then default_name kind else Py.take 63 name in
  match List.find (fun c => negb (existsb (String.eqb c) others))
          (base :: map (fun suffix => base ++ suffix) [".001"; ".002"; ".003"]) with
  | Some c => c
  | None => base ++ ".004"
  end.

(** An image is packable when it has a file. *)
Definition has_file (img : Image) : bool :=
  negb (String.eqb (image_filepath img) "").

(** A material as the USD importer leaves it: a shader, one texture node,
    a UV-map node and the output node. *)
Definition sample_material (name image : string) (out : Z * Z) : Material :=
  mkMaterial name
    (Some [mkNode "BSDF_PRINCIPLED" None "" (0, 0) "";
           mkNode "TEX_IMAGE" (Some (mkImage image ("//textures/" ++ image))) "" (-300, 0) "";
           mkNode "UVMAP" None "" (-600, 0) "st";
           mkNode "OUTPUT_MATERIAL" None "" out ""])
    "BUMP" None.

(** A host on which every call succeeds: [archives] gives the content of
    each archive, the import of a file [X.usdc] adds the material [mat X].
    File names are ASCII. *)
Definition sample_host (archives : list (string * list string))
    (mat : string -> Material) : Host :=
  mkHost
    Py.ascii_lower
    (fun _ => None)
    (fun p => match List.find (fun a => String.eqb (fst a) p) archives with
              | Some a => Ok (snd a)
              | None => Err "File is not a zip file"
              end)
    (fun path s =>
       Ok (set_materials
             (materials s ++ [mat (fst (Py.splitext (Py.basename path)))])%list s))
    (fun path => Ok (mkImage (Py.basename path) path))
    (fun _ _ => None)
    sample_id_name
    (Py.take 63)
    has_file.

(** The same host with one behaviour replaced. *)
Definition with_usd_import (f : string -> Scene -> exc Scene) (h : Host) : Host :=
  mkHost (str_lower h) (mkdtemp_error h) (zip_extractall h) f (images_load h)
    (op_error h) (id_name h) (stored_label h) (packable h).
Definition with_images_load (f : string -> exc Image) (h : Host) : Host :=
  mkHost (str_lower h) (mkdtemp_error h) (zip_extractall h) (usd_import h) f
    (op_error h) (id_name h) (stored_label h) (packable h).
Definition with_op_error (f : Op -> Scene -> option string) (h : Host) : Host :=
  mkHost (str_lower h) (mkdtemp_error h) (zip_extractall h) (usd_import h)
    (images_load h) f (id_name h) (stored_label h) (packable h).
Definition with_mkdtemp_error (f : World -> option string) (h : Host) : Host :=
  mkHost (str_lower h) f (zip_extractall h) (usd_import h)
    (images_load h) (op_error h) (id_name h) (stored_label h) (packable h).

Definition empty_scene : Scene := mkScene [] [] [] None ∅.
Definition empty_world : World := mkWorld empty_scene ∅ [].

(** An archive with seven images, imported as a material whose output
    node is at (0, 0). *)
Definition tiles_host : Host :=
  sample_host
    [("/in/Tiles.zip",
      ["Tiles.usdc"; "t0.png"; "t1.png"; "t2.png"; "t3.png"; "t4.png";
       "t5.png"; "t6.png"])]
    (fun name => sample_material name "Tiles_Color" (0, 0)).

(** The labels and locations of the nodes of a material, from node [k] on. *)
Definition labelled_locations (w : World) (new_mat k : nat) : option (list (string * (Z * Z))) :=
  (fun nodes => map (fun n => (node_label n, node_location n)) (List.skipn k nodes))
  <$> material_nodes w new_mat.

(** An archive whose material already references the image
    "Concrete_Albedo", with two image files of similar names. *)
Definition concrete_host : Host :=
  sample_host
    [("/in/Concrete.zip",
      ["Concrete.usdc"; "concrete_albedo.png"; "Albedo_Concrete.jpg"])]
    (fun name => sample_material name "Concrete_Albedo" (0, 0)).

(** An archive with an image file whose name has 66 bytes. *)
Definition long_name_host : Host :=
  sample_host
    [("/in/Long.zip",
      ["Long.usdc";
       "PavingStones_with_a_long_descriptive_name_8K_AmbientOcclusion.jpeg"])]
    (fun name => sample_material name "Long_Color" (0, 0)).

(** An archive with two image files whose names contain one another. *)
Definition wall_host : Host :=
  sample_host
    [("/in/Wall.zip", ["Wall.usdc"; "drywall.png"; "wall.png"])]
    (fun name => sample_material name "Plaster_Color" (0, 0)).

(** The same archive, imported as a material that references an image
    named "wall". *)
Definition wall_image_host : Host :=
  sample_host
    [("/in/Wall.zip", ["Wall.usdc"; "drywall.png"; "wall.png"])]
    (fun name => sample_material name "wall" (0, 0)).

(** An archive without a scene-description file; the name in capitals
    does not end in ".usdc". *)
Definition textures_host : Host :=
  sample_host
    [("/in/Textures.zip", ["readme.txt"; "wood.png"; "scene.USDC"])]
    (fun name => sample_material name "Wood_Color" (0, 0)).

(** A host whose import adds nothing: the scene already has the material
    of the archive. *)
Definition reimport_host : Host :=
  with_usd_import (fun _ s => Ok s)
    (sample_host [("/in/Bricks.zip", ["Bricks.usdc"; "Bricks_Normal.png"])]
       (fun name => sample_material name "Bricks_Color" (0, 0))).

Definition bricks_world : World :=
  mkWorld (set_materials [sample_material "Bricks" "Bricks_Color" (0, 0)] empty_scene)
          ∅ [].

(** An archive that imports well, next to a file that is no archive. *)
Definition bricks_host : Host :=
  sample_host
    [("/in/Bricks.zip", ["Bricks.usdc"; "Bricks_Color.png"; "Bricks_Normal.jpg"])]
    (fun name => sample_material ("aCG_" ++ name) "Bricks_Color" (300, 100)).

(** The same host, on which packing fails. *)
Definition pack_fails_host : Host :=
  with_op_error
    (fun op _ => match op with
                 | OpPackAll => Some "Error: cannot pack"
                 | _ => None
                 end)
    bricks_host.

(** The same host, on which the disk is full once an image was loaded:
    [tempfile.mkdtemp] raises from then on. *)
Definition disk_full_host : Host :=
  with_mkdtemp_error
    (fun w => match images (scene w) with
              | [] => None
              | _ :: _ => Some "[Errno 28] No space left on device"
              end)
    bricks_host.

(** An archive with two scene-description files. *)
Definition two_scenes_host : Host :=
  sample_host
    [("/in/Two.zip", ["first.usdc"; "wood.png"; "second.usdc"])]
    (fun name => sample_material name "Wood_Color" (0, 0)).

(** A material whose nodes reference no image: the output node alone. *)
Definition plain_material (name : string) : Material :=
  mkMaterial name (Some [mkNode "OUTPUT_MATERIAL" None "" (0, 0) ""]) "BUMP" None.

Definition plain_world : World :=
  mkWorld (set_materials [plain_material "Plain"] empty_scene)
          {[1%nat := ["Plain.usdc"; "a.png"; "notes.txt"; "B.JPG"]]} [].

(** What work on material [new_mat] may change from [w] to [w']: that
    material, images and objects added at the end of their stores, and
    images that become packed. *)
Definition touches_only (new_mat : nat) (w w' : World) : Prop :=
  (forall j, j <> new_mat ->
     materials (scene w') !! j = materials (scene w) !! j) /\
  length (materials (scene w')) = length (materials (scene w)) /\
  (exists imgs, images (scene w') = (images (scene w) ++ imgs)%list) /\
  (exists objs, objects (scene w') = (objects (scene w) ++ objs)%list) /\
  packed_images (scene w) ⊆ packed_images (scene w') /\
  tmpfs w' = tmpfs w /\
  reports w' = reports w.

(** A computation that stays within [touches_only], whatever its outcome. *)
Definition works_on {A} (new_mat : nat) (m : M A) : Prop :=
  forall w, touches_only new_mat w (snd (m w)).

(** A host whose import adds two materials at once. *)
Definition two_materials_host : Host :=
  with_usd_import
    (fun _ s =>
       Ok (set_materials
             (materials s ++ [sample_material "aCG_A" "A_Color" (0, 0);
                              sample_material "aCG_B" "B_Color" (0, 0)])%list s))
    (sample_host [("/in/Pair.zip", ["Pair.usdc"])]
       (fun name => sample_material name "A_Color" (0, 0))).

(** A host that cannot load the file "broken.png". *)
Definition broken_image_host : Host :=
  with_images_load
    (fun path => if Py.endswith path "broken.png"
                 then Err "Error: cannot read image"
                 else Ok (mkImage (Py.basename path) path))
    (sample_host [("/in/Plain.zip", ["Plain.usdc"; "a.png"; "broken.png"; "c.png"])]
       (fun name => plain_material ("aCG_" ++ name))).

(** The name of the preview object of material [m], created in world [w]:
    what the host makes of "ImportedSphere_" and the material name, next
    to the objects of [w]. *)
Definition preview_object_name (h : Host) (w : World) (m : Material) : string :=
  id_name h ObjectID (map obj_name (objects (scene w)))
    ("ImportedSphere_" ++ mat_name m).

(** A computation that never ends in [continue]. *)
Definition never_continues {A} (m : M A) : Prop :=
  forall w, fst (m w) <> Continue.

(** Step 12 on one node. *)
Definition uvmap_default (node : Node) : Node :=
  if String.eqb (node_type node) "UVMAP" then set_node_uv_map "UVMap" node else node.

(** The material steps 10 to 15 make of a material [m] with nodes [nodes],
    next to materials named [others]. *)
Definition finished_material (h : Host) (others : list string) (m : Material)
    (nodes : list Node) : Material :=
  mkMaterial
    (if Py.startswith (mat_name m) "aCG_"
     then id_name h MaterialID others (Py.drop 4 (mat_name m))
     else mat_name m)
    (Some (map uvmap_default nodes))
    "BOTH"
    (if Py.startswith (mat_name m) "aCG_"
     then Some (mkAssetData "AmbientCG.com" "Creative Commons CC0 1.0 Universal License")
     else asset_data (asset_mark m)).

(** * Properties *)

(** ** The string helpers on examples *)

Example lower_ex : Py.ascii_lower "Concrete_Albedo.PNG" = "concrete_albedo.png".
Proof. reflexivity. Qed.

Example splitext_ex1 : Py.splitext "concrete_albedo.png" = ("concrete_albedo", ".png").
Proof. reflexivity. Qed.

Example splitext_ex2 : Py.splitext ".png" = (".png", "").
Proof. reflexivity. Qed.

Example splitext_ex3 : Py.splitext "a.tar.gz" = ("a.tar", ".gz").
Proof. reflexivity. Qed.

Example splitext_ex4 : Py.splitext "dir.d/..x" = ("dir.d/..x", "").
Proof. reflexivity. Qed.

Example splitext_ex5 : Py.splitext "dir.d/.a.x" = ("dir.d/.a", ".x").
Proof. reflexivity. Qed.

Example dirname_ex :
  Py.dirname "/home/u/Bricks.zip" = "/home/u" /\ Py.dirname "/Bricks.zip" = "/" /\
  Py.dirname "Bricks.zip" = "" /\ Py.dirname "/home//Bricks.zip" = "/home".
Proof. repeat split; reflexivity. Qed.

Example selected_paths_ex :
  selected_paths "/in/Bricks.zip" [] = ["/in/Bricks.zip"] /\
  selected_paths "/in/Bricks.zip" ["Bricks.zip"; "Wood.zip"]
    = ["/in/Bricks.zip"; "/in/Wood.zip"].
Proof. split; reflexivity. Qed.

Example basename_ex : Py.basename "/home/u/Bricks.zip" = "Bricks.zip".
Proof. reflexivity. Qed.

Example contains_ex : Py.contains "drywall" "wall" = true /\ Py.contains "wall" "drywall" = false.
Proof. split; reflexivity. Qed.

(** ** What the string helpers compute *)

Lemma startswith_spec (s p : string) :
  Py.startswith s p = true <-> exists t, s = p ++ t.
Proof.
  revert s. induction p as [|a p IH]; intros s.
  - split; [intros _; exists s; reflexivity | intros _; by destruct s].
  - destruct s as [|b s]; simpl.
    + split; [discriminate | intros [t Ht]; discriminate].
    + destruct (Ascii.eqb a b) eqn:E.
      * apply Ascii.eqb_eq in E. subst b. rewrite IH.
        split; intros [t Ht]; exists t; [by rewrite Ht | by injection Ht].
      * apply Ascii.eqb_neq in E.
        split; [discriminate | intros [t Ht]; injection Ht as -> _; congruence].
Qed.

Lemma contains_nil (sub : string) :
  Py.contains "" sub = Py.startswith "" sub.
Proof. simpl. apply orb_false_r. Qed.

Lemma contains_cons (c : ascii) (s sub : string) :
  Py.contains (String c s) sub = Py.startswith (String c s) sub || Py.contains s sub.
Proof. reflexivity. Qed.

Lemma contains_spec (s sub : string) :
  Py.contains s sub = true <-> exists pre post, s = pre ++ sub ++ post.
Proof.
  induction s as [|c s IH].
  - rewrite contains_nil, startswith_spec. split.
    + intros [t Ht]. exists "", t. exact Ht.
    + intros (pre & post & Ht). destruct pre; [|discriminate].
      exists post. exact Ht.
  - rewrite contains_cons, orb_true_iff, IH, startswith_spec. split.
    + intros [[t Ht] | (pre & post & Ht)].
      * exists "", t. exact Ht.
      * exists (String c pre), post. simpl. by rewrite Ht.
    + intros (pre & post & Ht). destruct pre as [|a pre].
      * left. exists post. exact Ht.
      * right. simpl in Ht. injection Ht as _ Ht. eauto.
Qed.

(** A file is skipped exactly when some referenced image name contains its
    lowercased name, or is contained in it. *)
Lemma is_duplicate_spec (h : Host) (img_name : string) (existing_images : gset string) :
  is_duplicate h img_name existing_images = true <->
  exists ex, ex ∈ existing_images /\
    ((exists pre post, str_lower h ex = pre ++ str_lower h img_name ++ post) \/
     (exists pre post, str_lower h img_name = pre ++ str_lower h ex ++ post)).
Proof.
  unfold is_duplicate, name_matches. rewrite existsb_exists. split.
  - intros (ex & Hin & Hm). exists ex. split.
    + apply elem_of_elements, list_elem_of_In, Hin.
    + apply orb_true_iff in Hm. by rewrite <- !contains_spec.
  - intros (ex & Hin & Hm). exists ex. split.
    + apply list_elem_of_In, elem_of_elements, Hin.
    + apply orb_true_iff. by rewrite !contains_spec.
Qed.

(** ** Running the monad *)

(** ** Running the monad *)

Lemma alter_lookup {A} (f : A -> A) (i : nat) (l : list A) (x : A) :
  l !! i = Some x -> alter f i l = <[i := f x]> l.
Proof.
  revert i. induction l as [|y l IH]; intros [|i] Hx; simpl in *; try done.
  - by injection Hx as ->.
  - f_equal. by apply IH.
Qed.

Lemma alter_snoc {A} (f : A -> A) (l : list A) (x : A) :
  alter f (length l) (l ++ [x])%list = (l ++ [f x])%list.
Proof. induction l as [|y l IH]; simpl; [done | by f_equal]. Qed.

Lemma set_node_tree_id (m : Material) (t : option (list Node)) :
  node_tree m = t -> set_node_tree t m = m.
Proof. intros <-. by destruct m. Qed.

Lemma get_material_ok (new_mat : nat) (w : World) (m : Material) :
  materials (scene w) !! new_mat = Some m ->
  get_material new_mat w = (Normal m, w).
Proof. intros Hm. unfold get_material. by rewrite Hm. Qed.

Lemma get_nodes_ok (new_mat : nat) (w : World) (m : Material) (nodes : list Node) :
  materials (scene w) !! new_mat = Some m ->
  node_tree m = Some nodes ->
  get_nodes new_mat w = (Normal nodes, w).
Proof.
  intros Hm Hn. unfold get_nodes, bind. rewrite (get_material_ok _ _ _ Hm).
  by rewrite Hn.
Qed.

Lemma bind_normal {A B} (m : M A) (k : A -> M B) (w w' : World) (a : A) :
  m w = (Normal a, w') -> bind m k w = k a w'.
Proof. intros Hm. unfold bind. by rewrite Hm. Qed.

Lemma with_material_lookup (w : World) (new_mat : nat) (m m' : Material) :
  materials (scene w) !! new_mat = Some m ->
  materials (scene (with_material w new_mat m')) !! new_mat = Some m'.
Proof.
  intros Hm. simpl. apply list_lookup_insert_eq. by eapply lookup_lt_Some.
Qed.

Lemma with_material_twice (w : World) (new_mat : nat) (m1 m2 : Material) :
  with_material (with_material w new_mat m1) new_mat m2 = with_material w new_mat m2.
Proof. unfold with_material. simpl. by rewrite list_insert_insert_eq. Qed.

(** Updating the nodes of a material that has a node tree. *)
Lemma modify_nodes_run (new_mat : nat) (f : list Node -> list Node) (w : World)
    (m : Material) (nodes : list Node) :
  materials (scene w) !! new_mat = Some m ->
  node_tree m = Some nodes ->
  modify_nodes new_mat f w =
  (Normal tt, with_material w new_mat (set_node_tree (Some (f nodes)) m)).
Proof.
  intros Hm Hn. unfold modify_nodes, modify_material, modify_scene, with_material.
  rewrite (alter_lookup _ _ _ _ Hm), Hn. reflexivity.
Qed.

(** Creating a texture node and setting its image and label. *)
Lemma new_texture_node_run {B} (new_mat : nat) (f1 f2 : Node -> Node)
    (k : nat -> M B) (w : World) (m : Material) (nodes : list Node) :
  materials (scene w) !! new_mat = Some m ->
  node_tree m = Some nodes ->
  (tex_node <- nodes_new_tex_image new_mat;;
   modify_node new_mat tex_node f1;;
   modify_node new_mat tex_node f2;;
   k tex_node) w =
  k (length nodes)
    (with_material w new_mat
       (set_node_tree (Some (nodes ++ [f2 (f1 new_tex_image_node)])%list) m)).
Proof.
  intros Hm Hn. unfold nodes_new_tex_image.
  unfold bind at 1. unfold bind at 1.
  rewrite (get_nodes_ok _ _ _ _ Hm Hn).
  unfold bind at 1. rewrite (modify_nodes_run _ _ _ _ _ Hm Hn). cbn [ret].
  unfold modify_node.
  erewrite bind_normal;
    [|apply modify_nodes_run; [eapply with_material_lookup; exact Hm | reflexivity]].
  rewrite with_material_twice.
  erewrite bind_normal;
    [|apply modify_nodes_run; [eapply with_material_lookup; exact Hm | reflexivity]].
  rewrite with_material_twice. cbn [node_tree set_node_tree].
  rewrite !alter_snoc. by destruct m.
Qed.

(** ** Step 8: the loop over the files *)

Lemma add_texture_nodes_skip (h : Host) (new_mat temp_dir : nat)
    (existing_images : gset string) (f : string) (files : list string)
    (texture_nodes : list nat) :
  gets_texture_node h existing_images f = false ->
  add_texture_nodes h new_mat temp_dir existing_images (f :: files) texture_nodes =
  add_texture_nodes h new_mat temp_dir existing_images files texture_nodes.
Proof.
  unfold gets_texture_node. cbn [add_texture_nodes].
  destruct (Py.endswith_any _ _); [|done].
  by destruct (is_duplicate _ _ _).
Qed.

Lemma add_texture_nodes_keep (h : Host) (new_mat temp_dir : nat)
    (existing_images : gset string) (f : string) (files : list string)
    (texture_nodes : list nat) :
  gets_texture_node h existing_images f = true ->
  add_texture_nodes h new_mat temp_dir existing_images (f :: files) texture_nodes =
  (img <- data_images_load h (Py.path_join (temp_path temp_dir) f);;
   tex_node <- nodes_new_tex_image new_mat;;
   modify_node new_mat tex_node (set_node_image (Some img));;
   modify_node new_mat tex_node (set_node_label (stored_label h f));;
   add_texture_nodes h new_mat temp_dir existing_images files
     (texture_nodes ++ [tex_node])%list).
Proof.
  unfold gets_texture_node. cbn [add_texture_nodes].
  destruct (Py.endswith_any _ _); [|done].
  by destruct (is_duplicate _ _ _).
Qed.

Lemma data_images_load_run (h : Host) (img_path : string) (img : Image) (w : World) :
  images_load h img_path = Ok img ->
  data_images_load h img_path w =
  (Normal img, set_scene (set_images (images (scene w) ++ [img])%list (scene w)) w).
Proof. intros Hok. unfold data_images_load, bind, lift_exc. by rewrite Hok. Qed.

Lemma add_texture_nodes_run (h : Host) (new_mat temp_dir : nat)
    (existing_images : gset string) (files : list string) :
  forall (texture_nodes : list nat) (w : World) (m : Material) (nodes : list Node),
    materials (scene w) !! new_mat = Some m ->
    node_tree m = Some nodes ->
    Forall (fun f => gets_texture_node h existing_images f = true ->
                     is_Some (loaded_image h temp_dir f)) files ->
    let kept := List.filter (gets_texture_node h existing_images) files in
    add_texture_nodes h new_mat temp_dir existing_images files texture_nodes w =
    (Normal (texture_nodes ++ seq (length nodes) (length kept))%list,
     with_textures w new_mat m nodes
       (map (texture_node_for h temp_dir) kept)
       (omap (loaded_image h temp_dir) kept)).
Proof.
  induction files as [|f files IH]; intros acc w m nodes Hm Hn Hload kept.
  - subst kept. simpl. unfold ret, with_textures. rewrite !app_nil_r.
    rewrite (set_node_tree_id _ _ Hn), (list_insert_id _ _ _ Hm).
    by destruct w as [[] ? ?].
  - inversion Hload as [|? ? Hf Hrest]; subst.
    subst kept. cbn [List.filter].
    destruct (gets_texture_node h existing_images f) eqn:Ekeep.
    2: { rewrite add_texture_nodes_skip by done. by apply IH. }
    rewrite add_texture_nodes_keep by done.
    destruct (Hf eq_refl) as [img Himg].
    assert (Hok : images_load h (Py.path_join (temp_path temp_dir) f) = Ok img).
    { unfold loaded_image in Himg. by destruct (images_load h _) as [i|]; simplify_eq. }
    erewrite bind_normal; [|by apply data_images_load_run].
    erewrite new_texture_node_run; [|exact Hm|exact Hn].
    set (n1 := set_node_label (stored_label h f) (set_node_image (Some img) new_tex_image_node)).
    rewrite (IH _ _ (set_node_tree (Some (nodes ++ [n1])%list) m)
               (nodes ++ [n1])%list);
      [|cbn; apply list_lookup_insert_eq; by eapply lookup_lt_Some
       |reflexivity|exact Hrest].
    f_equal.
    + f_equal. rewrite <- app_assoc. f_equal. rewrite length_app. cbn.
      by rewrite Nat.add_1_r.
    + unfold with_textures. cbn. rewrite Himg. cbn.
      rewrite list_insert_insert_eq, <- !app_assoc. cbn.
      unfold texture_node_for at 2. rewrite Himg. by destruct m.
Qed.

(** ** Step 9: the grid *)

Lemma position_texture_nodes_run (new_mat : nat) (gx gy : Z) (texture_nodes : list nat) :
  forall (i : Z) (w : World) (m : Material) (nodes : list Node),
    materials (scene w) !! new_mat = Some m ->
    node_tree m = Some nodes ->
    position_texture_nodes new_mat gx gy i texture_nodes w =
    (Normal tt,
     with_material w new_mat
       (set_node_tree (Some (placed gx gy i texture_nodes nodes)) m)).
Proof.
  induction texture_nodes as [|p rest IH]; intros i w m nodes Hm Hn.
  - cbn. unfold ret, with_material. rewrite (set_node_tree_id _ _ Hn).
    rewrite (list_insert_id _ _ _ Hm). by destruct w as [[] ? ?].
  - cbn [position_texture_nodes placed]. unfold modify_node.
    erewrite bind_normal; [|by apply modify_nodes_run].
    erewrite bind_normal;
      [|apply modify_nodes_run; [eapply with_material_lookup; exact Hm | reflexivity]].
    rewrite with_material_twice.
    erewrite IH; [|eapply with_material_lookup; exact Hm | reflexivity].
    rewrite with_material_twice. by destruct m.
Qed.

Lemma placed_length (gx gy : Z) (texture_nodes : list nat) :
  forall (i : Z) (nodes : list Node),
    length (placed gx gy i texture_nodes nodes) = length nodes.
Proof.
  induction texture_nodes as [|p rest IH]; intros i nodes; [done|].
  cbn [placed]. by rewrite IH, !length_alter.
Qed.

(** A node that is not in the list keeps everything. *)
Lemma placed_lookup_other (gx gy : Z) (texture_nodes : list nat) :
  forall (i : Z) (nodes : list Node) (p : nat),
    p ∉ texture_nodes ->
    placed gx gy i texture_nodes nodes !! p = nodes !! p.
Proof.
  induction texture_nodes as [|q rest IH]; intros i nodes p Hp; [done|].
  cbn [placed]. apply not_elem_of_cons in Hp as [Hpq Hp].
  rewrite IH by done. by rewrite !list_lookup_alter_ne.
Qed.

(** The [k]-th node of the list ends at the grid position of [i + k],
    and only its location changes. *)
Lemma placed_lookup (gx gy : Z) (texture_nodes : list nat) :
  forall (i : Z) (nodes : list Node) (k p : nat) (n : Node),
    NoDup texture_nodes ->
    texture_nodes !! k = Some p ->
    nodes !! p = Some n ->
    placed gx gy i texture_nodes nodes !! p =
    Some (mkNode (node_type n) (node_image n) (node_label n)
            (grid_position gx gy (i + Z.of_nat k)) (node_uv_map n)).
Proof.
  induction texture_nodes as [|q rest IH]; intros i nodes k p n Hnd Hk Hn; [done|].
  apply NoDup_cons in Hnd as [Hq Hnd]. cbn [placed].
  destruct k as [|k]; cbn in Hk.
  - injection Hk as ->. rewrite placed_lookup_other by done.
    rewrite !list_lookup_alter_eq, Hn. cbn.
    by rewrite Z.add_0_r.
  - assert (p ≠ q) as Hpq.
    { intros ->. apply Hq. by eapply list_elem_of_lookup_2. }
    erewrite IH; [|done|done|].
    + do 2 f_equal. f_equal. lia.
    + by rewrite !list_lookup_alter_ne.
Qed.

(** ** Step 7 and step 8: which files get a texture node *)

Lemma elem_of_existing_images_of (nodes : list Node) (ex : string) :
  ex ∈ existing_images_of nodes <->
  exists node img, node ∈ nodes /\ node_type node = "TEX_IMAGE" /\
                   node_image node = Some img /\ image_name img = ex.
Proof.
  unfold existing_images_of. rewrite elem_of_list_to_set, list_elem_of_omap.
  split.
  - intros (node & Hin & Hex). exists node.
    destruct (String.eqb (node_type node) "TEX_IMAGE") eqn:E; [|done].
    apply String.eqb_eq in E. destruct (node_image node) as [img|]; [|done].
    exists img. by injection Hex as <-.
  - intros (node & img & Hin & Hty & Himg & <-). exists node. split; [done|].
    by rewrite Hty, Himg.
Qed.

Lemma gets_texture_node_false (h : Host) (existing_images : gset string) (f : string) :
  Py.endswith_any (str_lower h f) image_extensions = true ->
  gets_texture_node h existing_images f = false <->
  is_duplicate h (fst (Py.splitext f)) existing_images = true.
Proof.
  intros Hext. unfold gets_texture_node. rewrite Hext. cbn.
  by destruct (is_duplicate _ _ _).
Qed.

Lemma loaded_image_Some (h : Host) (temp_dir : nat) (f : string) (img : Image) :
  loaded_image h temp_dir f = Some img <->
  images_load h (Py.path_join (temp_path temp_dir) f) = Ok img.
Proof.
  unfold loaded_image. destruct (images_load h _); split; congruence.
Qed.

Lemma material_nodes_with_textures (w : World) (new_mat : nat) (m : Material)
    (nodes new_nodes : list Node) (imgs : list Image) :
  materials (scene w) !! new_mat = Some m ->
  material_nodes (with_textures w new_mat m nodes new_nodes imgs) new_mat
  = Some (nodes ++ new_nodes)%list.
Proof.
  intros Hm. unfold material_nodes, with_textures. cbn.
  rewrite list_lookup_insert_eq by (by eapply lookup_lt_Some). done.
Qed.

(** ** More on the string helpers *)

Lemma lower_ascii_idem (c : ascii) : Py.lower_ascii (Py.lower_ascii c) = Py.lower_ascii c.
Proof.
  destruct c as [[] [] [] [] [] [] [] []]; reflexivity.
Qed.

Lemma ascii_lower_idem (s : string) :
  Py.ascii_lower (Py.ascii_lower s) = Py.ascii_lower s.
Proof. induction s as [|c s IH]; simpl; [done|]. by rewrite lower_ascii_idem, IH. Qed.

Lemma append_cons (c : ascii) (s t : string) : String c s ++ t = String c (s ++ t).
Proof. reflexivity. Qed.

Lemma ascii_lower_app (s t : string) :
  Py.ascii_lower (s ++ t) = Py.ascii_lower s ++ Py.ascii_lower t.
Proof.
  induction s as [|c s IH]; [done|].
  rewrite append_cons. cbn [Py.ascii_lower]. by rewrite append_cons, IH.
Qed.

Lemma string_app_nil_r (s : string) : s ++ "" = s.
Proof. induction s as [|c s IH]; [done|]. by rewrite append_cons, IH. Qed.

Lemma string_app_assoc (s t u : string) : (s ++ t) ++ u = s ++ t ++ u.
Proof. induction s as [|c s IH]; [done|]. by rewrite !append_cons, IH. Qed.

Lemma string_length_app (s t : string) :
  String.length (s ++ t) = (String.length s + String.length t)%nat.
Proof. induction s as [|c s IH]; [done|]. rewrite append_cons. cbn. by rewrite IH. Qed.

Lemma contains_refl (s : string) : Py.contains s s = true.
Proof. apply contains_spec. exists "", "". by rewrite string_app_nil_r. Qed.

Lemma contains_empty (s : string) : Py.contains s "" = true.
Proof. apply contains_spec. by exists "", s. Qed.

Lemma take_drop (n : nat) (s : string) : Py.take n s ++ Py.drop n s = s.
Proof.
  revert s. induction n as [|n IH]; intros [|c s]; try done.
  cbn [Py.take Py.drop]. by rewrite append_cons, IH.
Qed.

Lemma drop_app_length (s t : string) : Py.drop (String.length s) (s ++ t) = t.
Proof. induction s as [|c s IH]; [by destruct t|]. by rewrite append_cons. Qed.

Lemma take_app_length (s t : string) : Py.take (String.length s) (s ++ t) = s.
Proof.
  induction s as [|c s IH]; [by destruct t|].
  rewrite append_cons. cbn. by rewrite IH.
Qed.

Lemma drop_length (n : nat) (s : string) :
  String.length (Py.drop n s) = (String.length s - n)%nat.
Proof. revert s. induction n as [|n IH]; intros [|c s]; cbn; try done. Qed.

Lemma endswith_spec (s suffix : string) :
  Py.endswith s suffix = true <-> exists pre, s = pre ++ suffix.
Proof.
  unfold Py.endswith. rewrite andb_true_iff, Nat.leb_le, String.eqb_eq. split.
  - intros [Hlen Hdrop].
    exists (Py.take (String.length s - String.length suffix) s).
    etransitivity;
      [symmetry; apply (take_drop (String.length s - String.length suffix))|].
    by rewrite Hdrop.
  - intros [pre ->]. rewrite string_length_app. split; [lia|].
    replace (String.length pre + String.length suffix - String.length suffix)%nat
      with (String.length pre) by lia.
    apply drop_app_length.
Qed.

(** [rfind_from] gives -1 when [c] does not occur, else the place of its
    last occurrence. *)
Lemma rfind_from_spec (c : ascii) (s : string) :
  forall k, 0 <= k ->
    (Py.rfind_from k c s = -1 /\ Py.contains s (String c "") = false) \/
    (exists pre t, s = pre ++ String c t /\ Py.contains t (String c "") = false /\
                   Py.rfind_from k c s = k + Z.of_nat (String.length pre)).
Proof.
  induction s as [|a s IH]; intros k Hk.
  - left. by split.
  - cbn [Py.rfind_from]. rewrite contains_cons.
    destruct (IH (k + 1) ltac:(lia)) as [[Hr Hno] | (pre & t & -> & Hno & Hr)].
    + rewrite Hr. cbn [Z.leb Z.compare]. cbn.
      destruct (Ascii.eqb a c) eqn:E.
      * apply Ascii.eqb_eq in E. subst a. right. exists "", s.
        repeat split; [done|]. cbn. lia.
      * left. split; [done|]. rewrite Ascii.eqb_sym, E. cbn. done.
    + right. exists (String a pre), t. repeat split; [done|].
      rewrite Hr. destruct (0 <=? _) eqn:E0; [cbn; lia|].
      apply Z.leb_gt in E0. lia.
Qed.

Lemma rfind_spec (c : ascii) (s : string) :
  (Py.rfind c s = -1 /\ Py.contains s (String c "") = false) \/
  (exists pre t, s = pre ++ String c t /\ Py.contains t (String c "") = false /\
                 Py.rfind c s = Z.of_nat (String.length pre)).
Proof. unfold Py.rfind. by destruct (rfind_from_spec c s 0 ltac:(lia)) as [?|?]; [left|right]. Qed.

(** What is known of [str.lower] settles the matches of ASCII names. *)
Lemma name_matches_ascii (h : Host) (img_name ex : string) :
  lowers_ascii h ->
  Py.is_ascii img_name = true ->
  Py.is_ascii ex = true ->
  name_matches h img_name ex =
  Py.contains (Py.ascii_lower ex) (Py.ascii_lower img_name)
  || Py.contains (Py.ascii_lower img_name) (Py.ascii_lower ex).
Proof.
  intros [Hl _] Hn Hex. unfold name_matches. by rewrite (Hl _ Hn), (Hl _ Hex).
Qed.

(** C1, as the code has it.  A file with a recognized image extension is
    skipped exactly when its name without extension, lowercased, contains
    or is contained in the lowercased name of an image that a texture node
    of the material references; every other such file gets a texture node
    bound to the loaded image and labelled with the file name, as the host
    stores it.  With a node referencing "Concrete_Albedo",
    "concrete_albedo.png" is skipped, and "Albedo_Concrete.jpg" is not:
    neither name is a substring of the other. *)
Theorem texture_nodes_deduplicated (h : Host) (new_mat temp_dir : nat)
    (w : World) (m : Material) (nodes : list Node) (files : list string) :
  materials (scene w) !! new_mat = Some m ->
  node_tree m = Some nodes ->
  Forall (fun f => gets_texture_node h (existing_images_of nodes) f = true ->
                   is_Some (loaded_image h temp_dir f)) files ->
  let existing_images := existing_images_of nodes in
  let kept := List.filter (gets_texture_node h existing_images) files in
  (forall ex, ex ∈ existing_images <->
     exists node img, node ∈ nodes /\ node_type node = "TEX_IMAGE" /\
                      node_image node = Some img /\ image_name img = ex) /\
  (forall f, Py.endswith_any (str_lower h f) image_extensions = true ->
     (gets_texture_node h existing_images f = false <->
      exists ex, ex ∈ existing_images /\
        ((exists pre post,
            str_lower h ex = pre ++ str_lower h (fst (Py.splitext f)) ++ post) \/
         (exists pre post,
            str_lower h (fst (Py.splitext f)) = pre ++ str_lower h ex ++ post)))) /\
  (forall f, f ∈ kept <-> f ∈ files /\ gets_texture_node h existing_images f = true) /\
  (exists w',
     add_texture_nodes h new_mat temp_dir existing_images files [] w
       = (Normal (seq (length nodes) (length kept)), w') /\
     material_nodes w' new_mat
       = Some (nodes ++ map (texture_node_for h temp_dir) kept)%list) /\
  (forall f, f ∈ kept ->
     exists img,
       images_load h (Py.path_join (temp_path temp_dir) f) = Ok img /\
       texture_node_for h temp_dir f
       = mkNode "TEX_IMAGE" (Some img) (stored_label h f) (0, 0) "") /\
  (lowers_ascii h ->
   gets_texture_node h {["Concrete_Albedo"]} "concrete_albedo.png" = false /\
   gets_texture_node h {["Concrete_Albedo"]} "Albedo_Concrete.jpg" = true).
Proof.
  intros Hm Hn Hload existing_images kept.
  assert (Hkept : forall f, f ∈ kept <->
                    f ∈ files /\ gets_texture_node h existing_images f = true).
  { intros f. subst kept. rewrite !list_elem_of_In. apply filter_In. }
  split; [apply elem_of_existing_images_of|].
  split.
  { intros f Hext. rewrite gets_texture_node_false by done.
    apply is_duplicate_spec. }
  split; [exact Hkept|].
  split.
  { eexists. split.
    - by apply (add_texture_nodes_run h new_mat temp_dir existing_images files [] w m nodes).
    - by apply material_nodes_with_textures. }
  split.
  { intros f [Hin Hget]%Hkept.
    rewrite Forall_forall in Hload. destruct (Hload f Hin Hget) as [img Himg].
    exists img. split; [by apply loaded_image_Some|].
    unfold texture_node_for. by rewrite Himg. }
  intros Hl. unfold gets_texture_node, is_duplicate.
  rewrite elements_singleton. cbn [existsb].
  rewrite !(name_matches_ascii h _ _ Hl) by reflexivity.
  rewrite !(proj1 Hl) by reflexivity.
  split; by vm_compute.
Qed.

(** The ASCII fold is a [str.lower] of the kind [lowers_ascii] describes. *)
Lemma ascii_lower_lowers_ascii (h : Host) :
  str_lower h = Py.ascii_lower -> lowers_ascii h.
Proof.
  intros Hh. split.
  - intros s _. by rewrite Hh.
  - intros pre s _. exists (Py.ascii_lower pre). rewrite Hh. apply ascii_lower_app.
Qed.

Lemma texture_nodes_deduplicated_witness :
  exists w',
    add_texture_nodes concrete_host 0 1
      (existing_images_of
         (default [] (node_tree (sample_material "Concrete" "Concrete_Albedo" (0, 0)))))
      ["Concrete.usdc"; "concrete_albedo.png"; "Albedo_Concrete.jpg"] []
      (mkWorld (set_materials [sample_material "Concrete" "Concrete_Albedo" (0, 0)]
                              empty_scene) ∅ [])
    = (Normal [4%nat], w') /\
    (map node_label <$> material_nodes w' 0) = Some [""; ""; ""; ""; "Albedo_Concrete.jpg"].
Proof.
  destruct (texture_nodes_deduplicated concrete_host 0 1
              (mkWorld (set_materials [sample_material "Concrete" "Concrete_Albedo" (0, 0)]
                                      empty_scene) ∅ [])
              (sample_material "Concrete" "Concrete_Albedo" (0, 0))
              (default [] (node_tree (sample_material "Concrete" "Concrete_Albedo" (0, 0))))
              ["Concrete.usdc"; "concrete_albedo.png"; "Albedo_Concrete.jpg"])
    as (_ & _ & _ & (w' & Hrun & Hnodes) & _).
  - reflexivity.
  - reflexivity.
  - repeat (apply Forall_cons; split; [intros _; by eexists|]). apply Forall_nil_2.
  - exists w'. split; [exact Hrun|]. rewrite Hnodes. reflexivity.
Defined.

(** The instances of C1 that fail.  The material references
    "Concrete_Albedo", and the archive file "Albedo_Concrete.jpg" is not
    skipped: it gets the one new texture node.  And the label of a node is
    the file name only as far as the host's label buffer goes: of a file
    name of 66 bytes the node shows the first 63. *)
Lemma albedo_concrete_not_skipped :
  elements (existing_images_of
              (default [] (node_tree (sample_material "Concrete" "Concrete_Albedo" (0, 0)))))
    = ["Concrete_Albedo"] /\
  Py.endswith_any (str_lower concrete_host "Albedo_Concrete.jpg") image_extensions = true /\
  is_duplicate concrete_host (fst (Py.splitext "Albedo_Concrete.jpg")) {["Concrete_Albedo"]}
    = false /\
  labelled_locations
    (snd (process_archive concrete_host "/in/Concrete.zip" empty_world)) 0 4
  = Some [("Albedo_Concrete.jpg", (400, 0))] /\
  labelled_locations
    (snd (process_archive long_name_host "/in/Long.zip" empty_world)) 0 4
  = Some [("PavingStones_with_a_long_descriptive_name_8K_AmbientOcclusion.j",
           (400, 0))] /\
  "PavingStones_with_a_long_descriptive_name_8K_AmbientOcclusion.j"
  <> "PavingStones_with_a_long_descriptive_name_8K_AmbientOcclusion.jpeg".
Proof. repeat split; by vm_compute. Qed.


(** ** Steps 5 to 9 together *)

Lemma listdir_ok (temp_dir : nat) (files : list string) (w : World) :
  tmpfs w !! temp_dir = Some files ->
  listdir temp_dir w = (Normal files, w).
Proof. intros Hd. unfold listdir. by rewrite Hd. Qed.

Lemma fmap_alter_same {A B} (g : A -> B) (f : A -> A) (i : nat) (l : list A) :
  (forall x, g (f x) = g x) -> g <$> alter f i l = g <$> l.
Proof.
  intros Hgf. revert i. induction l as [|y l IH]; intros [|i]; cbn; try done.
  - by rewrite Hgf.
  - f_equal. apply IH.
Qed.

(** The layout changes nothing but locations. *)
Lemma placed_fmap {B} (g : Node -> B) (gx gy : Z) (texture_nodes : list nat) :
  (forall x n, g (set_node_location_x x n) = g n) ->
  (forall y n, g (set_node_location_y y n) = g n) ->
  forall (i : Z) (nodes : list Node),
    g <$> placed gx gy i texture_nodes nodes = g <$> nodes.
Proof.
  intros Hx Hy.
  induction texture_nodes as [|p rest IH]; intros i nodes; [done|].
  cbn [placed]. rewrite IH. by rewrite !fmap_alter_same.
Qed.

Lemma add_textures_run (h : Host) (new_mat temp_dir : nat) (w : World)
    (m : Material) (nodes : list Node) (files : list string) :
  materials (scene w) !! new_mat = Some m ->
  node_tree m = Some nodes ->
  tmpfs w !! temp_dir = Some files ->
  Forall (fun f => gets_texture_node h (existing_images_of nodes) f = true ->
                   is_Some (loaded_image h temp_dir f)) files ->
  let kept := List.filter (gets_texture_node h (existing_images_of nodes)) files in
  let new_nodes := map (texture_node_for h temp_dir) kept in
  let origin := grid_start (find_output_node nodes) in
  add_textures h temp_dir new_mat w =
  (Normal tt,
   with_material
     (with_textures w new_mat m nodes new_nodes (omap (loaded_image h temp_dir) kept))
     new_mat
     (set_node_tree
        (Some (placed (fst origin) (snd origin) 0
                 (seq (length nodes) (length kept)) (nodes ++ new_nodes)%list))
        m)).
Proof.
  intros Hm Hn Hd Hload kept new_nodes origin. unfold add_textures.
  erewrite bind_normal; [|by apply (get_nodes_ok _ _ m nodes)].
  fold origin. destruct origin as [gx gy] eqn:Eo.
  erewrite bind_normal; [|by apply (get_nodes_ok _ _ m nodes)].
  erewrite bind_normal; [|by apply listdir_ok].
  erewrite bind_normal; [|by apply (add_texture_nodes_run h _ _ _ _ _ _ m nodes)].
  cbn [app fst snd]. fold kept. fold new_nodes.
  erewrite position_texture_nodes_run;
    [|unfold with_textures; cbn; apply list_lookup_insert_eq; by eapply lookup_lt_Some
     |reflexivity].
  reflexivity.
Qed.

(** C2.  After steps 5 to 9 the texture node created for the file of
    0-based index [i] among the files that got one lies at
    [(grid_start_x + (i mod 3) * 300, grid_start_y - (i div 3) * 350)],
    where the grid starts at (output node x + 400, output node y) when the
    material has an output node and at (400, 0) otherwise; the nodes that
    were there before are untouched.  The loop of step 9 does this for any
    list of distinct nodes.  With seven new nodes and the output node at
    (0, 0), the node of index 4 lands at (700, -350). *)
Theorem grid_layout_positions :
  (forall (h : Host) (new_mat temp_dir : nat) (w : World) (m : Material)
          (nodes : list Node) (files : list string),
      materials (scene w) !! new_mat = Some m ->
      node_tree m = Some nodes ->
      tmpfs w !! temp_dir = Some files ->
      Forall (fun f => gets_texture_node h (existing_images_of nodes) f = true ->
                       is_Some (loaded_image h temp_dir f)) files ->
      let kept := List.filter (gets_texture_node h (existing_images_of nodes)) files in
      let grid_start_x :=
        match find_output_node nodes with
        | Some output_node => fst (node_location output_node) + 400
        | None => 400
        end in
      let grid_start_y :=
        match find_output_node nodes with
        | Some output_node => snd (node_location output_node)
        | None => 0
        end in
      exists w' nodes',
        add_textures h temp_dir new_mat w = (Normal tt, w') /\
        material_nodes w' new_mat = Some nodes' /\
        length nodes' = (length nodes + length kept)%nat /\
        (forall (i : nat) (f : string), kept !! i = Some f ->
           nodes' !! (length nodes + i)%nat =
           Some (mkNode "TEX_IMAGE" (loaded_image h temp_dir f) (stored_label h f)
                   (grid_start_x + (Z.of_nat i mod 3) * 300,
                    grid_start_y - (Z.of_nat i / 3) * 350)
                   "")) /\
        (forall p, (p < length nodes)%nat -> nodes' !! p = nodes !! p)) /\
  (forall (new_mat : nat) (grid_start_x grid_start_y : Z) (texture_nodes : list nat)
          (w : World) (m : Material) (nodes : list Node),
      materials (scene w) !! new_mat = Some m ->
      node_tree m = Some nodes ->
      NoDup texture_nodes ->
      (forall p, p ∈ texture_nodes -> (p < length nodes)%nat) ->
      exists w' nodes',
        position_texture_nodes new_mat grid_start_x grid_start_y 0 texture_nodes w
          = (Normal tt, w') /\
        material_nodes w' new_mat = Some nodes' /\
        (forall (i p : nat), texture_nodes !! i = Some p ->
           node_location <$> nodes' !! p =
           Some (grid_start_x + (Z.of_nat i mod 3) * 300,
                 grid_start_y - (Z.of_nat i / 3) * 350))) /\
  (forall nodes : list Node,
      find_output_node nodes =
      List.find (fun n => String.eqb (node_type n) "OUTPUT_MATERIAL") nodes) /\
  labelled_locations (snd (process_archive tiles_host "/in/Tiles.zip" empty_world)) 0 4
  = Some [("t0.png", (400, 0)); ("t1.png", (700, 0)); ("t2.png", (1000, 0));
          ("t3.png", (400, -350)); ("t4.png", (700, -350)); ("t5.png", (1000, -350));
          ("t6.png", (400, -700))].
Proof.
  split; [|split; [|split]]; try reflexivity.
  - intros h new_mat temp_dir w m nodes files Hm Hn Hd Hload kept gx gy.
    eexists _, _.
    split; [by apply (add_textures_run h new_mat temp_dir w m nodes files)|].
    fold kept.
    replace (fst (grid_start (find_output_node nodes))) with gx
      by (subst gx; by destruct (find_output_node nodes)).
    replace (snd (grid_start (find_output_node nodes))) with gy
      by (subst gy; by destruct (find_output_node nodes)).
    split.
    { unfold material_nodes. erewrite with_material_lookup; [reflexivity|].
      unfold with_textures. cbn. apply list_lookup_insert_eq. by eapply lookup_lt_Some. }
    split; [by rewrite placed_length, length_app, length_map|].
    split.
    + intros i f Hi.
      assert (Hlt : (i < length kept)%nat) by (by eapply lookup_lt_Some).
      erewrite (placed_lookup gx gy _ 0 _ i (length nodes + i)%nat);
        [|apply NoDup_seq|by apply lookup_seq_lt|].
      2: { rewrite lookup_app_r by lia.
           replace (length nodes + i - length nodes)%nat with i by lia.
           by rewrite list_lookup_fmap, Hi. }
      reflexivity.
    + intros p Hp. rewrite placed_lookup_other.
      * by apply lookup_app_l.
      * intros [? ?]%elem_of_seq. lia.
  - intros new_mat gx gy tn w m nodes Hm Hn Hnd Hrange.
    eexists _, (placed gx gy 0 tn nodes). split; [|split].
    + by apply position_texture_nodes_run.
    + unfold material_nodes. erewrite with_material_lookup by exact Hm. done.
    + intros i p Hi.
      destruct (lookup_lt_is_Some_2 nodes p) as [n Hp].
      { apply Hrange. by eapply list_elem_of_lookup_2. }
      by rewrite (placed_lookup gx gy tn 0 nodes i p n).
Qed.

Lemma grid_layout_positions_witness :
  exists w' nodes',
    add_textures tiles_host 1 0
      (mkWorld (set_materials [sample_material "Tiles" "Tiles_Color" (0, 0)] empty_scene)
               {[1%nat := ["Tiles.usdc"; "t0.png"; "t1.png"; "t2.png"; "t3.png";
                           "t4.png"; "t5.png"; "t6.png"]]} [])
    = (Normal tt, w') /\
    material_nodes w' 0 = Some nodes' /\
    node_location <$> nodes' !! 8%nat = Some (700, -350).
Proof.
  destruct (proj1 grid_layout_positions tiles_host 0%nat 1%nat
              (mkWorld (set_materials [sample_material "Tiles" "Tiles_Color" (0, 0)]
                                      empty_scene)
                       {[1%nat := ["Tiles.usdc"; "t0.png"; "t1.png"; "t2.png"; "t3.png";
                                   "t4.png"; "t5.png"; "t6.png"]]} [])
              (sample_material "Tiles" "Tiles_Color" (0, 0))
              (default [] (node_tree (sample_material "Tiles" "Tiles_Color" (0, 0))))
              ["Tiles.usdc"; "t0.png"; "t1.png"; "t2.png"; "t3.png";
               "t4.png"; "t5.png"; "t6.png"])
    as (w' & nodes' & Hrun & Hnodes & _ & Hpos & _).
  - reflexivity.
  - reflexivity.
  - by vm_compute.
  - repeat (apply Forall_cons; split; [intros _; by eexists|]). apply Forall_nil_2.
  - exists w', nodes'. split; [exact Hrun|]. split; [exact Hnodes|].
    pose proof (Hpos 4%nat "t4.png" eq_refl) as H4.
    change (length _ + 4)%nat with 8%nat in H4. rewrite H4. reflexivity.
Defined.

(** ** More on the de-duplication test *)

Lemma name_matches_sym (h : Host) (a b : string) :
  name_matches h a b = name_matches h b a.
Proof. unfold name_matches. apply orb_comm. Qed.

Lemma name_matches_same (h : Host) (a b : string) :
  str_lower h a = str_lower h b -> name_matches h a b = true.
Proof. intros Hab. unfold name_matches. by rewrite Hab, contains_refl. Qed.

Lemma is_duplicate_intro (h : Host) (img_name ex : string) (existing_images : gset string) :
  ex ∈ existing_images -> name_matches h img_name ex = true ->
  is_duplicate h img_name existing_images = true.
Proof.
  intros Hin Hm. unfold is_duplicate. apply existsb_exists. exists ex.
  split; [|done]. by apply list_elem_of_In, elem_of_elements.
Qed.

Lemma is_duplicate_elim (h : Host) (img_name : string) (existing_images : gset string) :
  is_duplicate h img_name existing_images = true ->
  exists ex, ex ∈ existing_images /\ name_matches h img_name ex = true.
Proof.
  unfold is_duplicate. intros (ex & Hin & Hm)%existsb_exists. exists ex.
  split; [|done]. by apply elem_of_elements, list_elem_of_In.
Qed.

(** What steps 5 to 9 leave in the node tree: the old nodes, then one node
    per kept file, in listing order. *)
Lemma add_textures_labels (h : Host) (new_mat temp_dir : nat) (w : World)
    (m : Material) (nodes : list Node) (files : list string) :
  materials (scene w) !! new_mat = Some m ->
  node_tree m = Some nodes ->
  tmpfs w !! temp_dir = Some files ->
  Forall (fun f => gets_texture_node h (existing_images_of nodes) f = true ->
                   is_Some (loaded_image h temp_dir f)) files ->
  let kept := List.filter (gets_texture_node h (existing_images_of nodes)) files in
  exists w' nodes',
    add_textures h temp_dir new_mat w = (Normal tt, w') /\
    material_nodes w' new_mat = Some nodes' /\
    node_label <$> nodes' = ((node_label <$> nodes) ++ (stored_label h <$> kept))%list /\
    node_image <$> nodes' =
      ((node_image <$> nodes) ++ (loaded_image h temp_dir <$> kept))%list.
Proof.
  intros Hm Hn Hd Hload kept.
  eexists _, _. split; [by apply (add_textures_run h new_mat temp_dir w m nodes files)|].
  fold kept. split.
  { unfold material_nodes. erewrite with_material_lookup; [reflexivity|].
    unfold with_textures. cbn. apply list_lookup_insert_eq. by eapply lookup_lt_Some. }
  split.
  { rewrite placed_fmap by done. rewrite fmap_app. f_equal.
    by rewrite <- list_fmap_compose. }
  { rewrite placed_fmap by done. rewrite fmap_app. f_equal.
    by rewrite <- list_fmap_compose. }
Qed.

(** C9, as the code has it.  The set of referenced image names is the one
    of the nodes the material has before step 8, and the loop of step 8
    tests every file against that same set: the nodes after steps 5 to 9
    are the old ones followed by one node per file that passes the test
    against the old set, in listing order.  So two image files of one
    archive whose names contain one another both get a texture node,
    provided neither matches an image referenced before step 8, and
    although each would have been skipped had the name of the other been
    added to the set; a file that does match an image referenced before
    step 8 gets no node, whatever the other files are.  In the archive
    with "drywall.png" and "wall.png" both get one, although "wall"
    matches the image that was loaded for "drywall.png" a step earlier. *)
Theorem dedup_snapshot_taken_once :
  (forall (h : Host) (new_mat temp_dir : nat) (w : World) (m : Material)
          (nodes : list Node) (files : list string) (f1 f2 : string),
      materials (scene w) !! new_mat = Some m ->
      node_tree m = Some nodes ->
      tmpfs w !! temp_dir = Some files ->
      Forall (fun f => gets_texture_node h (existing_images_of nodes) f = true ->
                       is_Some (loaded_image h temp_dir f)) files ->
      f1 ∈ files -> f2 ∈ files ->
      Py.endswith_any (str_lower h f1) image_extensions = true ->
      Py.endswith_any (str_lower h f2) image_extensions = true ->
      name_matches h (fst (Py.splitext f1)) (fst (Py.splitext f2)) = true ->
      is_duplicate h (fst (Py.splitext f1)) (existing_images_of nodes) = false ->
      is_duplicate h (fst (Py.splitext f2)) (existing_images_of nodes) = false ->
      let kept := List.filter (gets_texture_node h (existing_images_of nodes)) files in
      exists w' nodes',
        add_textures h temp_dir new_mat w = (Normal tt, w') /\
        material_nodes w' new_mat = Some nodes' /\
        node_label <$> nodes' = ((node_label <$> nodes) ++ (stored_label h <$> kept))%list /\
        node_image <$> nodes' =
          ((node_image <$> nodes) ++ (loaded_image h temp_dir <$> kept))%list /\
        f1 ∈ kept /\ f2 ∈ kept /\
        is_duplicate h (fst (Py.splitext f2))
          (existing_images_of nodes ∪ {[fst (Py.splitext f1)]}) = true /\
        is_duplicate h (fst (Py.splitext f1))
          (existing_images_of nodes ∪ {[fst (Py.splitext f2)]}) = true) /\
  (forall (h : Host) (nodes : list Node) (files : list string) (f : string),
      is_duplicate h (fst (Py.splitext f)) (existing_images_of nodes) = true ->
      f ∉ List.filter (gets_texture_node h (existing_images_of nodes)) files) /\
  name_matches wall_host "drywall" "wall" = true /\
  (let w' := snd (process_archive wall_host "/in/Wall.zip" empty_world) in
   labelled_locations w' 0 4 = Some [("drywall.png", (400, 0)); ("wall.png", (700, 0))] /\
   is_duplicate wall_host "wall" (existing_images_of (default [] (material_nodes w' 0)))
   = true /\
   is_duplicate wall_host "wall"
     (existing_images_of
        (default [] (node_tree (sample_material "Wall" "Plaster_Color" (0, 0)))))
   = false).
Proof.
  split; [|split; [|by vm_compute]].
  - intros h new_mat temp_dir w m nodes files f1 f2 Hm Hn Hd Hload Hf1 Hf2
           Hext1 Hext2 Hmatch Hdup1 Hdup2 kept.
    destruct (add_textures_labels h new_mat temp_dir w m nodes files Hm Hn Hd Hload)
      as (w' & nodes' & Hrun & Hnodes & Hlabels & Himages).
    exists w', nodes'. fold kept in Hlabels, Himages.
    do 4 (split; [done|]).
    split; [|split; [|split]].
    + subst kept. rewrite list_elem_of_In, filter_In, <- list_elem_of_In.
      unfold gets_texture_node. by rewrite Hext1, Hdup1.
    + subst kept. rewrite list_elem_of_In, filter_In, <- list_elem_of_In.
      unfold gets_texture_node. by rewrite Hext2, Hdup2.
    + apply (is_duplicate_intro h _ (fst (Py.splitext f1))); [set_solver|].
      by rewrite name_matches_sym.
    + apply (is_duplicate_intro h _ (fst (Py.splitext f2))); [set_solver|done].
  - intros h nodes files f Hdup.
    rewrite list_elem_of_In, filter_In. intros [_ Hget].
    unfold gets_texture_node in Hget. rewrite Hdup, andb_false_r in Hget. done.
Qed.

Lemma dedup_snapshot_taken_once_witness :
  exists w' nodes',
    add_textures wall_host 1 0
      (mkWorld (set_materials [sample_material "Wall" "Plaster_Color" (0, 0)] empty_scene)
               {[1%nat := ["Wall.usdc"; "drywall.png"; "wall.png"]]} [])
    = (Normal tt, w') /\
    material_nodes w' 0 = Some nodes' /\
    node_label <$> nodes' = [""; ""; ""; ""; "drywall.png"; "wall.png"].
Proof.
  destruct (proj1 dedup_snapshot_taken_once wall_host 0%nat 1%nat
              (mkWorld (set_materials [sample_material "Wall" "Plaster_Color" (0, 0)]
                                      empty_scene)
                       {[1%nat := ["Wall.usdc"; "drywall.png"; "wall.png"]]} [])
              (sample_material "Wall" "Plaster_Color" (0, 0))
              (default [] (node_tree (sample_material "Wall" "Plaster_Color" (0, 0))))
              ["Wall.usdc"; "drywall.png"; "wall.png"] "drywall.png" "wall.png")
    as (w' & nodes' & Hrun & Hnodes & Hlabels & _).
  - reflexivity.
  - reflexivity.
  - by vm_compute.
  - repeat (apply Forall_cons; split; [intros _; by eexists|]). apply Forall_nil_2.
  - apply list_elem_of_In. cbn. tauto.
  - apply list_elem_of_In. cbn. tauto.
  - by vm_compute.
  - by vm_compute.
  - by vm_compute.
  - by vm_compute.
  - by vm_compute.
  - exists w', nodes'. split; [exact Hrun|]. split; [exact Hnodes|].
    rewrite Hlabels. by vm_compute.
Defined.

(** The instance of C9 that fails: the archive holds "drywall.png" and
    "wall.png", two image files whose names contain one another, and the
    material references an image named "wall" before step 8.  Both files
    match that image, and neither gets a texture node: the node tree
    after the archive has the four nodes of the import and no other. *)
Lemma matching_files_both_skipped :
  let w' := snd (process_archive wall_image_host "/in/Wall.zip" empty_world) in
  Py.endswith_any (str_lower wall_image_host "drywall.png") image_extensions = true /\
  Py.endswith_any (str_lower wall_image_host "wall.png") image_extensions = true /\
  name_matches wall_image_host
    (fst (Py.splitext "drywall.png")) (fst (Py.splitext "wall.png")) = true /\
  elements (existing_images_of
              (default [] (node_tree (sample_material "Wall" "wall" (0, 0)))))
    = ["wall"] /\
  fst (process_archive wall_image_host "/in/Wall.zip" empty_world) = Normal tt /\
  reports w' = [(INFO, "Importing Wall.zip")] /\
  (length <$> material_nodes w' 0) = Some 4%nat /\
  labelled_locations w' 0 4 = Some [] /\
  images (scene w') = [].
Proof. repeat split; by vm_compute. Qed.

(** ** Step 11: asset metadata *)

Lemma modify_material_run (new_mat : nat) (f : Material -> Material) (w : World)
    (m : Material) :
  materials (scene w) !! new_mat = Some m ->
  modify_material new_mat f w = (Normal tt, with_material w new_mat (f m)).
Proof.
  intros Hm. unfold modify_material, modify_scene, with_material.
  by rewrite (alter_lookup _ _ _ _ Hm).
Qed.

Lemma delete_insert_same {A} (i : nat) (x : A) (l : list A) :
  delete i (<[i := x]> l) = delete i l.
Proof.
  revert i. induction l as [|y l IH]; intros [|i]; cbn; try done.
  f_equal. apply IH.
Qed.

(** Work on a material leaves the names of the other materials. *)
Lemma other_material_names_with_material (w : World) (new_mat : nat) (m' : Material) :
  other_material_names (scene (with_material w new_mat m')) new_mat
  = other_material_names (scene w) new_mat.
Proof. unfold other_material_names. cbn. by rewrite delete_insert_same. Qed.

Lemma set_material_name_run (h : Host) (new_mat : nat) (name : string) (w : World)
    (m : Material) :
  materials (scene w) !! new_mat = Some m ->
  set_material_name h new_mat name w =
  (Normal tt,
   with_material w new_mat
     (set_mat_name
        (id_name h MaterialID (other_material_names (scene w) new_mat) name) m)).
Proof.
  intros Hm. unfold set_material_name, bind, get_scene.
  by apply modify_material_run.
Qed.

Lemma asset_mark_is_asset (m : Material) : is_Some (asset_data (asset_mark m)).
Proof. unfold asset_mark. destruct (asset_data m) eqn:E; cbn; [by rewrite E|done]. Qed.

Lemma modify_asset_data_run (new_mat : nat) (f : AssetData -> AssetData) (w : World)
    (m : Material) (a : AssetData) :
  materials (scene w) !! new_mat = Some m ->
  asset_data m = Some a ->
  modify_asset_data new_mat f w =
  (Normal tt, with_material w new_mat (set_asset_data (Some (f a)) m)).
Proof.
  intros Hm Ha. unfold modify_asset_data.
  erewrite bind_normal; [|by apply get_material_ok].
  rewrite Ha. rewrite (modify_material_run _ _ _ _ Hm). by rewrite Ha.
Qed.

Lemma tag_asset_run (h : Host) (new_mat : nat) (w : World) (m : Material) :
  materials (scene w) !! new_mat = Some m ->
  tag_asset h new_mat w =
  (Normal tt,
   with_material w new_mat
     (if Py.startswith (mat_name m) "aCG_"
      then mkMaterial
             (id_name h MaterialID (other_material_names (scene w) new_mat)
                (Py.drop 4 (mat_name m)))
             (node_tree m) (displacement_method m)
             (Some (mkAssetData "AmbientCG.com"
                      "Creative Commons CC0 1.0 Universal License"))
      else asset_mark m)).
Proof.
  intros Hm. unfold tag_asset.
  erewrite bind_normal; [|by apply modify_material_run].
  erewrite bind_normal;
    [|apply get_material_ok; eapply with_material_lookup; exact Hm].
  assert (mat_name (asset_mark m) = mat_name m) as ->.
  { unfold asset_mark. by destruct (asset_data m). }
  destruct (Py.startswith (mat_name m) "aCG_"); [|done].
  destruct (asset_mark_is_asset m) as [a Ha].
  erewrite bind_normal;
    [|apply set_material_name_run; eapply with_material_lookup; exact Hm].
  rewrite with_material_twice, other_material_names_with_material.
  erewrite bind_normal;
    [|eapply modify_asset_data_run;
      [eapply with_material_lookup; exact Hm | exact Ha]].
  rewrite with_material_twice.
  erewrite modify_asset_data_run;
    [|eapply with_material_lookup; exact Hm | reflexivity].
  rewrite with_material_twice. cbn.
  do 3 f_equal. unfold asset_mark. by destruct (asset_data m).
Qed.

(** C3, as the code has it.  Step 11 marks the material as an asset.  When
    its name starts with "aCG_", the name without the prefix is assigned
    to it, and author and license are set to "AmbientCG.com" and the CC0
    string; the name the material then has is the one the host makes of
    the assigned name, which is that name when the host keeps it (it is
    not empty, fits the name buffer and is not the name of another
    material).  When the name does not start with the prefix, it stays
    and author and license are not written (for a material that was no
    asset before they are empty).  "aCG_Brick01" becomes "Brick01" when
    no other material is named so; "Brick01" stays. *)
Theorem asset_tagging :
  (forall (h : Host) (new_mat : nat) (w : World) (m : Material),
      materials (scene w) !! new_mat = Some m ->
      exists m',
        tag_asset h new_mat w = (Normal tt, with_material w new_mat m') /\
        materials (scene (with_material w new_mat m')) !! new_mat = Some m' /\
        is_Some (asset_data m') /\
        node_tree m' = node_tree m /\
        (forall rest, mat_name m = "aCG_" ++ rest ->
           mat_name m'
           = id_name h MaterialID (other_material_names (scene w) new_mat) rest /\
           (keeps_name h MaterialID (other_material_names (scene w) new_mat) rest ->
            mat_name m' = rest) /\
           asset_data m' =
             Some (mkAssetData "AmbientCG.com"
                     "Creative Commons CC0 1.0 Universal License")) /\
        ((forall rest, mat_name m <> "aCG_" ++ rest) ->
           mat_name m' = mat_name m /\
           m' = asset_mark m /\
           (forall a, asset_data m = Some a -> asset_data m' = Some a) /\
           (asset_data m = None -> asset_data m' = Some (mkAssetData "" "")))) /\
  (let w := mkWorld (set_materials [sample_material "aCG_Brick01" "Brick01_Color" (0, 0);
                                    sample_material "Wood" "Wood_Color" (0, 0)]
                                   empty_scene) ∅ [] in
   (fun w' => (fun m => (mat_name m, asset_data m)) <$> materials (scene w'))
     (snd (tag_asset bricks_host 0 w))
   = [("Brick01", Some (mkAssetData "AmbientCG.com"
                          "Creative Commons CC0 1.0 Universal License"));
      ("Wood", None)]) /\
  (let w := mkWorld (set_materials [sample_material "aCG_Wood" "Wood_Color" (0, 0);
                                    sample_material "Brick01" "Brick01_Color" (0, 0)]
                                   empty_scene) ∅ [] in
   (fun w' => (fun m => (mat_name m, asset_data m)) <$> materials (scene w'))
     (snd (tag_asset bricks_host 1 w))
   = [("aCG_Wood", None);
      ("Brick01", Some (mkAssetData "" ""))]).
Proof.
  split; [|split; by vm_compute].
  intros h new_mat w m Hm. eexists. split; [by apply tag_asset_run|].
  split; [by eapply with_material_lookup|].
  destruct (Py.startswith (mat_name m) "aCG_") eqn:E.
  - apply startswith_spec in E as [t Ht].
    split; [done|]. split; [done|]. split.
    + intros rest Hrest. rewrite Hrest. cbn [mat_name asset_data].
      change (Py.drop 4 ("aCG_" ++ rest)) with rest.
      split; [done|]. split; [|done]. intros Hkeep. exact Hkeep.
    + intros Hno. by destruct (Hno t).
  - split; [apply asset_mark_is_asset|].
    split; [unfold asset_mark; by destruct (asset_data m)|].
    split.
    + intros rest Hrest.
      assert (Py.startswith (mat_name m) "aCG_" = true); [|congruence].
      apply startswith_spec. by exists rest.
    + intros _. unfold asset_mark.
      destruct (asset_data m) eqn:Ea; cbn; repeat split; try done; congruence.
Qed.

Lemma asset_tagging_witness :
  exists m',
    tag_asset bricks_host 0
      (mkWorld (set_materials [sample_material "aCG_Brick01" "Brick01_Color" (0, 0)]
                              empty_scene) ∅ [])
    = (Normal tt,
       with_material
         (mkWorld (set_materials [sample_material "aCG_Brick01" "Brick01_Color" (0, 0)]
                                 empty_scene) ∅ [])
         0 m') /\
    mat_name m' = "Brick01".
Proof.
  destruct (proj1 asset_tagging bricks_host 0%nat
              (mkWorld (set_materials [sample_material "aCG_Brick01" "Brick01_Color" (0, 0)]
                                      empty_scene) ∅ [])
              (sample_material "aCG_Brick01" "Brick01_Color" (0, 0)) eq_refl)
    as (m' & Hrun & _ & _ & _ & Hpre & _).
  exists m'. split; [exact Hrun|].
  destruct (Hpre "Brick01" eq_refl) as (_ & Hkeep & _).
  apply Hkeep. reflexivity.
Defined.

(** The instances of C3 that fail, on a host that keeps names unique and
    not empty.  Next to a material named "Brick01", the material
    "aCG_Brick01" does not become "Brick01" but "Brick01.001"; the
    material "aCG_" becomes "Material"; and when the same archive is
    imported twice in one run, its second material ends as
    "Bricks.001". *)
Lemma stripped_name_is_adjusted :
  (let w := mkWorld (set_materials [sample_material "aCG_Brick01" "Brick01_Color" (0, 0);
                                    sample_material "Brick01" "Brick01_Color" (0, 0)]
                                   empty_scene) ∅ [] in
   mat_name <$> materials (scene (snd (tag_asset bricks_host 0 w)))
   = ["Brick01.001"; "Brick01"]) /\
  (let w := mkWorld (set_materials [sample_material "aCG_" "Brick01_Color" (0, 0)]
                                   empty_scene) ∅ [] in
   mat_name <$> materials (scene (snd (tag_asset bricks_host 0 w)))
   = ["Material"]) /\
  mat_name <$>
    materials (scene (snd (import_archives bricks_host
                             ["/in/Bricks.zip"; "/in/Bricks.zip"] empty_world)))
  = ["Bricks"; "Bricks.001"].
Proof. repeat split; by vm_compute. Qed.


(** ** What the steps leave alone *)

Lemma scene_only_ret {A} (a : A) : scene_only (ret a).
Proof. by intros w. Qed.

Lemma scene_only_raise {A} (e : string) : scene_only (@raise A e).
Proof. by intros w. Qed.

Lemma scene_only_bind {A B} (m : M A) (k : A -> M B) :
  scene_only m -> (forall a, scene_only (k a)) -> scene_only (bind m k).
Proof.
  intros Hm Hk w. unfold bind. specialize (Hm w).
  destruct (m w) as [[a| |e] w1]; cbn in *; try done.
  destruct (Hk a w1) as [-> ->]. done.
Qed.

Lemma scene_only_get_scene : scene_only get_scene.
Proof. by intros w. Qed.

Lemma scene_only_modify_scene (f : Scene -> Scene) : scene_only (modify_scene f).
Proof. by intros w. Qed.

Lemma scene_only_lift_exc {A} (r : exc A) : scene_only (lift_exc r).
Proof. destruct r; [apply scene_only_ret | apply scene_only_raise]. Qed.

Lemma scene_only_get_material (new_mat : nat) : scene_only (get_material new_mat).
Proof. intros w. unfold get_material. by destruct (materials (scene w) !! new_mat). Qed.

Lemma scene_only_get_object (obj : nat) : scene_only (get_object obj).
Proof. intros w. unfold get_object. by destruct (objects (scene w) !! obj). Qed.

Lemma scene_only_listdir (d : nat) : scene_only (listdir d).
Proof. intros w. unfold listdir. by destruct (tmpfs w !! d). Qed.

Create HintDb scene_only.
#[local] Hint Resolve scene_only_ret scene_only_raise scene_only_get_scene
  scene_only_modify_scene scene_only_lift_exc scene_only_get_material
  scene_only_get_object scene_only_listdir : scene_only.

Ltac scene_only_step :=
  first [ solve [auto with scene_only]
        | apply scene_only_bind; [|intros ?] ].

Lemma scene_only_modify_material (new_mat : nat) (f : Material -> Material) :
  scene_only (modify_material new_mat f).
Proof. apply scene_only_modify_scene. Qed.

Lemma scene_only_modify_nodes (new_mat : nat) (f : list Node -> list Node) :
  scene_only (modify_nodes new_mat f).
Proof. apply scene_only_modify_scene. Qed.

Lemma scene_only_modify_node (new_mat tex_node : nat) (f : Node -> Node) :
  scene_only (modify_node new_mat tex_node f).
Proof. apply scene_only_modify_scene. Qed.

Lemma scene_only_modify_object (obj : nat) (f : Object -> Object) :
  scene_only (modify_object obj f).
Proof. apply scene_only_modify_scene. Qed.

Lemma scene_only_get_nodes (new_mat : nat) : scene_only (get_nodes new_mat).
Proof.
  unfold get_nodes. scene_only_step; [scene_only_step|].
  destruct (node_tree a); scene_only_step.
Qed.

#[local] Hint Resolve scene_only_modify_material scene_only_modify_nodes
  scene_only_modify_node scene_only_modify_object scene_only_get_nodes : scene_only.

Lemma scene_only_get_active_object : scene_only get_active_object.
Proof.
  unfold get_active_object. scene_only_step; [scene_only_step|].
  destruct (active_object a); scene_only_step.
Qed.

Lemma scene_only_call_op (h : Host) (op : Op) (effect : Scene -> Scene) :
  scene_only (call_op h op effect).
Proof.
  unfold call_op. scene_only_step; [scene_only_step|].
  destruct (op_error h op a); scene_only_step.
Qed.

Lemma scene_only_nodes_new_tex_image (new_mat : nat) :
  scene_only (nodes_new_tex_image new_mat).
Proof. unfold nodes_new_tex_image. repeat scene_only_step. Qed.

Lemma scene_only_data_images_load (h : Host) (img_path : string) :
  scene_only (data_images_load h img_path).
Proof. unfold data_images_load. repeat scene_only_step. Qed.

Lemma scene_only_wm_usd_import (h : Host) (usdc_path : string) :
  scene_only (wm_usd_import h usdc_path).
Proof. unfold wm_usd_import. repeat scene_only_step. Qed.

Lemma scene_only_set_material_name (h : Host) (new_mat : nat) (name : string) :
  scene_only (set_material_name h new_mat name).
Proof. unfold set_material_name. repeat scene_only_step. Qed.

Lemma scene_only_set_object_name (h : Host) (obj : nat) (name : string) :
  scene_only (set_object_name h obj name).
Proof. unfold set_object_name. repeat scene_only_step. Qed.

#[local] Hint Resolve scene_only_get_active_object scene_only_call_op
  scene_only_nodes_new_tex_image scene_only_data_images_load
  scene_only_wm_usd_import scene_only_set_material_name
  scene_only_set_object_name : scene_only.

Lemma scene_only_add_texture_nodes (h : Host) (new_mat temp_dir : nat)
    (existing_images : gset string) (files : list string) :
  forall texture_nodes,
    scene_only (add_texture_nodes h new_mat temp_dir existing_images files texture_nodes).
Proof.
  induction files as [|f files IH]; intros acc; cbn [add_texture_nodes].
  - scene_only_step.
  - destruct (Py.endswith_any _ _); [|apply IH].
    destruct (is_duplicate _ _ _); [apply IH|].
    repeat scene_only_step.
Qed.

Lemma scene_only_position_texture_nodes (new_mat : nat) (gx gy : Z)
    (texture_nodes : list nat) :
  forall i, scene_only (position_texture_nodes new_mat gx gy i texture_nodes).
Proof.
  induction texture_nodes as [|p rest IH]; intros i; cbn [position_texture_nodes].
  - scene_only_step.
  - repeat scene_only_step.
Qed.

#[local] Hint Resolve scene_only_add_texture_nodes
  scene_only_position_texture_nodes : scene_only.

Lemma scene_only_add_textures (h : Host) (temp_dir new_mat : nat) :
  scene_only (add_textures h temp_dir new_mat).
Proof.
  unfold add_textures. scene_only_step; [scene_only_step|].
  destruct (grid_start _). repeat scene_only_step.
Qed.

Lemma scene_only_create_preview_object (h : Host) (new_mat : nat) :
  scene_only (create_preview_object h new_mat).
Proof.
  unfold create_preview_object. repeat scene_only_step.
  destruct (obj_materials _); scene_only_step.
Qed.

Lemma scene_only_modify_asset_data (new_mat : nat) (f : AssetData -> AssetData) :
  scene_only (modify_asset_data new_mat f).
Proof.
  unfold modify_asset_data. scene_only_step; [scene_only_step|].
  destruct (asset_data a); scene_only_step.
Qed.

#[local] Hint Resolve scene_only_modify_asset_data : scene_only.

Lemma scene_only_tag_asset (h : Host) (new_mat : nat) :
  scene_only (tag_asset h new_mat).
Proof.
  unfold tag_asset. repeat scene_only_step.
  destruct (Py.startswith _ _); repeat scene_only_step.
Qed.

Lemma scene_only_normalize_uvmap (new_mat : nat) : scene_only (normalize_uvmap new_mat).
Proof. unfold normalize_uvmap. repeat scene_only_step. Qed.

#[local] Hint Resolve scene_only_add_textures scene_only_create_preview_object
  scene_only_tag_asset scene_only_normalize_uvmap : scene_only.

Lemma scene_only_build_material (h : Host) (temp_dir new_mat : nat) :
  scene_only (build_material h temp_dir new_mat).
Proof. unfold build_material, finish_material. repeat scene_only_step. Qed.

(** ** One archive *)

Lemma fresh_dir_fresh (fs : gmap nat (list string)) : fs !! fresh_dir fs = None.
Proof.
  destruct (fs !! fresh_dir fs) as [l|] eqn:E; [|done].
  assert (fresh_dir fs ∈ elements (dom fs)) as Hin.
  { apply elem_of_elements, elem_of_dom. by exists l. }
  apply max_list_elem_of_le in Hin. unfold fresh_dir in Hin. lia.
Qed.

(** The world in which the [try] block of an archive starts, when the
    temporary directory could be created. *)
Lemma process_archive_unfold (h : Host) (zip_path : string) (w : World) :
  mkdtemp_error h (announced zip_path w) = None ->
  let d := fresh_dir (tmpfs w) in
  let w0 := set_tmpfs (<[d := []]> (tmpfs w))
              (add_report INFO ("Importing " ++ Py.basename zip_path) w) in
  process_archive h zip_path w =
  let '(o, w1) := try_except (try_body h zip_path d)
                    (fun e => report ERROR
                       ("Failed importing " ++ Py.basename zip_path ++ ": " ++ e)) w0 in
  (o, set_tmpfs (delete d (tmpfs w1)) w1).
Proof.
  intros Hd d w0. unfold process_archive, bind, report, mkdtemp, try_finally, rmtree.
  fold (announced zip_path w). rewrite Hd.
  cbn. destruct (try_except _ _ _) as [o w1]. reflexivity.
Qed.

(** When the temporary directory cannot be created, the exception leaves
    the iteration: the [try] block is not entered. *)
Lemma process_archive_mkdtemp_raises (h : Host) (zip_path : string) (w : World)
    (e : string) :
  mkdtemp_error h (announced zip_path w) = Some e ->
  process_archive h zip_path w = (Raise e, announced zip_path w).
Proof.
  intros Hd. unfold process_archive, bind, report, mkdtemp.
  fold (announced zip_path w). by rewrite Hd.
Qed.

Lemma filter_none {A} (p : A -> bool) (l : list A) :
  (forall x, x ∈ l -> p x = false) -> List.filter p l = [].
Proof.
  induction l as [|x l IH]; intros Hp; [done|]. cbn.
  rewrite (Hp x) by apply list_elem_of_here.
  apply IH. intros y Hy. apply Hp. by apply list_elem_of_further.
Qed.

(** Extraction, then the listing of the directory. *)
Lemma extract_and_list {B} (h : Host) (zip_path : string) (d : nat)
    (entries : list string) (k : list string -> M B) (w : World) :
  zip_extractall h zip_path = Ok entries ->
  (extractall h zip_path d;; files <- listdir d;; k files) w =
  k entries (set_tmpfs (<[d := entries]> (tmpfs w)) w).
Proof.
  intros Hz. unfold extractall, bind, lift_exc. rewrite Hz. cbn.
  unfold listdir. cbn. by rewrite lookup_insert_eq.
Qed.

Lemma try_body_extracted (h : Host) (zip_path : string) (d : nat)
    (entries : list string) (w : World) :
  zip_extractall h zip_path = Ok entries ->
  try_body h zip_path d w =
  match List.filter (fun f => Py.endswith f ".usdc") entries with
  | [] =>
      (Continue,
       add_report WARNING ("No .usdc file found in " ++ Py.basename zip_path)
         (set_tmpfs (<[d := entries]> (tmpfs w)) w))
  | usdc_file :: _ =>
      import_usdc h zip_path d usdc_file (set_tmpfs (<[d := entries]> (tmpfs w)) w)
  end.
Proof.
  intros Hz. unfold try_body. rewrite (extract_and_list _ _ _ _ _ _ Hz).
  by destruct (List.filter _ entries).
Qed.

Lemma no_usdc_run (h : Host) (zip_path : string) (w : World) (entries : list string) :
  mkdtemp_error h (announced zip_path w) = None ->
  zip_extractall h zip_path = Ok entries ->
  List.filter (fun f => Py.endswith f ".usdc") entries = [] ->
  process_archive h zip_path w =
  (Continue,
   mkWorld (scene w) (tmpfs w)
     (reports w ++ [msg_importing zip_path; msg_no_usdc zip_path])).
Proof.
  intros Hd Hz Hnone. rewrite process_archive_unfold by done. unfold try_except.
  rewrite (try_body_extracted _ _ _ _ _ Hz), Hnone. cbn.
  unfold set_tmpfs, add_report. cbn.
  rewrite !delete_insert_eq, (delete_id _ _ (fresh_dir_fresh _)), <- app_assoc.
  done.
Qed.

(** C4.  When the extracted archive has no file whose name ends in ".usdc",
    the archive is skipped: one warning is reported after the "Importing"
    message, the scene is what it was (nothing imported, no material, node
    or object created), and the temporary directory is gone.  That the
    archive was extracted includes that its temporary directory could be
    created. *)
Theorem no_usdc_file_skips (h : Host) (zip_path : string) (w : World)
    (entries : list string) :
  mkdtemp_error h (announced zip_path w) = None ->
  zip_extractall h zip_path = Ok entries ->
  (forall f, f ∈ entries -> Py.endswith f ".usdc" = false) ->
  let w' := snd (process_archive h zip_path w) in
  fst (process_archive h zip_path w) = Continue /\
  scene w' = scene w /\
  tmpfs w' = tmpfs w /\
  tmpfs w' !! fresh_dir (tmpfs w) = None /\
  reports w' = (reports w ++ [msg_importing zip_path; msg_no_usdc zip_path])%list.
Proof.
  intros Hd Hz Hnone w'. subst w'.
  rewrite (no_usdc_run h zip_path w entries Hd Hz (filter_none _ _ Hnone)). cbn.
  repeat split. apply fresh_dir_fresh.
Qed.

Lemma no_usdc_file_skips_witness :
  let w' := snd (process_archive textures_host "/in/Textures.zip" empty_world) in
  fst (process_archive textures_host "/in/Textures.zip" empty_world) = Continue /\
  scene w' = scene empty_world /\
  tmpfs w' = tmpfs empty_world /\
  tmpfs w' !! fresh_dir (tmpfs empty_world) = None /\
  reports w' =
    (reports empty_world ++
     [msg_importing "/in/Textures.zip"; msg_no_usdc "/in/Textures.zip"])%list.
Proof.
  apply (no_usdc_file_skips textures_host "/in/Textures.zip" empty_world
           ["readme.txt"; "wood.png"; "scene.USDC"]).
  - reflexivity.
  - reflexivity.
  - intros f Hf. apply list_elem_of_In in Hf. cbn in Hf.
    destruct Hf as [<- | [<- | [<- | []]]]; reflexivity.
Defined.

Lemma wm_usd_import_ok (h : Host) (usdc_path : string) (w : World) (s' : Scene) :
  usd_import h usdc_path (scene w) = Ok s' ->
  wm_usd_import h usdc_path w = (Normal tt, set_scene s' w).
Proof. intros Hok. unfold wm_usd_import, bind, get_scene, lift_exc. by rewrite Hok. Qed.

Lemma new_materials_nil (existing_mats : gset string) (s : Scene) :
  (forall name, name ∈ map mat_name (materials s) -> name ∈ existing_mats) ->
  new_materials existing_mats s = [].
Proof.
  intros Hall. unfold new_materials. rewrite filter_none; [done|].
  intros name Hname. apply bool_decide_eq_false. intros Hnot. by apply Hnot, Hall.
Qed.

Lemma import_usdc_no_new (h : Host) (zip_path : string) (d : nat) (usdc_file : string)
    (w : World) (s' : Scene) :
  usd_import h (Py.path_join (temp_path d) usdc_file) (scene w) = Ok s' ->
  new_materials (list_to_set (map mat_name (materials (scene w)))) s' = [] ->
  import_usdc h zip_path d usdc_file w =
  (Continue, add_report WARNING ("No new materials imported from " ++ Py.basename zip_path)
               (set_scene s' w)).
Proof.
  intros Hok Hnone. unfold import_usdc.
  unfold bind at 1. cbn [get_scene].
  erewrite bind_normal; [|by apply wm_usd_import_ok].
  unfold bind at 1. cbn [get_scene scene set_scene]. by rewrite Hnone.
Qed.

(** C6.  When the host import leaves no material whose name was not there
    before, the archive is skipped: a warning is reported, and the scene is
    exactly what the import left, so no texture node or preview object is
    created and nothing is tagged as asset.  That the import ran includes
    that the temporary directory could be created and the archive
    extracted. *)
Theorem no_new_material_skips (h : Host) (zip_path : string) (w : World)
    (entries : list string) (usdc_file : string) (others : list string) (s' : Scene) :
  mkdtemp_error h (announced zip_path w) = None ->
  zip_extractall h zip_path = Ok entries ->
  List.filter (fun f => Py.endswith f ".usdc") entries = usdc_file :: others ->
  usd_import h (Py.path_join (temp_path (fresh_dir (tmpfs w))) usdc_file) (scene w)
    = Ok s' ->
  (forall m', m' ∈ materials s' ->
     exists m, m ∈ materials (scene w) /\ mat_name m = mat_name m') ->
  let w' := snd (process_archive h zip_path w) in
  fst (process_archive h zip_path w) = Continue /\
  scene w' = s' /\
  tmpfs w' = tmpfs w /\
  reports w' =
    (reports w ++ [msg_importing zip_path; msg_no_new_materials zip_path])%list.
Proof.
  intros Hd Hz Hu Hok Hnames w'. subst w'.
  rewrite process_archive_unfold by done. unfold try_except.
  rewrite (try_body_extracted _ _ _ _ _ Hz), Hu.
  erewrite import_usdc_no_new; [|exact Hok|].
  - cbn. rewrite !delete_insert_eq, (delete_id _ _ (fresh_dir_fresh _)).
    by rewrite <- app_assoc.
  - apply new_materials_nil. intros name Hname. cbn.
    apply elem_of_list_to_set.
    apply list_elem_of_fmap in Hname as (m' & -> & Hm').
    destruct (Hnames m' Hm') as (m & Hm & <-).
    apply list_elem_of_fmap. by exists m.
Qed.

Lemma no_new_material_skips_witness :
  let w' := snd (process_archive reimport_host "/in/Bricks.zip" bricks_world) in
  fst (process_archive reimport_host "/in/Bricks.zip" bricks_world) = Continue /\
  scene w' = scene bricks_world /\
  tmpfs w' = tmpfs bricks_world /\
  reports w' =
    (reports bricks_world ++
     [msg_importing "/in/Bricks.zip"; msg_no_new_materials "/in/Bricks.zip"])%list.
Proof.
  apply (no_new_material_skips reimport_host "/in/Bricks.zip" bricks_world
           ["Bricks.usdc"; "Bricks_Normal.png"] "Bricks.usdc" []).
  - reflexivity.
  - reflexivity.
  - reflexivity.
  - reflexivity.
  - intros m' Hm'. by exists m'.
Defined.

(** ** What the [try] block does to directories and reports *)

Lemma import_usdc_env (h : Host) (zip_path : string) (d : nat) (usdc_file : string)
    (w : World) :
  let w' := snd (import_usdc h zip_path d usdc_file w) in
  tmpfs w' = tmpfs w /\
  (reports w' = reports w \/
   reports w' = (reports w ++ [msg_no_new_materials zip_path])%list).
Proof.
  cbn. unfold import_usdc, bind, get_scene.
  destruct (scene_only_wm_usd_import h (Py.path_join (temp_path d) usdc_file) w)
    as [Hfs Hrep].
  destruct (wm_usd_import h _ w) as [[[]| |e] w1]; cbn in *; try (split; [done|by left]).
  destruct (new_materials _ _) as [|new_mat ?].
  - cbn. split; [done|]. right. by rewrite Hrep.
  - destruct (scene_only_build_material h d new_mat w1) as [-> ->].
    split; [done|by left].
Qed.

Lemma try_body_env (h : Host) (zip_path : string) (d : nat) (w : World) :
  let w' := snd (try_body h zip_path d w) in
  delete d (tmpfs w') = delete d (tmpfs w) /\
  exists rs, reports w' = (reports w ++ rs)%list /\
             (rs = [] \/ rs = [msg_no_usdc zip_path] \/
              rs = [msg_no_new_materials zip_path]).
Proof.
  cbn. destruct (zip_extractall h zip_path) as [entries|e] eqn:Hz.
  - rewrite (try_body_extracted _ _ _ _ _ Hz).
    destruct (List.filter _ entries) as [|u ?].
    + cbn. split; [apply delete_insert_eq|]. eexists. split; [done|]. right. by left.
    + pose proof (import_usdc_env h zip_path d u
                    (set_tmpfs (<[d := entries]> (tmpfs w)) w)) as [Hfs Hrep].
      cbv zeta in Hfs, Hrep. rewrite Hfs.
      split; [apply delete_insert_eq|].
      destruct Hrep as [Hrep | Hrep]; rewrite Hrep.
      * exists []. split; [by rewrite app_nil_r|by left].
      * eexists. split; [done|]. by right; right.
  - unfold try_body, extractall, bind, lift_exc. rewrite Hz. cbn.
    split; [done|]. exists []. split; [by rewrite app_nil_r|by left].
Qed.

Lemma try_body_reports_of (h : Host) (zip_path : string) (d : nat) (w : World)
    (l : Level) :
  l <> WARNING ->
  reports_of l (reports (snd (try_body h zip_path d w))) = reports_of l (reports w).
Proof.
  intros Hl. destruct (try_body_env h zip_path d w) as [_ (rs & -> & Hrs)].
  unfold reports_of. rewrite List.filter_app.
  destruct Hrs as [-> | [-> | ->]]; cbn;
    rewrite ?bool_decide_eq_false_2 by congruence; by rewrite app_nil_r.
Qed.

(** The end of one archive: the handler reports when the block raised,
    and the directory is removed in every case. *)
Lemma process_archive_end (h : Host) (zip_path : string) (w : World) :
  mkdtemp_error h (announced zip_path w) = None ->
  let d := fresh_dir (tmpfs w) in
  process_archive h zip_path w =
  match try_body h zip_path d (try_start zip_path w) with
  | (Raise e, w1) =>
      (Normal tt,
       set_tmpfs (delete d (tmpfs w1))
         (add_report ERROR ("Failed importing " ++ Py.basename zip_path ++ ": " ++ e) w1))
  | (o, w1) => (o, set_tmpfs (delete d (tmpfs w1)) w1)
  end.
Proof.
  intros Hd d. rewrite process_archive_unfold by done. cbv zeta.
  unfold try_except, try_start. subst d.
  by destruct (try_body _ _ _ _) as [[[]| |e] w1].
Qed.


(** ** The scene-description file *)

Lemma process_archive_reports_of (h : Host) (zip_path : string) (w : World) (l : Level) :
  mkdtemp_error h (announced zip_path w) = None ->
  l <> WARNING ->
  reports_of l (reports (snd (process_archive h zip_path w))) =
  (reports_of l (reports w) ++ reports_of l [msg_importing zip_path] ++
   match fst (try_body h zip_path (fresh_dir (tmpfs w)) (try_start zip_path w)) with
   | Raise e => reports_of l [msg_failed zip_path e]
   | _ => []
   end)%list.
Proof.
  intros Hd Hl. rewrite process_archive_end by done.
  pose proof (try_body_reports_of h zip_path (fresh_dir (tmpfs w))
                (try_start zip_path w) l Hl) as Hrep.
  assert (reports_of l (reports (try_start zip_path w)) =
          (reports_of l (reports w) ++ reports_of l [msg_importing zip_path])%list)
    as Hstart.
  { unfold try_start, reports_of. cbn. by rewrite List.filter_app. }
  rewrite Hstart in Hrep.
  destruct (try_body _ _ _ _) as [[[]| |e] w1]; cbn in *;
    rewrite ?app_nil_r, ?app_assoc; try done.
  unfold reports_of at 1. rewrite List.filter_app. fold (reports_of l (reports w1)).
  by rewrite Hrep.
Qed.

(** ** The scene-description file *)

Lemma bind_raise {A B} (m : M A) (k : A -> M B) (w w' : World) (e : string) :
  m w = (Raise e, w') -> bind m k w = (Raise e, w').
Proof. intros Hm. unfold bind. by rewrite Hm. Qed.

(** When the import brings a new material, steps 5 to 15 run on the first. *)
Lemma import_usdc_new (h : Host) (zip_path : string) (temp_dir : nat)
    (usdc_file : string) (w : World) (s' : Scene) (new_mat : nat) (rest : list nat) :
  usd_import h (Py.path_join (temp_path temp_dir) usdc_file) (scene w) = Ok s' ->
  new_materials (list_to_set (map mat_name (materials (scene w)))) s'
    = new_mat :: rest ->
  import_usdc h zip_path temp_dir usdc_file w =
  build_material h temp_dir new_mat (set_scene s' w).
Proof.
  intros Hok Hnew. unfold import_usdc. unfold bind at 1. cbn [get_scene].
  erewrite bind_normal; [|by apply wm_usd_import_ok].
  unfold bind at 1. cbn [get_scene scene set_scene]. by rewrite Hnew.
Qed.

(** When the import raises, nothing else is done. *)
Lemma import_usdc_fails (h : Host) (zip_path : string) (temp_dir : nat)
    (usdc_file : string) (w : World) (e : string) :
  usd_import h (Py.path_join (temp_path temp_dir) usdc_file) (scene w) = Err e ->
  import_usdc h zip_path temp_dir usdc_file w = (Raise e, w).
Proof.
  intros Herr. unfold import_usdc. unfold bind at 1. cbn [get_scene].
  apply bind_raise. unfold wm_usd_import, bind, get_scene, lift_exc.
  by rewrite Herr.
Qed.

(** C5, as the code has it.  An archive is processed when at least one
    extracted name ends in ".usdc": the host import is called on the first
    such name of the listing, in the temporary directory, whatever other
    such names follow, and what the archive does is decided by that import
    alone.  When it raises, the archive ends with the error message and
    the scene untouched; when it brings no new material, with the warning
    about new materials and the scene of the import; else steps 5 to 15
    run on the first new material of that scene, and no warning is
    reported.  Only an archive with no such name is skipped with the
    ".usdc" warning. *)
Theorem first_usdc_file_is_used (h : Host) (zip_path : string) (w : World)
    (entries : list string) :
  mkdtemp_error h (announced zip_path w) = None ->
  zip_extractall h zip_path = Ok entries ->
  let d := fresh_dir (tmpfs w) in
  let w' := snd (process_archive h zip_path w) in
  match List.filter (fun f => Py.endswith f ".usdc") entries with
  | [] =>
      fst (process_archive h zip_path w) = Continue /\
      scene w' = scene w /\
      reports w' = (reports w ++ [msg_importing zip_path; msg_no_usdc zip_path])%list
  | usdc_file :: _ =>
      match usd_import h (Py.path_join (temp_path d) usdc_file) (scene w) with
      | Err e =>
          fst (process_archive h zip_path w) = Normal tt /\
          scene w' = scene w /\
          reports w' = (reports w ++ [msg_importing zip_path; msg_failed zip_path e])%list
      | Ok s' =>
          match new_materials (list_to_set (map mat_name (materials (scene w)))) s' with
          | [] =>
              fst (process_archive h zip_path w) = Continue /\
              scene w' = s' /\
              reports w' =
                (reports w ++ [msg_importing zip_path; msg_no_new_materials zip_path])%list
          | new_mat :: _ =>
              try_body h zip_path d (try_start zip_path w) =
              build_material h d new_mat
                (set_scene s'
                   (set_tmpfs (<[d := entries]> (tmpfs (try_start zip_path w)))
                      (try_start zip_path w))) /\
              scene w' =
                scene (snd (build_material h d new_mat
                              (set_scene s'
                                 (set_tmpfs (<[d := entries]> (tmpfs (try_start zip_path w)))
                                    (try_start zip_path w))))) /\
              reports_of WARNING (reports w') = reports_of WARNING (reports w)
          end
      end
  end.
Proof.
  intros Hd Hz d w'. destruct (List.filter _ entries) as [|u others] eqn:Hu.
  { subst w'. rewrite (no_usdc_run h zip_path w entries Hd Hz Hu). by cbn. }
  subst w'. rewrite process_archive_end by done. fold d.
  rewrite (try_body_extracted _ _ _ _ _ Hz), Hu.
  set (w0 := set_tmpfs (<[d := entries]> (tmpfs (try_start zip_path w)))
               (try_start zip_path w)).
  assert (Hs0 : scene w0 = scene w) by done.
  destruct (usd_import h _ (scene w)) as [s'|e] eqn:Himp.
  2: { rewrite (import_usdc_fails h zip_path d u w0 e) by (by rewrite Hs0).
       cbn. by rewrite <- app_assoc. }
  destruct (new_materials _ s') as [|new_mat rest] eqn:Hnew.
  { rewrite (import_usdc_no_new h zip_path d u w0 s') by (by rewrite ?Hs0).
    cbn. by rewrite <- app_assoc. }
  rewrite (import_usdc_new h zip_path d u w0 s' new_mat rest) by (by rewrite ?Hs0).
  split; [done|].
  destruct (scene_only_build_material h d new_mat (set_scene s' w0)) as [_ Hrep].
  destruct (build_material h d new_mat (set_scene s' w0)) as [[[]| |e] w1];
    cbn [fst snd scene reports set_tmpfs add_report] in *;
    (split; [done|]); rewrite Hrep; cbn;
    unfold reports_of; rewrite ?List.filter_app; cbn; by rewrite ?app_nil_r.
Qed.

Lemma first_usdc_file_is_used_witness :
  let w' := snd (process_archive two_scenes_host "/in/Two.zip" empty_world) in
  reports_of WARNING (reports w') = [] /\
  mat_name <$> materials (scene w') = ["first"].
Proof.
  pose proof (first_usdc_file_is_used two_scenes_host "/in/Two.zip" empty_world
                ["first.usdc"; "wood.png"; "second.usdc"] eq_refl eq_refl)
    as (_ & Hscene & Hwarn).
  split; [exact Hwarn|].
  cbv zeta. rewrite Hscene. by vm_compute.
Defined.

(** The instance of C5 that fails: an archive with two ".usdc" files is
    not skipped.  It gets no warning, the first file is imported, and its
    material gets the preview object. *)
Lemma two_usdc_files_processed :
  zip_extractall two_scenes_host "/in/Two.zip"
    = Ok ["first.usdc"; "wood.png"; "second.usdc"] /\
  List.filter (fun f => Py.endswith f ".usdc") ["first.usdc"; "wood.png"; "second.usdc"]
    = ["first.usdc"; "second.usdc"] /\
  (let r := process_archive two_scenes_host "/in/Two.zip" empty_world in
   fst r = Normal tt /\
   reports (snd r) = [msg_importing "/in/Two.zip"] /\
   map mat_name (materials (scene (snd r))) = ["first"] /\
   map obj_name (objects (scene (snd r))) = ["ImportedSphere_first"]).
Proof. repeat split; by vm_compute. Qed.

(** ** The loop over the archives *)

(** Once its temporary directory exists, an archive never ends in an
    exception. *)
Lemma process_archive_no_raise (h : Host) (zip_path : string) (w : World) :
  mkdtemp_error h (announced zip_path w) = None ->
  fst (process_archive h zip_path w) = Normal tt \/
  fst (process_archive h zip_path w) = Continue.
Proof.
  intros Hd. rewrite process_archive_end by done.
  destruct (try_body _ _ _ _) as [[[]| |e] w1]; cbn; auto.
Qed.

Lemma for_each_process_cons (h : Host) (zip_path : string) (rest : list string)
    (w : World) :
  mkdtemp_error h (announced zip_path w) = None ->
  for_each (zip_path :: rest) (process_archive h) w =
  for_each rest (process_archive h) (snd (process_archive h zip_path w)).
Proof.
  intros Hd.
  cbn [for_each]. destruct (process_archive_no_raise h zip_path w Hd) as [Ho | Ho];
    destruct (process_archive h zip_path w) as [o w1]; cbn in Ho; by subst o.
Qed.

Lemma for_each_process_normal (h : Host) (zip_paths : list string) :
  (forall w, mkdtemp_error h w = None) ->
  forall w, fst (for_each zip_paths (process_archive h) w) = Normal tt.
Proof.
  intros Hd.
  induction zip_paths as [|p rest IH]; intros w; [done|].
  rewrite for_each_process_cons by done. apply IH.
Qed.

Lemma import_archives_cons (h : Host) (zip_path : string) (rest : list string)
    (w : World) :
  mkdtemp_error h (announced zip_path w) = None ->
  import_archives h (zip_path :: rest) w =
  import_archives h rest (snd (process_archive h zip_path w)).
Proof. intros Hd. unfold import_archives, bind. by rewrite for_each_process_cons. Qed.

(** An exception of [tempfile.mkdtemp] ends the loop and the operator. *)
Lemma import_archives_raises (h : Host) (zip_path : string) (rest : list string)
    (w : World) (e : string) :
  mkdtemp_error h (announced zip_path w) = Some e ->
  import_archives h (zip_path :: rest) w = (Raise e, announced zip_path w).
Proof.
  intros Hd. unfold import_archives, bind. cbn [for_each].
  by rewrite (process_archive_mkdtemp_raises _ _ _ _ Hd).
Qed.

Lemma import_archives_finished (h : Host) (zip_paths : list string) (w : World) :
  (forall w, mkdtemp_error h w = None) ->
  fst (import_archives h zip_paths w) = Normal FINISHED.
Proof.
  intros Hd. unfold import_archives, bind.
  pose proof (for_each_process_normal h zip_paths Hd w) as Hn.
  destruct (for_each _ _ w) as [o w1]. cbn in Hn. by subst o.
Qed.

Lemma import_archives_info (h : Host) (zip_paths : list string) :
  (forall w, mkdtemp_error h w = None) ->
  forall w,
    reports_of INFO (reports (snd (import_archives h zip_paths w))) =
    (reports_of INFO (reports w) ++ map msg_importing zip_paths)%list.
Proof.
  intros Hd. induction zip_paths as [|p rest IH]; intros w.
  - cbn. by rewrite app_nil_r.
  - rewrite import_archives_cons, IH, process_archive_reports_of by done.
    rewrite <- !app_assoc. f_equal. cbn.
    by destruct (fst (try_body _ _ _ _)).
Qed.




(** ** Steps 10 to 15: the preview object and the names *)

Lemma call_op_ok (h : Host) (op : Op) (effect : Scene -> Scene) (w : World) :
  op_error h op (scene w) = None ->
  call_op h op effect w = (Normal tt, set_scene (effect (scene w)) w).
Proof. intros Hop. unfold call_op, bind, get_scene. by rewrite Hop. Qed.

Lemma get_active_object_ok (w : World) (obj : nat) :
  active_object (scene w) = Some obj ->
  get_active_object w = (Normal obj, w).
Proof. intros Ha. unfold get_active_object, bind, get_scene. by rewrite Ha. Qed.

Lemma get_object_ok (obj : nat) (w : World) (o : Object) :
  objects (scene w) !! obj = Some o ->
  get_object obj w = (Normal o, w).
Proof. intros Ho. unfold get_object. by rewrite Ho. Qed.

Lemma delete_snoc {A} (l : list A) (x : A) : delete (length l) (l ++ [x])%list = l.
Proof. induction l as [|y l IH]; cbn; [done | by f_equal]. Qed.

(** Naming the object that was added last: the other objects are the
    ones that were there before it. *)
Lemma set_object_name_last (h : Host) (name : string) (w : World)
    (objs : list Object) (o : Object) :
  objects (scene w) = (objs ++ [o])%list ->
  set_object_name h (length objs) name w =
  (Normal tt,
   set_scene
     (set_objects
        (objs ++ [set_obj_name (id_name h ObjectID (map obj_name objs) name) o])%list
        (scene w))
     w).
Proof.
  intros Ho. unfold set_object_name, bind, get_scene, modify_object, modify_scene.
  unfold other_object_names. rewrite Ho, delete_snoc, alter_snoc. reflexivity.
Qed.

Lemma create_preview_object_run (h : Host) (new_mat : nat) (w : World) (m : Material) :
  materials (scene w) !! new_mat = Some m ->
  (forall op s, op_error h op s = None) ->
  create_preview_object h new_mat w =
  (Normal tt,
   set_scene
     (mkScene (<[new_mat := set_displacement_method "BOTH" m]> (materials (scene w)))
        (images (scene w))
        (objects (scene w) ++ [mkObject (preview_object_name h w m) [new_mat]])%list
        (Some (length (objects (scene w))))
        (packed_images (scene w)))
     w).
Proof.
  intros Hm Hop. unfold create_preview_object.
  erewrite bind_normal; [|by apply modify_material_run].
  erewrite bind_normal; [|by apply call_op_ok].
  erewrite bind_normal; [|by apply get_active_object_ok].
  erewrite bind_normal;
    [|apply get_material_ok; cbn; apply list_lookup_insert_eq; by eapply lookup_lt_Some].
  cbn [scene set_scene with_material materials set_materials objects set_objects
       active_object set_active_object images packed_images mat_name
       set_displacement_method].
  erewrite bind_normal; [|by apply set_object_name_last].
  erewrite bind_normal; [|by apply call_op_ok].
  erewrite bind_normal;
    [|apply get_object_ok; cbn; by apply list_lookup_middle].
  cbn. unfold modify_object, modify_scene. cbn.
  rewrite (alter_snoc _ (objects (scene w))). reflexivity.
Qed.

Lemma normalize_uvmap_run (new_mat : nat) (w : World) (m : Material) (nodes : list Node) :
  materials (scene w) !! new_mat = Some m ->
  node_tree m = Some nodes ->
  normalize_uvmap new_mat w =
  (Normal tt,
   with_material w new_mat
     (set_node_tree
        (Some (map (fun node => if String.eqb (node_type node) "UVMAP"
                                then set_node_uv_map "UVMap" node else node) nodes))
        m)).
Proof.
  intros Hm Hn. unfold normalize_uvmap.
  erewrite bind_normal; [|by apply (get_nodes_ok _ _ m nodes)].
  by apply modify_nodes_run.
Qed.

(** The material after step 11. *)
Lemma tagged_name (h : Host) (others : list string) (m : Material) :
  let m' := if Py.startswith (mat_name m) "aCG_"
            then mkMaterial (id_name h MaterialID others (Py.drop 4 (mat_name m)))
                   (node_tree m) (displacement_method m)
                   (Some (mkAssetData "AmbientCG.com"
                            "Creative Commons CC0 1.0 Universal License"))
            else asset_mark m in
  node_tree m' = node_tree m /\
  (forall rest, mat_name m = "aCG_" ++ rest ->
     mat_name m' = id_name h MaterialID others rest) /\
  ((forall rest, mat_name m <> "aCG_" ++ rest) -> mat_name m' = mat_name m).
Proof.
  cbv zeta. destruct (Py.startswith (mat_name m) "aCG_") eqn:E.
  - apply startswith_spec in E as [t Ht]. split; [done|]. split.
    + intros rest ->. done.
    + intros Hno. by destruct (Hno t).
  - split; [unfold asset_mark; by destruct (asset_data m)|]. split.
    + intros rest Hrest.
      assert (Py.startswith (mat_name m) "aCG_" = true); [|congruence].
      apply startswith_spec. by exists rest.
    + intros _. unfold asset_mark. by destruct (asset_data m).
Qed.

(** Steps 10 to 15 on a host whose operators succeed. *)
Lemma finish_material_run (h : Host) (new_mat : nat) (w : World) (m : Material)
    (nodes : list Node) :
  materials (scene w) !! new_mat = Some m ->
  node_tree m = Some nodes ->
  (forall op s, op_error h op s = None) ->
  finish_material h new_mat w =
  (Normal tt,
   set_scene
     (mkScene
        (<[new_mat := finished_material h (other_material_names (scene w) new_mat)
                        m nodes]> (materials (scene w)))
        (images (scene w))
        (objects (scene w) ++ [mkObject (preview_object_name h w m) [new_mat]])%list
        (Some (length (objects (scene w))))
        (packed_images (scene w) ∪ pack_all_images h (scene w)))
     w).
Proof.
  intros Hm Hn Hop.
  assert (Hlt : (new_mat < length (materials (scene w)))%nat)
    by (by eapply lookup_lt_Some).
  set (m1 := set_displacement_method "BOTH" m).
  pose proof (tagged_name h (other_material_names (scene w) new_mat) m1)
    as (Htree & _ & _).
  cbv zeta in Htree.
  unfold finish_material.
  erewrite bind_normal; [|by apply create_preview_object_run].
  erewrite bind_normal;
    [|apply (tag_asset_run _ _ _ m1); cbn; by apply list_lookup_insert_eq].
  assert (Hothers : forall x imgs objs a p,
             other_material_names
               (scene (set_scene
                         (mkScene (<[new_mat := x]> (materials (scene w))) imgs objs a p)
                         w)) new_mat
             = other_material_names (scene w) new_mat).
  { intros. unfold other_material_names. cbn. by rewrite delete_insert_same. }
  rewrite Hothers.
  erewrite bind_normal;
    [|eapply (normalize_uvmap_run _ _ _ nodes);
      [eapply with_material_lookup; cbn; by apply list_lookup_insert_eq
      |by rewrite Htree]].
  rewrite with_material_twice.
  erewrite bind_normal; [|apply call_op_ok, Hop].
  rewrite call_op_ok by apply Hop.
  unfold with_material, set_scene, set_packed_images, set_materials, pack_all_images.
  cbn [scene materials images objects active_object packed_images tmpfs reports].
  rewrite !list_insert_insert_eq.
  do 4 f_equal. unfold finished_material. subst m1.
  cbn [mat_name set_displacement_method].
  destruct (Py.startswith (mat_name m) "aCG_"); [done|].
  unfold asset_mark. cbn [asset_data set_displacement_method].
  by destruct (asset_data m).
Qed.

Lemma finished_material_name (h : Host) (others : list string) (m : Material)
    (nodes : list Node) :
  (forall rest, mat_name m = "aCG_" ++ rest ->
     mat_name (finished_material h others m nodes) = id_name h MaterialID others rest) /\
  ((forall rest, mat_name m <> "aCG_" ++ rest) ->
     mat_name (finished_material h others m nodes) = mat_name m).
Proof.
  unfold finished_material. cbn [mat_name].
  destruct (Py.startswith (mat_name m) "aCG_") eqn:E.
  - apply startswith_spec in E as [t Ht]. split.
    + intros rest ->. done.
    + intros Hno. by destruct (Hno t).
  - split; [|done]. intros rest Hrest.
    assert (Py.startswith (mat_name m) "aCG_" = true); [|congruence].
    apply startswith_spec. by exists rest.
Qed.

(** C10, as the code has it.  The preview object gets its name when it is
    created (step 10): "ImportedSphere_" followed by the name the material
    has at that moment is assigned, and the object is named as the host
    makes of it, which is that very string when the host keeps it (it fits
    the name buffer and no other object has it).  The prefix "aCG_" is
    stripped from the material name in step 11, after that, and nothing
    renames the object: when steps 10 to 15 are done, a material that was
    named "aCG_" + rest has been given the name rest, and its preview
    object, whose slot refers to that same material, still has the name
    made of "ImportedSphere_aCG_" + rest. *)
Theorem preview_object_keeps_prefixed_name :
  (forall (h : Host) (new_mat : nat) (w : World) (m : Material) (nodes : list Node),
      materials (scene w) !! new_mat = Some m ->
      node_tree m = Some nodes ->
      (forall op s, op_error h op s = None) ->
      let others := map obj_name (objects (scene w)) in
      let given := id_name h ObjectID others ("ImportedSphere_" ++ mat_name m) in
      (exists w1,
         create_preview_object h new_mat w = (Normal tt, w1) /\
         objects (scene w1) = (objects (scene w) ++ [mkObject given [new_mat]])%list /\
         mat_name <$> materials (scene w1) !! new_mat = Some (mat_name m)) /\
      exists w' m',
        finish_material h new_mat w = (Normal tt, w') /\
        objects (scene w') = (objects (scene w) ++ [mkObject given [new_mat]])%list /\
        materials (scene w') !! new_mat = Some m' /\
        (forall rest, mat_name m = "aCG_" ++ rest ->
           mat_name m'
           = id_name h MaterialID (other_material_names (scene w) new_mat) rest /\
           (keeps_name h MaterialID (other_material_names (scene w) new_mat) rest ->
            mat_name m' = rest) /\
           objects (scene w') !! length (objects (scene w)) =
             Some (mkObject (id_name h ObjectID others ("ImportedSphere_aCG_" ++ rest))
                     [new_mat]) /\
           (keeps_name h ObjectID others ("ImportedSphere_aCG_" ++ rest) ->
            objects (scene w') !! length (objects (scene w)) =
              Some (mkObject ("ImportedSphere_aCG_" ++ rest) [new_mat]))) /\
        ((forall rest, mat_name m <> "aCG_" ++ rest) -> mat_name m' = mat_name m)) /\
  (let w' := snd (process_archive bricks_host "/in/Bricks.zip" empty_world) in
   map mat_name (materials (scene w')) = ["Bricks"] /\
   map (fun o => (obj_name o, obj_materials o)) (objects (scene w'))
     = [("ImportedSphere_aCG_Bricks", [0%nat])]).
Proof.
  split; [|by vm_compute].
  intros h new_mat w m nodes Hm Hn Hop others given.
  assert (Hlt : (new_mat < length (materials (scene w)))%nat)
    by (by eapply lookup_lt_Some).
  split.
  { eexists. split; [by apply create_preview_object_run|].
    split; [done|]. cbn. by rewrite list_lookup_insert_eq. }
  destruct (finished_material_name h (other_material_names (scene w) new_mat) m nodes)
    as [Hpre Hno].
  eexists _, _. split; [by apply (finish_material_run h new_mat w m nodes)|].
  cbn [scene set_scene objects materials].
  split; [done|]. split; [by apply list_lookup_insert_eq|].
  split; [|exact Hno].
  intros rest Hrest.
  split; [by apply Hpre|]. split; [intros Hkeep; by rewrite (Hpre rest Hrest)|].
  unfold preview_object_name. fold others. rewrite Hrest.
  change ("ImportedSphere_" ++ "aCG_" ++ rest) with ("ImportedSphere_aCG_" ++ rest).
  split; [by apply list_lookup_middle|].
  intros Hkeep. rewrite list_lookup_middle by done.
  unfold keeps_name in Hkeep. by rewrite Hkeep.
Qed.

Lemma preview_object_keeps_prefixed_name_witness :
  exists w' m',
    finish_material bricks_host 0
      (mkWorld (set_materials [sample_material "aCG_Bricks" "Bricks_Color" (0, 0)]
                              empty_scene) ∅ [])
    = (Normal tt, w') /\
    materials (scene w') !! 0%nat = Some m' /\
    mat_name m' = "Bricks" /\
    objects (scene w') !! 0%nat =
      Some (mkObject "ImportedSphere_aCG_Bricks" [0%nat]).
Proof.
  destruct (proj1 preview_object_keeps_prefixed_name bricks_host 0%nat
              (mkWorld (set_materials [sample_material "aCG_Bricks" "Bricks_Color" (0, 0)]
                                      empty_scene) ∅ [])
              (sample_material "aCG_Bricks" "Bricks_Color" (0, 0))
              (default [] (node_tree (sample_material "aCG_Bricks" "Bricks_Color" (0, 0))))
              eq_refl eq_refl (fun _ _ => eq_refl))
    as (_ & w' & m' & Hrun & _ & Hmat & Hpre & _).
  exists w', m'. split; [exact Hrun|]. split; [exact Hmat|].
  destruct (Hpre "Bricks" eq_refl) as (_ & Hname & _ & Hobj).
  split; [by apply Hname|]. by apply Hobj.
Defined.

(** The instances of C10 that fail, on a host that keeps names unique and
    within 63 bytes.  When the same archive is imported twice in one run,
    the second preview object is not named "ImportedSphere_aCG_Bricks",
    which the first is, but "ImportedSphere_aCG_Bricks.001".  And for a
    material whose name has 61 bytes, the object name is cut: it is not
    "ImportedSphere_" followed by the material name. *)
Lemma preview_object_name_is_adjusted :
  obj_name <$>
    objects (scene (snd (import_archives bricks_host
                           ["/in/Bricks.zip"; "/in/Bricks.zip"] empty_world)))
  = ["ImportedSphere_aCG_Bricks"; "ImportedSphere_aCG_Bricks.001"] /\
  (let name := "aCG_PavingStones_with_a_long_descriptive_name_8K_Displacement" in
   let w := mkWorld (set_materials [sample_material name "Paving_Color" (0, 0)]
                                   empty_scene) ∅ [] in
   obj_name <$> objects (scene (snd (finish_material bricks_host 0 w)))
   = ["ImportedSphere_aCG_PavingStones_with_a_long_descriptive_name_8K"] /\
   "ImportedSphere_aCG_PavingStones_with_a_long_descriptive_name_8K"
   <> "ImportedSphere_" ++ name).
Proof. repeat split; by vm_compute. Qed.

(** * Further properties *)

(** X1.  [os.path.splitext] cuts the name in two parts that give it back.
    The extension is empty, or it is a dot followed by characters without
    a dot, and then the root is not empty.  So the name step 8 matches an
    image file by is never empty. *)
Theorem splitext_parts :
  (forall p : string,
      fst (Py.splitext p) ++ snd (Py.splitext p) = p /\
      ((snd (Py.splitext p) = "" /\ fst (Py.splitext p) = p) \/
       (exists t, snd (Py.splitext p) = String "." t /\
                  Py.contains t "." = false /\
                  fst (Py.splitext p) <> ""))) /\
  (forall (h : Host) (img_file : string),
      lowers_ascii h ->
      Py.endswith_any (str_lower h img_file) image_extensions = true ->
      fst (Py.splitext img_file) <> "").
Proof.
  assert (Hparts : forall p : string,
      fst (Py.splitext p) ++ snd (Py.splitext p) = p /\
      ((snd (Py.splitext p) = "" /\ fst (Py.splitext p) = p) \/
       (exists t, snd (Py.splitext p) = String "." t /\
                  Py.contains t "." = false /\
                  fst (Py.splitext p) <> ""))).
  { intros p. unfold Py.splitext.
    destruct (_ && _) eqn:E; cbn [fst snd].
    2: { split; [apply string_app_nil_r|by left]. }
    split; [apply take_drop|]. right.
    apply andb_true_iff in E as [Hlt Hex]. apply Z.ltb_lt in Hlt.
    apply existsb_exists in Hex as (k & Hk & _). apply in_seq in Hk.
    assert (Hsep : -1 <= Py.rfind "/" p).
    { destruct (rfind_spec "/" p) as [[Hs _] | (? & ? & _ & _ & Hs)]; lia. }
    destruct (rfind_spec "." p) as [[Hr _] | (pre & t & Hp & Hno & Hr)]; [lia|].
    rewrite Hr in *. rewrite Nat2Z.id.
    assert (Hpre : pre <> "") by (intros ->; cbn in *; lia).
    subst p. exists t. by rewrite drop_app_length, take_app_length. }
  split; [exact Hparts|].
  intros h f [Hl _] Hext Hroot.
  destruct (Hparts f) as [_ [[_ Hf] | (t & _ & _ & Hne)]]; [|done].
  rewrite Hroot in Hf. subst f. rewrite (Hl "" eq_refl) in Hext.
  by vm_compute in Hext.
Qed.

Lemma splitext_parts_witness : fst (Py.splitext "Bricks_Color.PNG") <> "".
Proof.
  apply (proj2 splitext_parts bricks_host "Bricks_Color.PNG").
  - by apply ascii_lower_lowers_ascii.
  - reflexivity.
Defined.

Lemma drop_app_plus (k : nat) (s t : string) :
  Py.drop (String.length s + k) (s ++ t) = Py.drop k t.
Proof. induction s as [|c s IH]; [done|]. by rewrite append_cons. Qed.

Lemma endswith_app_usdc (pre suffix : string) :
  suffix ∈ image_extensions -> Py.endswith (pre ++ ".usdc") suffix = false.
Proof.
  intros Hin. unfold Py.endswith. rewrite string_length_app.
  apply andb_false_iff. right. apply String.eqb_neq.
  unfold image_extensions in Hin. set_unfold.
  destruct Hin as [-> | [-> | [-> | [-> | [-> | [-> | []]]]]]]; cbn [String.length];
    [replace (String.length pre + 5 - 4)%nat with (String.length pre + 1)%nat by lia
    |replace (String.length pre + 5 - 4)%nat with (String.length pre + 1)%nat by lia
    |replace (String.length pre + 5 - 5)%nat with (String.length pre + 0)%nat by lia
    |replace (String.length pre + 5 - 4)%nat with (String.length pre + 1)%nat by lia
    |replace (String.length pre + 5 - 4)%nat with (String.length pre + 1)%nat by lia
    |replace (String.length pre + 5 - 5)%nat with (String.length pre + 0)%nat by lia];
    by rewrite drop_app_plus.
Qed.

(** X2.  The scene-description file is never taken for an image: a name
    that ends in ".usdc" has none of the image extensions, whatever its
    case elsewhere, so step 8 never loads it and never gives it a texture
    node; and an image file is never the file step 2 picks. *)
Theorem usdc_file_is_no_image :
  (forall (h : Host) (f : string),
      lowers_ascii h ->
      Py.endswith f ".usdc" = true ->
      Py.endswith_any (str_lower h f) image_extensions = false /\
      forall existing_images, gets_texture_node h existing_images f = false) /\
  (forall (h : Host) (f : string),
      lowers_ascii h ->
      Py.endswith_any (str_lower h f) image_extensions = true ->
      Py.endswith f ".usdc" = false).
Proof.
  assert (H : forall h f, lowers_ascii h -> Py.endswith f ".usdc" = true ->
                Py.endswith_any (str_lower h f) image_extensions = false).
  { intros h f [_ Hl] [pre ->]%endswith_spec.
    destruct (Hl pre ".usdc" eq_refl) as [pre' ->].
    change (Py.ascii_lower ".usdc") with ".usdc".
    unfold Py.endswith_any.
    destruct (existsb _ _) eqn:E; [|done].
    apply existsb_exists in E as (suffix & Hin & Hends).
    rewrite endswith_app_usdc in Hends; [done|by apply list_elem_of_In]. }
  split.
  - intros h f Hl Hf. split; [by apply H|].
    intros X. unfold gets_texture_node. by rewrite H.
  - intros h f Hl Himg. destruct (Py.endswith f ".usdc") eqn:E; [|done].
    by rewrite H in Himg.
Qed.

Lemma usdc_file_is_no_image_witness :
  Py.endswith_any (str_lower bricks_host "Bricks.PNG.usdc") image_extensions = false.
Proof.
  apply (proj1 usdc_file_is_no_image bricks_host "Bricks.PNG.usdc").
  - by apply ascii_lower_lowers_ascii.
  - reflexivity.
Defined.


(** X3.  The test of step 8 compares lowercased names, in both
    directions: a file whose name without extension has the same
    lowercased form as a referenced image name is always skipped, so for
    ASCII names one that equals a referenced image name up to the case of
    its letters; for two names it does not matter which is the file and
    which the image.  More referenced images can only skip more files. *)
Theorem dedup_ignores_case_and_direction :
  (forall (h : Host) (img_name ex : string) (existing_images : gset string),
      ex ∈ existing_images -> str_lower h ex = str_lower h img_name ->
      is_duplicate h img_name existing_images = true) /\
  (forall (h : Host) (img_name ex : string) (existing_images : gset string),
      lowers_ascii h ->
      Py.is_ascii img_name = true -> Py.is_ascii ex = true ->
      ex ∈ existing_images -> Py.ascii_lower ex = Py.ascii_lower img_name ->
      is_duplicate h img_name existing_images = true) /\
  (forall (h : Host) (a b : string),
      is_duplicate h a {[b]} = is_duplicate h b {[a]}) /\
  (forall (h : Host) (img_name : string) (X Y : gset string),
      X ⊆ Y -> is_duplicate h img_name X = true -> is_duplicate h img_name Y = true).
Proof.
  split; [|split; [|split]].
  - intros h n ex X Hin Heq. apply (is_duplicate_intro h n ex); [done|].
    by apply name_matches_same.
  - intros h n ex X [Hl _] Hn Hex Hin Heq. apply (is_duplicate_intro h n ex); [done|].
    apply name_matches_same. by rewrite (Hl _ Hn), (Hl _ Hex).
  - intros h a b. unfold is_duplicate. rewrite !elements_singleton. cbn.
    by rewrite name_matches_sym.
  - intros h n X Y Hsub (ex & Hin & Hm)%is_duplicate_elim.
    apply (is_duplicate_intro h n ex); [by apply Hsub|done].
Qed.

Lemma dedup_ignores_case_and_direction_witness :
  is_duplicate bricks_host "BRICKS_color" {["Bricks_Color"; "Wood"]} = true.
Proof.
  apply (proj1 (proj2 dedup_ignores_case_and_direction)
           bricks_host "BRICKS_color" "Bricks_Color").
  - by apply ascii_lower_lowers_ascii.
  - reflexivity.
  - reflexivity.
  - set_solver.
  - reflexivity.
Defined.

(** X4.  Two edge cases of the test.  A material whose texture nodes
    reference no image skips nothing: every file with an image extension
    gets a texture node, in listing order.  A referenced image with the
    empty name skips everything, the empty string being contained in every
    name: no file gets a texture node. *)
Theorem dedup_edge_cases (h : Host) (new_mat temp_dir : nat) (w : World)
    (m : Material) (nodes : list Node) (files : list string) :
  materials (scene w) !! new_mat = Some m ->
  node_tree m = Some nodes ->
  Forall (fun f => Py.endswith_any (str_lower h f) image_extensions = true ->
                   is_Some (loaded_image h temp_dir f)) files ->
  (existing_images_of nodes = ∅ ->
   exists w',
     add_texture_nodes h new_mat temp_dir (existing_images_of nodes) files [] w
       = (Normal (seq (length nodes)
                    (length (List.filter
                               (fun f => Py.endswith_any (str_lower h f) image_extensions)
                               files))), w') /\
     material_nodes w' new_mat
       = Some (nodes ++
               map (texture_node_for h temp_dir)
                 (List.filter (fun f => Py.endswith_any (str_lower h f) image_extensions)
                              files))%list) /\
  (lowers_ascii h -> "" ∈ existing_images_of nodes ->
   add_texture_nodes h new_mat temp_dir (existing_images_of nodes) files [] w
     = (Normal [], w)).
Proof.
  intros Hm Hn Hload. split.
  - intros Hempty. rewrite Hempty.
    assert (Hf : forall f, gets_texture_node h ∅ f
                           = Py.endswith_any (str_lower h f) image_extensions).
    { intros f. unfold gets_texture_node, is_duplicate.
      rewrite elements_empty. cbn. apply andb_true_r. }
    assert (Hfil : List.filter (gets_texture_node h ∅) files
                   = List.filter (fun f => Py.endswith_any (str_lower h f) image_extensions)
                                 files) by (by apply List.filter_ext).
    rewrite <- Hfil. eexists. split.
    + apply (add_texture_nodes_run h new_mat temp_dir ∅ files [] w m nodes Hm Hn).
      eapply Forall_impl; [exact Hload|]. intros f Hl. by rewrite Hf.
    + by apply material_nodes_with_textures.
  - intros [Hl _] Hin.
    assert (Hf : forall f, gets_texture_node h (existing_images_of nodes) f = false).
    { intros f. unfold gets_texture_node.
      rewrite (is_duplicate_intro h _ "" _ Hin); [apply andb_false_r|].
      unfold name_matches. rewrite (Hl "" eq_refl). change (Py.ascii_lower "") with "".
      by rewrite contains_empty, orb_true_r. }
    rewrite (add_texture_nodes_run h new_mat temp_dir _ files [] w m nodes Hm Hn).
    + rewrite (filter_none _ _ (fun f _ => Hf f)). cbn.
      unfold with_textures. rewrite !app_nil_r.
      rewrite (set_node_tree_id _ _ Hn), (list_insert_id _ _ _ Hm).
      by destruct w as [[] ? ?].
    + apply Forall_forall. intros f _. by rewrite Hf.
Qed.

Lemma dedup_edge_cases_witness :
  exists w',
    add_texture_nodes bricks_host 0 1 (existing_images_of (default [] (material_nodes plain_world 0)))
      ["Plain.usdc"; "a.png"; "notes.txt"; "B.JPG"] [] plain_world
    = (Normal [1%nat; 2%nat], w') /\
    (map node_label <$> material_nodes w' 0) = Some [""; "a.png"; "B.JPG"].
Proof.
  destruct (proj1 (dedup_edge_cases bricks_host 0 1 plain_world (plain_material "Plain")
                     (default [] (material_nodes plain_world 0))
                     ["Plain.usdc"; "a.png"; "notes.txt"; "B.JPG"]
                     eq_refl eq_refl
                     ltac:(repeat (apply Forall_cons; split; [intros _; by eexists|]);
                           apply Forall_nil_2))
              ltac:(by vm_compute))
    as (w' & Hrun & Hnodes).
  exists w'. split; [exact Hrun|]. rewrite Hnodes. reflexivity.
Defined.

(** ** More on the grid *)

Lemma grid_position_inj (gx gy i j : Z) :
  0 <= i -> 0 <= j -> grid_position gx gy i = grid_position gx gy j -> i = j.
Proof.
  unfold grid_position. intros Hi Hj [= Hx Hy].
  pose proof (Z.div_mod i 3 ltac:(lia)) as Di.
  pose proof (Z.div_mod j 3 ltac:(lia)) as Dj.
  generalize dependent (i / 3). generalize dependent (j / 3).
  generalize dependent (i mod 3). generalize dependent (j mod 3).
  intros. lia.
Qed.

(** The nodes steps 5 to 9 leave: the old ones, then one per kept file at
    its grid position. *)
Lemma add_textures_nodes (h : Host) (new_mat temp_dir : nat) (w : World)
    (m : Material) (nodes : list Node) (files : list string) :
  materials (scene w) !! new_mat = Some m ->
  node_tree m = Some nodes ->
  tmpfs w !! temp_dir = Some files ->
  Forall (fun f => gets_texture_node h (existing_images_of nodes) f = true ->
                   is_Some (loaded_image h temp_dir f)) files ->
  let kept := List.filter (gets_texture_node h (existing_images_of nodes)) files in
  let origin := grid_start (find_output_node nodes) in
  exists w' nodes',
    add_textures h temp_dir new_mat w = (Normal tt, w') /\
    material_nodes w' new_mat = Some nodes' /\
    length nodes' = (length nodes + length kept)%nat /\
    (forall (i : nat) (f : string), kept !! i = Some f ->
       nodes' !! (length nodes + i)%nat =
       Some (mkNode "TEX_IMAGE" (loaded_image h temp_dir f) (stored_label h f)
               (grid_position (fst origin) (snd origin) (Z.of_nat i)) "")) /\
    (forall p, (p < length nodes)%nat -> nodes' !! p = nodes !! p).
Proof.
  intros Hm Hn Hd Hload kept origin.
  eexists _, _.
  split; [by apply (add_textures_run h new_mat temp_dir w m nodes files)|].
  fold kept. fold origin.
  split.
  { unfold material_nodes. erewrite with_material_lookup; [reflexivity|].
    unfold with_textures. cbn. apply list_lookup_insert_eq. by eapply lookup_lt_Some. }
  split; [by rewrite placed_length, length_app, length_map|].
  split.
  - intros i f Hi.
    assert (Hlt : (i < length kept)%nat) by (by eapply lookup_lt_Some).
    erewrite (placed_lookup _ _ _ 0 _ i (length nodes + i)%nat);
      [|apply NoDup_seq|by apply lookup_seq_lt|].
    2: { rewrite lookup_app_r by lia.
         replace (length nodes + i - length nodes)%nat with i by lia.
         by rewrite list_lookup_fmap, Hi. }
    reflexivity.
  - intros p Hp. rewrite placed_lookup_other.
    + by apply lookup_app_l.
    + intros [? ?]%elem_of_seq. lia.
Qed.

(** X5.  The new texture nodes never overlap and never cover the output
    node: after steps 5 to 9 two different new nodes have different
    locations, every new node lies in one of the three columns at or right
    of the grid origin and at or below it, and when the material has an
    output node every new node is at least 400 units to its right. *)
Theorem texture_nodes_do_not_overlap (h : Host) (new_mat temp_dir : nat) (w : World)
    (m : Material) (nodes : list Node) (files : list string) :
  materials (scene w) !! new_mat = Some m ->
  node_tree m = Some nodes ->
  tmpfs w !! temp_dir = Some files ->
  Forall (fun f => gets_texture_node h (existing_images_of nodes) f = true ->
                   is_Some (loaded_image h temp_dir f)) files ->
  exists w' nodes',
    add_textures h temp_dir new_mat w = (Normal tt, w') /\
    material_nodes w' new_mat = Some nodes' /\
    (forall (p q : nat) (np nq : Node),
       (length nodes <= p)%nat -> (length nodes <= q)%nat -> p <> q ->
       nodes' !! p = Some np -> nodes' !! q = Some nq ->
       node_location np <> node_location nq) /\
    (forall (p : nat) (np : Node),
       (length nodes <= p)%nat -> nodes' !! p = Some np ->
       let origin := grid_start (find_output_node nodes) in
       (fst (node_location np) = fst origin \/
        fst (node_location np) = fst origin + 300 \/
        fst (node_location np) = fst origin + 600) /\
       snd (node_location np) <= snd origin /\
       (forall output_node, find_output_node nodes = Some output_node ->
          fst (node_location output_node) + 400 <= fst (node_location np))).
Proof.
  intros Hm Hn Hd Hload.
  destruct (add_textures_nodes h new_mat temp_dir w m nodes files Hm Hn Hd Hload)
    as (w' & nodes' & Hrun & Hnodes & Hlen & Hnew & _).
  set (kept := List.filter (gets_texture_node h (existing_images_of nodes)) files) in *.
  set (origin := grid_start (find_output_node nodes)) in *.
  assert (Hat : forall p np, (length nodes <= p)%nat -> nodes' !! p = Some np ->
                  node_location np
                  = grid_position (fst origin) (snd origin)
                      (Z.of_nat (p - length nodes))).
  { intros p np Hp Hnp.
    assert (p < length nodes')%nat as Hlt by (by eapply lookup_lt_Some).
    destruct (lookup_lt_is_Some_2 kept (p - length nodes)) as [f Hf]; [lia|].
    pose proof (Hnew _ _ Hf) as Hloc.
    replace (length nodes + (p - length nodes))%nat with p in Hloc by lia.
    rewrite Hnp in Hloc. by injection Hloc as ->. }
  exists w', nodes'. split; [done|]. split; [done|]. split.
  - intros p q np nq Hp Hq Hpq Hnp Hnq Heq.
    rewrite (Hat p np Hp Hnp), (Hat q nq Hq Hnq) in Heq.
    apply grid_position_inj in Heq; lia.
  - intros p np Hp Hnp. cbv zeta. fold origin.
    rewrite (Hat p np Hp Hnp). unfold grid_position. cbn [fst snd].
    split; [|split].
    + assert (Hmod : 0 <= Z.of_nat (p - length nodes) mod 3 < 3)
        by (apply Z.mod_pos_bound; lia).
      lia.
    + assert (0 <= Z.of_nat (p - length nodes) / 3) by (apply Z.div_pos; lia).
      lia.
    + intros out Hout. subst origin. rewrite Hout. cbn.
      assert (Hmod : 0 <= Z.of_nat (p - length nodes) mod 3 < 3)
        by (apply Z.mod_pos_bound; lia).
      lia.
Qed.

Lemma texture_nodes_do_not_overlap_witness :
  exists w' nodes',
    add_textures bricks_host 1 0 plain_world = (Normal tt, w') /\
    material_nodes w' 0 = Some nodes' /\
    (node_location <$> nodes') = [(0, 0); (400, 0); (700, 0)].
Proof.
  destruct (texture_nodes_do_not_overlap bricks_host 0 1 plain_world
              (plain_material "Plain") (default [] (material_nodes plain_world 0))
              ["Plain.usdc"; "a.png"; "notes.txt"; "B.JPG"]
              eq_refl eq_refl eq_refl
              ltac:(repeat (apply Forall_cons; split; [intros _; by eexists|]);
                    apply Forall_nil_2))
    as (w' & nodes' & Hrun & Hnodes & _).
  exists w', nodes'. split; [exact Hrun|]. split; [exact Hnodes|].
  assert (Some nodes' = material_nodes (snd (add_textures bricks_host 1 0 plain_world)) 0)
    as Heq by (by rewrite Hrun).
  vm_compute in Heq. by injection Heq as ->.
Defined.

(** ** The material that is processed *)

Lemma materials_getitem_app (name : string) (pre l : list Material) :
  forall i,
    (forall x, x ∈ pre -> mat_name x <> name) ->
    materials_getitem name i (pre ++ l) = materials_getitem name (i + length pre) l.
Proof.
  induction pre as [|y pre IH]; intros i Hpre.
  - cbn. by rewrite Nat.add_0_r.
  - cbn. destruct (String.eqb (mat_name y) name) eqn:E.
    + apply String.eqb_eq in E. destruct (Hpre y); [apply list_elem_of_here|done].
    + rewrite IH.
      * f_equal. lia.
      * intros x Hx. apply Hpre. by apply list_elem_of_further.
Qed.

(** A material list is all old names, or splits at its first new name. *)
Lemma first_new_split (existing_mats : gset string) (l : list Material) :
  (forall m, m ∈ l -> mat_name m ∈ existing_mats) \/
  (exists pre m post,
     l = (pre ++ m :: post)%list /\
     (forall x, x ∈ pre -> mat_name x ∈ existing_mats) /\
     mat_name m ∉ existing_mats).
Proof.
  induction l as [|y l IH].
  - left. intros m Hm. by apply elem_of_nil in Hm.
  - destruct (decide (mat_name y ∈ existing_mats)) as [Hy | Hy].
    + destruct IH as [Hall | (pre & m & post & -> & Hpre & Hm)].
      * left. intros m Hm. apply elem_of_cons in Hm as [-> | Hm]; [done|by apply Hall].
      * right. exists (y :: pre), m, post. split; [done|]. split; [|done].
        intros x Hx. apply elem_of_cons in Hx as [-> | Hx]; [done|by apply Hpre].
    + right. exists [], y, l. split; [done|]. split; [|done].
      intros x Hx. by apply elem_of_nil in Hx.
Qed.

Lemma filter_new_names_app (existing_mats : gset string) (pre l : list Material) :
  (forall x, x ∈ pre -> mat_name x ∈ existing_mats) ->
  List.filter (fun name => bool_decide (name ∉ existing_mats))
              (map mat_name (pre ++ l))
  = List.filter (fun name => bool_decide (name ∉ existing_mats)) (map mat_name l).
Proof.
  intros Hpre. rewrite map_app, List.filter_app, filter_none; [done|].
  intros name (x & -> & Hx)%list_elem_of_fmap.
  apply bool_decide_eq_false. intros Hno. by apply Hno, Hpre.
Qed.

(** X6.  The material an archive is processed for is the first material,
    in the order of the host's collection, whose name was not there before
    the import; there is none exactly when every name was there before. *)
Theorem first_new_material_is_selected (existing_mats : gset string) (s : Scene) :
  (new_materials existing_mats s = [] <->
   forall m, m ∈ materials s -> mat_name m ∈ existing_mats) /\
  (forall new_mat rest,
      new_materials existing_mats s = new_mat :: rest ->
      exists m,
        materials s !! new_mat = Some m /\
        (mat_name m ∉ existing_mats) /\
        forall j mj, (j < new_mat)%nat -> materials s !! j = Some mj ->
                     mat_name mj ∈ existing_mats).
Proof.
  unfold new_materials.
  destruct (first_new_split existing_mats (materials s))
    as [Hall | (pre & m & post & Hl & Hpre & Hm)].
  - assert (Hnil : List.filter (fun name => bool_decide (name ∉ existing_mats))
                               (map mat_name (materials s)) = []).
    { apply filter_none. intros name (x & -> & Hx)%list_elem_of_fmap.
      apply bool_decide_eq_false. intros Hno. by apply Hno, Hall. }
    rewrite Hnil. cbn. split; [done|]. intros; discriminate.
  - rewrite Hl. rewrite filter_new_names_app by done.
    cbn [map List.filter]. rewrite bool_decide_eq_true_2 by done.
    cbn [omap list_omap].
    rewrite materials_getitem_app.
    2: { intros x Hx Heq. apply Hm. rewrite <- Heq. by apply Hpre. }
    cbn [materials_getitem]. rewrite String.eqb_refl. cbn.
    split.
    + split; [discriminate|]. intros Hall. destruct Hm. apply Hall.
      apply elem_of_app. right. apply list_elem_of_here.
    + intros nm rest [= <- _]. exists m. split; [|split].
      * by apply list_lookup_middle.
      * done.
      * intros j mj Hj Hlook. apply Hpre.
        rewrite lookup_app_l in Hlook by done.
        by eapply list_elem_of_lookup_2.
Qed.

Lemma first_new_material_is_selected_witness :
  exists m,
    [sample_material "Old" "a" (0, 0); sample_material "New" "b" (0, 0);
     sample_material "Newer" "c" (0, 0)] !! 1%nat = Some m /\
    mat_name m ∉ ({["Old"]} : gset string).
Proof.
  destruct (proj2 (first_new_material_is_selected {["Old"]}
                     (set_materials [sample_material "Old" "a" (0, 0);
                                     sample_material "New" "b" (0, 0);
                                     sample_material "Newer" "c" (0, 0)] empty_scene))
              1%nat [2%nat] ltac:(by vm_compute))
    as (m & Hm & Hnew & _).
  by exists m.
Defined.


Lemma touches_only_refl (new_mat : nat) (w : World) : touches_only new_mat w w.
Proof.
  repeat split; try done; exists []; by rewrite app_nil_r.
Qed.

Lemma touches_only_trans (new_mat : nat) (w1 w2 w3 : World) :
  touches_only new_mat w1 w2 -> touches_only new_mat w2 w3 ->
  touches_only new_mat w1 w3.
Proof.
  intros (Hm1 & Hl1 & [i1 Hi1] & [o1 Ho1] & Hp1 & Hf1 & Hr1)
         (Hm2 & Hl2 & [i2 Hi2] & [o2 Ho2] & Hp2 & Hf2 & Hr2).
  split; [intros j Hj; by rewrite Hm2, Hm1|].
  split; [congruence|].
  split; [exists (i1 ++ i2)%list; by rewrite Hi2, Hi1, app_assoc|].
  split; [exists (o1 ++ o2)%list; by rewrite Ho2, Ho1, app_assoc|].
  split; [by etransitivity|].
  split; congruence.
Qed.

Lemma works_on_bind {A B} (new_mat : nat) (m : M A) (k : A -> M B) :
  works_on new_mat m -> (forall a, works_on new_mat (k a)) ->
  works_on new_mat (bind m k).
Proof.
  intros Hm Hk w. unfold bind. specialize (Hm w).
  destruct (m w) as [[a| |e] w1]; cbn in *; try done.
  eapply touches_only_trans; [exact Hm|apply Hk].
Qed.

(** A computation that does not change the world. *)
Lemma works_on_reader {A} (new_mat : nat) (m : M A) :
  (forall w, snd (m w) = w) -> works_on new_mat m.
Proof. intros Hm w. rewrite Hm. apply touches_only_refl. Qed.

Lemma works_on_ret {A} (new_mat : nat) (a : A) : works_on new_mat (ret a).
Proof. by apply works_on_reader. Qed.

Lemma works_on_raise {A} (new_mat : nat) (e : string) : works_on new_mat (@raise A e).
Proof. by apply works_on_reader. Qed.

Lemma works_on_get_scene (new_mat : nat) : works_on new_mat get_scene.
Proof. by apply works_on_reader. Qed.

Lemma works_on_lift_exc {A} (new_mat : nat) (r : exc A) : works_on new_mat (lift_exc r).
Proof. apply works_on_reader. intros w. by destruct r. Qed.

Lemma works_on_get_material (new_mat i : nat) : works_on new_mat (get_material i).
Proof.
  apply works_on_reader. intros w. unfold get_material.
  by destruct (materials (scene w) !! i).
Qed.

Lemma works_on_get_object (new_mat obj : nat) : works_on new_mat (get_object obj).
Proof.
  apply works_on_reader. intros w. unfold get_object.
  by destruct (objects (scene w) !! obj).
Qed.

Lemma works_on_listdir (new_mat d : nat) : works_on new_mat (listdir d).
Proof.
  apply works_on_reader. intros w. unfold listdir. by destruct (tmpfs w !! d).
Qed.

Lemma works_on_modify_material (new_mat : nat) (f : Material -> Material) :
  works_on new_mat (modify_material new_mat f).
Proof.
  intros w. unfold modify_material, modify_scene. cbn.
  split; [intros j Hj; by apply list_lookup_alter_ne|].
  split; [apply length_alter|].
  split; [exists []; by rewrite app_nil_r|].
  split; [exists []; by rewrite app_nil_r|done].
Qed.

Lemma works_on_modify_nodes (new_mat : nat) (f : list Node -> list Node) :
  works_on new_mat (modify_nodes new_mat f).
Proof. apply works_on_modify_material. Qed.

Lemma works_on_modify_node (new_mat tex_node : nat) (f : Node -> Node) :
  works_on new_mat (modify_node new_mat tex_node f).
Proof. apply works_on_modify_material. Qed.

Create HintDb works_on.

#[local] Hint Resolve works_on_ret works_on_raise works_on_get_scene works_on_lift_exc
  works_on_get_material works_on_get_object works_on_listdir works_on_modify_material
  works_on_modify_nodes works_on_modify_node : works_on.

Ltac works_on_step :=
  first [ solve [auto with works_on]
        | apply works_on_bind; [|intros ?] ].

Lemma works_on_get_nodes (new_mat i : nat) : works_on new_mat (get_nodes i).
Proof.
  unfold get_nodes. apply works_on_bind; [works_on_step|]. intros m.
  destruct (node_tree m); works_on_step.
Qed.

Lemma works_on_get_active_object (new_mat : nat) : works_on new_mat get_active_object.
Proof.
  unfold get_active_object. apply works_on_bind; [works_on_step|]. intros s.
  destruct (active_object s); works_on_step.
Qed.

Lemma works_on_data_images_load (h : Host) (new_mat : nat) (img_path : string) :
  works_on new_mat (data_images_load h img_path).
Proof.
  unfold data_images_load. apply works_on_bind; [works_on_step|]. intros img.
  apply works_on_bind; [|works_on_step].
  intros w. unfold modify_scene. cbn.
  repeat split; try done; [by exists [img]|exists []; by rewrite app_nil_r].
Qed.

(** A call of [Op] whose effect is within [touches_only]. *)
Lemma works_on_call_op (h : Host) (new_mat : nat) (op : Op) (effect : Scene -> Scene) :
  (forall w, touches_only new_mat w (set_scene (effect (scene w)) w)) ->
  works_on new_mat (call_op h op effect).
Proof.
  intros Heff. unfold call_op. apply works_on_bind; [works_on_step|]. intros s w.
  destruct (op_error h op s); [apply touches_only_refl|apply Heff].
Qed.

#[local] Hint Resolve works_on_get_nodes works_on_get_active_object
  works_on_data_images_load : works_on.

Lemma works_on_nodes_new_tex_image (new_mat : nat) :
  works_on new_mat (nodes_new_tex_image new_mat).
Proof. unfold nodes_new_tex_image. repeat works_on_step. Qed.

#[local] Hint Resolve works_on_nodes_new_tex_image : works_on.

Lemma works_on_add_texture_nodes (h : Host) (new_mat temp_dir : nat)
    (existing_images : gset string) (files : list string) :
  forall texture_nodes,
    works_on new_mat
      (add_texture_nodes h new_mat temp_dir existing_images files texture_nodes).
Proof.
  induction files as [|f files IH]; intros acc; cbn [add_texture_nodes].
  - works_on_step.
  - destruct (Py.endswith_any _ _); [|apply IH].
    destruct (is_duplicate _ _ _); [apply IH|].
    repeat works_on_step.
Qed.

Lemma works_on_position_texture_nodes (new_mat : nat) (gx gy : Z)
    (texture_nodes : list nat) :
  forall i, works_on new_mat (position_texture_nodes new_mat gx gy i texture_nodes).
Proof.
  induction texture_nodes as [|p rest IH]; intros i; cbn [position_texture_nodes].
  - works_on_step.
  - repeat works_on_step.
Qed.

#[local] Hint Resolve works_on_add_texture_nodes works_on_position_texture_nodes
  : works_on.

Lemma works_on_add_textures (h : Host) (temp_dir new_mat : nat) :
  works_on new_mat (add_textures h temp_dir new_mat).
Proof.
  unfold add_textures. apply works_on_bind; [works_on_step|]. intros nodes.
  destruct (grid_start _). repeat works_on_step.
Qed.

Lemma touches_only_new_object (new_mat : nat) (w1 w2 : World) (x : Object) :
  materials (scene w2) = materials (scene w1) ->
  images (scene w2) = images (scene w1) ->
  objects (scene w2) = (objects (scene w1) ++ [x])%list ->
  packed_images (scene w2) = packed_images (scene w1) ->
  tmpfs w2 = tmpfs w1 ->
  reports w2 = reports w1 ->
  touches_only new_mat w1 w2.
Proof.
  intros Hm Hi Ho Hp Hf Hr. unfold touches_only. rewrite Hm, Hi, Ho, Hp.
  repeat split; try done; [exists []; by rewrite app_nil_r|by exists [x]].
Qed.

Lemma works_on_create_preview_object (h : Host) (new_mat : nat) :
  works_on new_mat (create_preview_object h new_mat).
Proof.
  intros w.
  pose proof (works_on_modify_material new_mat (set_displacement_method "BOTH") w) as H1.
  unfold create_preview_object, bind.
  destruct (modify_material new_mat (set_displacement_method "BOTH") w)
    as [[[]| |e] w1] eqn:E1; cbn [snd] in H1; try done.
  eapply touches_only_trans; [exact H1|]. clear E1 H1 w.
  unfold call_op at 1. unfold bind, get_scene.
  destruct (op_error h OpSphereAdd (scene w1)); [apply touches_only_refl|].
  unfold modify_scene at 1. unfold get_active_object, bind, get_scene.
  cbn [scene set_scene active_object set_active_object ret].
  unfold get_material. cbn [scene materials set_scene set_active_object set_objects].
  destruct (materials (scene w1) !! new_mat) as [m|];
    [|by eapply touches_only_new_object].
  unfold set_object_name at 1. unfold bind, get_scene.
  unfold modify_object at 1. unfold modify_scene.
  cbn [scene objects set_objects set_active_object set_scene].
  rewrite (alter_snoc _ (objects (scene w1))).
  unfold call_op, bind, get_scene.
  destruct (op_error h OpShadeAutoSmooth _);
    [by eapply touches_only_new_object|].
  unfold modify_scene at 1.
  cbn [scene objects set_objects set_active_object set_scene active_object].
  unfold get_object. cbn [scene objects set_scene set_objects set_active_object].
  rewrite list_lookup_middle by done.
  cbn [obj_materials set_obj_name new_uv_sphere app].
  unfold modify_object, modify_scene.
  cbn [scene objects set_objects set_active_object set_scene snd].
  rewrite (alter_snoc _ (objects (scene w1))).
  by eapply touches_only_new_object.
Qed.

Lemma works_on_modify_asset_data (new_mat : nat) (f : AssetData -> AssetData) :
  works_on new_mat (modify_asset_data new_mat f).
Proof.
  unfold modify_asset_data. apply works_on_bind; [works_on_step|]. intros m.
  destruct (asset_data m); works_on_step.
Qed.

Lemma works_on_set_material_name (h : Host) (new_mat : nat) (name : string) :
  works_on new_mat (set_material_name h new_mat name).
Proof. unfold set_material_name. repeat works_on_step. Qed.

#[local] Hint Resolve works_on_modify_asset_data works_on_set_material_name : works_on.

Lemma works_on_tag_asset (h : Host) (new_mat : nat) :
  works_on new_mat (tag_asset h new_mat).
Proof.
  unfold tag_asset. repeat works_on_step.
  destruct (Py.startswith _ _); repeat works_on_step.
Qed.

Lemma works_on_normalize_uvmap (new_mat : nat) : works_on new_mat (normalize_uvmap new_mat).
Proof. unfold normalize_uvmap. repeat works_on_step. Qed.

Lemma works_on_build_material (h : Host) (temp_dir new_mat : nat) :
  works_on new_mat (build_material h temp_dir new_mat).
Proof.
  unfold build_material, finish_material.
  apply works_on_bind; [apply works_on_add_textures|]. intros _.
  apply works_on_bind; [apply works_on_create_preview_object|]. intros _.
  apply works_on_bind; [apply works_on_tag_asset|]. intros _.
  apply works_on_bind; [apply works_on_normalize_uvmap|]. intros _.
  apply works_on_bind; [|intros _]; apply works_on_call_op; intros w.
  - repeat split; try done; exists []; by rewrite app_nil_r.
  - repeat split; try done;
      [exists []; by rewrite app_nil_r|exists []; by rewrite app_nil_r|].
    cbn. apply union_subseteq_l.
Qed.


(** X7.  Steps 5 to 15 work on the selected material only, on every path,
    also when they end in an exception: every other material is what it
    was, no material is added or removed, the images and the objects that
    existed are still there with their names, files and slots (new ones
    come after them), and the temporary directories and the reports are
    not touched.  The one thing that changes for older images is that
    they may become packed, step 15 packing every image of the scene: the
    set of packed images only grows.  So after an archive every material
    but the first new one is as the host import left it. *)
Theorem only_the_selected_material_is_touched :
  (forall (h : Host) (temp_dir new_mat : nat) (w : World),
      let w' := snd (build_material h temp_dir new_mat w) in
      (forall j, j <> new_mat ->
         materials (scene w') !! j = materials (scene w) !! j) /\
      length (materials (scene w')) = length (materials (scene w)) /\
      (exists imgs, images (scene w') = (images (scene w) ++ imgs)%list) /\
      (exists objs, objects (scene w') = (objects (scene w) ++ objs)%list) /\
      packed_images (scene w) ⊆ packed_images (scene w') /\
      tmpfs w' = tmpfs w /\
      reports w' = reports w) /\
  (forall (h : Host) (zip_path : string) (temp_dir : nat) (usdc_file : string)
          (w : World) (s' : Scene) (new_mat : nat) (rest : list nat),
      usd_import h (Py.path_join (temp_path temp_dir) usdc_file) (scene w) = Ok s' ->
      new_materials (list_to_set (map mat_name (materials (scene w)))) s'
        = new_mat :: rest ->
      let w' := snd (import_usdc h zip_path temp_dir usdc_file w) in
      (forall j, j <> new_mat -> materials (scene w') !! j = materials s' !! j) /\
      (exists imgs, images (scene w') = (images s' ++ imgs)%list) /\
      (exists objs, objects (scene w') = (objects s' ++ objs)%list) /\
      packed_images s' ⊆ packed_images (scene w')) /\
  (let w := mkWorld (set_images [mkImage "Old" "//old.png"] empty_scene) ∅ [] in
   let w' := snd (process_archive bricks_host "/in/Bricks.zip" w) in
   packed_images (scene w) = ∅ /\
   images (scene w')
   = [mkImage "Old" "//old.png";
      mkImage "Bricks_Normal.jpg" "/tmp/tmp1/Bricks_Normal.jpg"] /\
   packed_images (scene w') = {[0%nat; 1%nat]}).
Proof.
  split; [|split].
  - intros h temp_dir new_mat w. apply works_on_build_material.
  - intros h zip_path temp_dir usdc_file w s' new_mat rest Hok Hnew w'. subst w'.
    rewrite (import_usdc_new _ _ _ _ _ _ _ _ Hok Hnew).
    destruct (works_on_build_material h temp_dir new_mat (set_scene s' w))
      as (Hm & _ & Hi & Ho & Hp & _).
    split; [exact Hm|]. split; [exact Hi|]. split; [exact Ho|exact Hp].
  - by vm_compute.
Qed.

Lemma only_the_selected_material_is_touched_witness :
  materials
    (scene (snd (import_usdc two_materials_host "/in/Pair.zip" 1 "Pair.usdc"
                   (mkWorld empty_scene {[1%nat := ["Pair.usdc"]]} []))))
    !! 1%nat
  = Some (sample_material "aCG_B" "B_Color" (0, 0)).
Proof.
  destruct (proj1 (proj2 only_the_selected_material_is_touched) two_materials_host
              "/in/Pair.zip" 1%nat "Pair.usdc"
              (mkWorld empty_scene {[1%nat := ["Pair.usdc"]]} [])
              (set_materials [sample_material "aCG_A" "A_Color" (0, 0);
                              sample_material "aCG_B" "B_Color" (0, 0)] empty_scene)
              0%nat [1%nat] eq_refl ltac:(by vm_compute))
    as (Hm & _).
  rewrite (Hm 1%nat ltac:(lia)). reflexivity.
Defined.

(** ** Failures *)

Lemma try_body_extract_fails (h : Host) (zip_path : string) (d : nat) (w : World)
    (e : string) :
  zip_extractall h zip_path = Err e ->
  try_body h zip_path d w = (Raise e, w).
Proof. intros Hz. unfold try_body, extractall, bind, lift_exc. by rewrite Hz. Qed.

(** X8.  When the archive cannot be extracted (a file that is no archive,
    a missing file) into its temporary directory, nothing of the scene is
    touched: the archive gets its "Importing" message and one error naming
    it and the exception, the temporary directory is removed, and the loop
    goes on. *)
Theorem extraction_failure_leaves_the_scene (h : Host) (zip_path : string)
    (w : World) (e : string) :
  mkdtemp_error h (announced zip_path w) = None ->
  zip_extractall h zip_path = Err e ->
  process_archive h zip_path w =
  (Normal tt,
   mkWorld (scene w) (tmpfs w)
     (reports w ++ [msg_importing zip_path; msg_failed zip_path e])).
Proof.
  intros Hd Hz. rewrite process_archive_end by done.
  rewrite (try_body_extract_fails _ _ _ _ _ Hz).
  unfold try_start, set_tmpfs, add_report. cbn.
  rewrite delete_insert_eq, (delete_id _ _ (fresh_dir_fresh _)), <- app_assoc.
  done.
Qed.

Lemma extraction_failure_leaves_the_scene_witness :
  process_archive bricks_host "/in/notes.txt" bricks_world =
  (Normal tt,
   mkWorld (scene bricks_world) (tmpfs bricks_world)
     (reports bricks_world ++
      [msg_importing "/in/notes.txt";
       msg_failed "/in/notes.txt" "File is not a zip file"])).
Proof.
  exact (extraction_failure_leaves_the_scene bricks_host "/in/notes.txt" bricks_world
           "File is not a zip file" eq_refl eq_refl).
Defined.

Lemma data_images_load_fails (h : Host) (img_path : string) (e : string) (w : World) :
  images_load h img_path = Err e ->
  data_images_load h img_path w = (Raise e, w).
Proof. intros Herr. unfold data_images_load, bind, lift_exc. by rewrite Herr. Qed.

(** The loop of step 8 up to the first file that cannot be loaded. *)
Lemma add_texture_nodes_raise (h : Host) (new_mat temp_dir : nat)
    (existing_images : gset string) (f : string) (post : list string) (e : string)
    (pre : list string) :
  forall (texture_nodes : list nat) (w : World) (m : Material) (nodes : list Node),
    materials (scene w) !! new_mat = Some m ->
    node_tree m = Some nodes ->
    Forall (fun f' => gets_texture_node h existing_images f' = true ->
                      is_Some (loaded_image h temp_dir f')) pre ->
    gets_texture_node h existing_images f = true ->
    images_load h (Py.path_join (temp_path temp_dir) f) = Err e ->
    let kept := List.filter (gets_texture_node h existing_images) pre in
    add_texture_nodes h new_mat temp_dir existing_images (pre ++ f :: post)
      texture_nodes w =
    (Raise e,
     with_textures w new_mat m nodes
       (map (texture_node_for h temp_dir) kept)
       (omap (loaded_image h temp_dir) kept)).
Proof.
  induction pre as [|x pre IH]; intros acc w m nodes Hm Hn Hload Hf Herr kept.
  - subst kept. cbn [app List.filter map omap list_omap].
    rewrite add_texture_nodes_keep by done.
    erewrite bind_raise; [|by apply data_images_load_fails].
    unfold with_textures. rewrite !app_nil_r.
    rewrite (set_node_tree_id _ _ Hn), (list_insert_id _ _ _ Hm).
    by destruct w as [[] ? ?].
  - inversion Hload as [|? ? Hx Hrest]; subst.
    subst kept. cbn [app List.filter].
    destruct (gets_texture_node h existing_images x) eqn:Ekeep.
    2: { rewrite add_texture_nodes_skip by done. by apply IH. }
    rewrite add_texture_nodes_keep by done.
    destruct (Hx eq_refl) as [img Himg].
    assert (Hok : images_load h (Py.path_join (temp_path temp_dir) x) = Ok img)
      by (by apply loaded_image_Some).
    erewrite bind_normal; [|by apply data_images_load_run].
    erewrite new_texture_node_run; [|exact Hm|exact Hn].
    set (n1 := set_node_label (stored_label h x) (set_node_image (Some img) new_tex_image_node)).
    rewrite (IH _ _ (set_node_tree (Some (nodes ++ [n1])%list) m)
               (nodes ++ [n1])%list);
      [|cbn; apply list_lookup_insert_eq; by eapply lookup_lt_Some
       |reflexivity|exact Hrest|exact Hf|exact Herr].
    f_equal. unfold with_textures. cbn. rewrite Himg. cbn.
    rewrite list_insert_insert_eq, <- !app_assoc. cbn.
    unfold texture_node_for at 2. rewrite Himg. by destruct m.
Qed.

(** X9.  A file that cannot be loaded as an image stops the work on the
    material where it stands, without undoing anything: the texture nodes
    of the files listed before it stay in the material, unplaced at
    (0, 0), no node is made for the failing file or the files after it,
    and the material gets no preview object and is not marked as asset.
    The exception is the one of the load. *)
Theorem image_load_failure_keeps_partial_nodes (h : Host) (new_mat temp_dir : nat)
    (w : World) (m : Material) (nodes : list Node)
    (pre : list string) (f : string) (post : list string) (e : string) :
  materials (scene w) !! new_mat = Some m ->
  node_tree m = Some nodes ->
  tmpfs w !! temp_dir = Some (pre ++ f :: post)%list ->
  Forall (fun f' => gets_texture_node h (existing_images_of nodes) f' = true ->
                    is_Some (loaded_image h temp_dir f')) pre ->
  gets_texture_node h (existing_images_of nodes) f = true ->
  images_load h (Py.path_join (temp_path temp_dir) f) = Err e ->
  let kept := List.filter (gets_texture_node h (existing_images_of nodes)) pre in
  exists w',
    build_material h temp_dir new_mat w = (Raise e, w') /\
    materials (scene w') !! new_mat =
      Some (set_node_tree
              (Some (nodes ++ map (texture_node_for h temp_dir) kept)%list) m) /\
    Forall (fun n => node_location n = (0, 0)) (map (texture_node_for h temp_dir) kept) /\
    objects (scene w') = objects (scene w) /\
    active_object (scene w') = active_object (scene w) /\
    packed_images (scene w') = packed_images (scene w).
Proof.
  intros Hm Hn Hd Hload Hf Herr kept.
  eexists. split.
  { unfold build_material. eapply bind_raise. unfold add_textures.
    erewrite bind_normal; [|by apply (get_nodes_ok _ _ m nodes)].
    destruct (grid_start _) as [gx gy].
    erewrite bind_normal; [|by apply (get_nodes_ok _ _ m nodes)].
    erewrite bind_normal; [|by apply listdir_ok].
    eapply bind_raise.
    by apply (add_texture_nodes_raise h new_mat temp_dir _ f post e pre [] w m nodes). }
  fold kept. split.
  { unfold with_textures. cbn. apply list_lookup_insert_eq. by eapply lookup_lt_Some. }
  split; [|done].
  apply Forall_forall. intros n Hin.
  apply list_elem_of_In, in_map_iff in Hin as (x & <- & _). done.
Qed.

Lemma image_load_failure_keeps_partial_nodes_witness :
  exists w',
    build_material broken_image_host 1 0
      (mkWorld (set_materials [plain_material "aCG_Plain"] empty_scene)
               {[1%nat := ["Plain.usdc"; "a.png"; "broken.png"; "c.png"]]} [])
    = (Raise "Error: cannot read image", w') /\
    (map node_label <$> material_nodes w' 0) = Some [""; "a.png"] /\
    objects (scene w') = [] /\
    (asset_data <$> materials (scene w') !! 0%nat) = Some None.
Proof.
  destruct (image_load_failure_keeps_partial_nodes broken_image_host 0 1
              (mkWorld (set_materials [plain_material "aCG_Plain"] empty_scene)
                       {[1%nat := ["Plain.usdc"; "a.png"; "broken.png"; "c.png"]]} [])
              (plain_material "aCG_Plain")
              (default [] (node_tree (plain_material "aCG_Plain")))
              ["Plain.usdc"; "a.png"] "broken.png" ["c.png"]
              "Error: cannot read image"
              eq_refl eq_refl ltac:(by vm_compute)
              ltac:(repeat (apply Forall_cons; split; [intros _; by eexists|]);
                    apply Forall_nil_2)
              ltac:(by vm_compute) ltac:(by vm_compute))
    as (w' & Hrun & Hmat & _ & Hobj & _).
  exists w'. split; [exact Hrun|].
  unfold material_nodes. rewrite Hmat. split; [reflexivity|]. split; [exact Hobj|].
  reflexivity.
Defined.

(** ** The messages of one archive *)

(** ** The messages of one archive *)

Lemma never_continues_bind {A B} (m : M A) (k : A -> M B) :
  never_continues m -> (forall a, never_continues (k a)) -> never_continues (bind m k).
Proof.
  intros Hm Hk w. unfold bind. specialize (Hm w).
  destruct (m w) as [[a| |e] w1]; cbn in *; try done. apply Hk.
Qed.

Lemma never_continues_ret {A} (a : A) : never_continues (ret a).
Proof. by intros w. Qed.

Lemma never_continues_raise {A} (e : string) : never_continues (@raise A e).
Proof. by intros w. Qed.

Lemma never_continues_get_scene : never_continues get_scene.
Proof. by intros w. Qed.

Lemma never_continues_modify_scene (f : Scene -> Scene) : never_continues (modify_scene f).
Proof. by intros w. Qed.

Lemma never_continues_lift_exc {A} (r : exc A) : never_continues (lift_exc r).
Proof. intros w. by destruct r. Qed.

Lemma never_continues_get_material (i : nat) : never_continues (get_material i).
Proof. intros w. unfold get_material. by destruct (materials (scene w) !! i). Qed.

Lemma never_continues_get_object (i : nat) : never_continues (get_object i).
Proof. intros w. unfold get_object. by destruct (objects (scene w) !! i). Qed.

Lemma never_continues_listdir (d : nat) : never_continues (listdir d).
Proof. intros w. unfold listdir. by destruct (tmpfs w !! d). Qed.

Lemma never_continues_modify_material (i : nat) (f : Material -> Material) :
  never_continues (modify_material i f).
Proof. by intros w. Qed.

Lemma never_continues_modify_nodes (i : nat) (f : list Node -> list Node) :
  never_continues (modify_nodes i f).
Proof. by intros w. Qed.

Lemma never_continues_modify_node (i j : nat) (f : Node -> Node) :
  never_continues (modify_node i j f).
Proof. by intros w. Qed.

Lemma never_continues_modify_object (i : nat) (f : Object -> Object) :
  never_continues (modify_object i f).
Proof. by intros w. Qed.

Create HintDb never_continues.

#[local] Hint Resolve never_continues_ret never_continues_raise never_continues_get_scene
  never_continues_modify_scene never_continues_lift_exc never_continues_get_material
  never_continues_get_object never_continues_listdir never_continues_modify_material
  never_continues_modify_nodes never_continues_modify_node never_continues_modify_object
  : never_continues.

Ltac never_continues_step :=
  first [ solve [auto with never_continues]
        | apply never_continues_bind; [|intros ?] ].

Lemma never_continues_get_nodes (i : nat) : never_continues (get_nodes i).
Proof.
  unfold get_nodes. apply never_continues_bind; [never_continues_step|]. intros m.
  destruct (node_tree m); never_continues_step.
Qed.

Lemma never_continues_get_active_object : never_continues get_active_object.
Proof.
  unfold get_active_object. apply never_continues_bind; [never_continues_step|].
  intros s. destruct (active_object s); never_continues_step.
Qed.

Lemma never_continues_call_op (h : Host) (op : Op) (effect : Scene -> Scene) :
  never_continues (call_op h op effect).
Proof.
  unfold call_op. apply never_continues_bind; [never_continues_step|]. intros s.
  destruct (op_error h op s); never_continues_step.
Qed.

#[local] Hint Resolve never_continues_get_nodes never_continues_get_active_object
  never_continues_call_op : never_continues.

Lemma never_continues_nodes_new_tex_image (i : nat) :
  never_continues (nodes_new_tex_image i).
Proof. unfold nodes_new_tex_image. repeat never_continues_step. Qed.

Lemma never_continues_data_images_load (h : Host) (img_path : string) :
  never_continues (data_images_load h img_path).
Proof. unfold data_images_load. repeat never_continues_step. Qed.

Lemma never_continues_wm_usd_import (h : Host) (usdc_path : string) :
  never_continues (wm_usd_import h usdc_path).
Proof. unfold wm_usd_import. repeat never_continues_step. Qed.

#[local] Hint Resolve never_continues_nodes_new_tex_image
  never_continues_data_images_load never_continues_wm_usd_import : never_continues.

Lemma never_continues_add_texture_nodes (h : Host) (new_mat temp_dir : nat)
    (existing_images : gset string) (files : list string) :
  forall texture_nodes,
    never_continues
      (add_texture_nodes h new_mat temp_dir existing_images files texture_nodes).
Proof.
  induction files as [|f files IH]; intros acc; cbn [add_texture_nodes].
  - never_continues_step.
  - destruct (Py.endswith_any _ _); [|apply IH].
    destruct (is_duplicate _ _ _); [apply IH|].
    repeat never_continues_step.
Qed.

Lemma never_continues_position_texture_nodes (new_mat : nat) (gx gy : Z)
    (texture_nodes : list nat) :
  forall i, never_continues (position_texture_nodes new_mat gx gy i texture_nodes).
Proof.
  induction texture_nodes as [|p rest IH]; intros i; cbn [position_texture_nodes].
  - never_continues_step.
  - repeat never_continues_step.
Qed.

#[local] Hint Resolve never_continues_add_texture_nodes
  never_continues_position_texture_nodes : never_continues.

Lemma never_continues_modify_asset_data (i : nat) (f : AssetData -> AssetData) :
  never_continues (modify_asset_data i f).
Proof.
  unfold modify_asset_data. apply never_continues_bind; [never_continues_step|].
  intros m. destruct (asset_data m); never_continues_step.
Qed.

Lemma never_continues_set_material_name (h : Host) (i : nat) (name : string) :
  never_continues (set_material_name h i name).
Proof. unfold set_material_name. repeat never_continues_step. Qed.

Lemma never_continues_set_object_name (h : Host) (i : nat) (name : string) :
  never_continues (set_object_name h i name).
Proof. unfold set_object_name. repeat never_continues_step. Qed.

#[local] Hint Resolve never_continues_modify_asset_data
  never_continues_set_material_name never_continues_set_object_name : never_continues.

Lemma never_continues_build_material (h : Host) (temp_dir new_mat : nat) :
  never_continues (build_material h temp_dir new_mat).
Proof.
  unfold build_material, add_textures, finish_material, create_preview_object,
    tag_asset, normalize_uvmap.
  apply never_continues_bind.
  - apply never_continues_bind; [never_continues_step|]. intros nodes.
    destruct (grid_start _). repeat never_continues_step.
  - intros _. repeat never_continues_step.
    + destruct (obj_materials _); never_continues_step.
    + destruct (Py.startswith _ _); repeat never_continues_step.
Qed.

(** The outcome and the reports of the [try] block go together. *)
Lemma try_body_shape (h : Host) (zip_path : string) (d : nat) (w : World) :
  (fst (try_body h zip_path d w) = Continue /\
   reports (snd (try_body h zip_path d w)) = (reports w ++ [msg_no_usdc zip_path])%list) \/
  (fst (try_body h zip_path d w) = Continue /\
   reports (snd (try_body h zip_path d w))
     = (reports w ++ [msg_no_new_materials zip_path])%list) \/
  (fst (try_body h zip_path d w) <> Continue /\
   reports (snd (try_body h zip_path d w)) = reports w).
Proof.
  destruct (zip_extractall h zip_path) as [entries|e] eqn:Hz.
  2: { rewrite (try_body_extract_fails _ _ _ _ _ Hz). by right; right. }
  rewrite (try_body_extracted _ _ _ _ _ Hz).
  destruct (List.filter _ entries) as [|u ?]; [by left|].
  set (w0 := set_tmpfs _ w).
  change (reports w) with (reports w0).
  unfold import_usdc, bind, get_scene.
  pose proof (scene_only_wm_usd_import h (Py.path_join (temp_path d) u) w0) as [_ Hrep].
  pose proof (never_continues_wm_usd_import h (Py.path_join (temp_path d) u) w0) as Hnc.
  destruct (wm_usd_import h _ w0) as [[[]| |e] w1]; cbn in Hrep, Hnc; try done.
  2: { right; right. by split. }
  destruct (new_materials _ _) as [|new_mat ?].
  - right; left. cbn. by rewrite Hrep.
  - right; right. split; [apply never_continues_build_material|].
    destruct (scene_only_build_material h d new_mat w1) as [_ ->]. done.
Qed.


(** ** The whole run *)

Lemma process_archive_tmpfs (h : Host) (zip_path : string) (w : World) :
  tmpfs (snd (process_archive h zip_path w)) = tmpfs w.
Proof.
  destruct (mkdtemp_error h (announced zip_path w)) as [e0|] eqn:Hd.
  { by rewrite (process_archive_mkdtemp_raises _ _ _ _ Hd). }
  rewrite process_archive_end by done.
  destruct (try_body_env h zip_path (fresh_dir (tmpfs w)) (try_start zip_path w))
    as [Hfs _]. cbv zeta in Hfs.
  assert (delete (fresh_dir (tmpfs w)) (tmpfs (try_start zip_path w)) = tmpfs w)
    as Hstart.
  { unfold try_start. cbn.
    by rewrite delete_insert_eq, (delete_id _ _ (fresh_dir_fresh _)). }
  rewrite Hstart in Hfs.
  by destruct (try_body _ _ _ _) as [[[]| |e] w1].
Qed.


(** ** The selected files *)

(** ** The selected files *)

Lemma contains_char_cons (c a : ascii) (s : string) :
  Py.contains (String a s) (String c "") = false ->
  a <> c /\ Py.contains s (String c "") = false.
Proof.
  rewrite contains_cons. intros [Hs Hc]%orb_false_iff. split; [|done].
  intros ->. cbn in Hs. rewrite Ascii.eqb_refl in Hs. by destruct s.
Qed.

Lemma rfind_from_absent (c : ascii) (s : string) :
  forall k, Py.contains s (String c "") = false -> Py.rfind_from k c s = -1.
Proof.
  induction s as [|a s IH]; intros k Hno; [done|].
  apply contains_char_cons in Hno as [Hac Hno].
  cbn [Py.rfind_from]. rewrite (IH _ Hno). cbn.
  by apply Ascii.eqb_neq in Hac as ->.
Qed.

Lemma rfind_from_last (c : ascii) (t : string) (pre : string) :
  forall k, 0 <= k ->
    Py.contains t (String c "") = false ->
    Py.rfind_from k c (pre ++ String c t) = k + Z.of_nat (String.length pre).
Proof.
  induction pre as [|a pre IH]; intros k Hk Hno.
  - change ("" ++ String c t) with (String c t).
    cbn [Py.rfind_from]. rewrite (rfind_from_absent _ _ _ Hno). cbn.
    rewrite Ascii.eqb_refl. lia.
  - rewrite append_cons. cbn [Py.rfind_from]. rewrite IH by (done || lia).
    destruct (0 <=? _) eqn:E; [cbn [String.length]; lia|].
    apply Z.leb_gt in E. lia.
Qed.

Lemma basename_after_slash (pre name : string) :
  Py.contains name "/" = false ->
  Py.basename (pre ++ String "/" name) = name.
Proof.
  intros Hno. unfold Py.basename, Py.rfind.
  rewrite rfind_from_last by (done || lia).
  replace (Z.to_nat (0 + Z.of_nat (String.length pre) + 1))
    with (String.length pre + 1)%nat by lia.
  by rewrite drop_app_plus.
Qed.

Lemma basename_plain (name : string) :
  Py.contains name "/" = false -> Py.basename name = name.
Proof.
  intros Hno. unfold Py.basename, Py.rfind. by rewrite rfind_from_absent.
Qed.

(** [os.path.basename] undoes [os.path.join] for a plain file name. *)
Lemma basename_path_join (directory name : string) :
  Py.contains name "/" = false ->
  Py.basename (Py.path_join directory name) = name.
Proof.
  intros Hno. unfold Py.path_join.
  assert (Py.startswith name "/" = false) as ->.
  { destruct name as [|a name]; [done|].
    apply contains_char_cons in Hno as [Ha _].
    change (Py.startswith (String a name) "/")
      with (if Ascii.eqb "/" a then Py.startswith name "" else false).
    destruct (Ascii.eqb "/" a) eqn:E; [|done].
    apply Ascii.eqb_eq in E. congruence. }
  destruct (String.eqb directory "") eqn:Ed.
  { apply String.eqb_eq in Ed as ->. cbn. by apply basename_plain. }
  cbn [orb]. destruct (Py.endswith directory "/") eqn:Es.
  - apply endswith_spec in Es as [pre ->]. rewrite string_app_assoc.
    by apply basename_after_slash.
  - by apply basename_after_slash.
Qed.

(** The "Importing" messages of a run are those of the first archives of
    the list, up to the one for which no temporary directory could be
    created. *)
Lemma import_archives_info_prefix (h : Host) (zip_paths : list string) :
  forall w, exists k,
    reports_of INFO (reports (snd (import_archives h zip_paths w))) =
    (reports_of INFO (reports w) ++ map msg_importing (take k zip_paths))%list.
Proof.
  induction zip_paths as [|p rest IH]; intros w.
  - exists 0%nat. cbn. by rewrite app_nil_r.
  - destruct (mkdtemp_error h (announced p w)) as [e0|] eqn:Hd.
    + exists 1%nat. rewrite (import_archives_raises _ _ _ _ _ Hd). cbn.
      unfold reports_of. by rewrite List.filter_app, take_0.
    + destruct (IH (snd (process_archive h p w))) as [k Hk].
      exists (S k). rewrite import_archives_cons, Hk by done.
      rewrite process_archive_reports_of by done.
      rewrite <- !app_assoc. f_equal. cbn.
      by destruct (fst (try_body _ _ _ _)).
Qed.

(** X12.  The messages name the files the user selected.  With no list of
    files the one path [filepath] is processed; otherwise one path per
    listed name, in the directory of [filepath] and in the order of the
    list, and [filepath]'s own file name plays no part.  For names without
    a slash the run reports "Importing " followed by each name, in that
    order: all of them when every temporary directory can be created, and
    in any case the first ones of the list. *)
Theorem messages_name_the_selected_files :
  (forall (filepath : string), selected_paths filepath [] = [filepath]) /\
  (forall (filepath : string) (files : list string),
      files <> [] ->
      selected_paths filepath files
      = map (Py.path_join (Py.dirname filepath)) files /\
      length (selected_paths filepath files) = length files) /\
  (forall (h : Host) (filepath : string) (files : list string) (w : World),
      (forall w0, mkdtemp_error h w0 = None) ->
      files <> [] ->
      Forall (fun name => Py.contains name "/" = false) files ->
      reports_of INFO (reports (snd (execute h filepath files w))) =
      (reports_of INFO (reports w) ++
       map (fun name => (INFO, ("Importing " ++ name)%string)) files)%list) /\
  (forall (h : Host) (filepath : string) (files : list string) (w : World),
      files <> [] ->
      Forall (fun name => Py.contains name "/" = false) files ->
      exists k,
        reports_of INFO (reports (snd (execute h filepath files w))) =
        (reports_of INFO (reports w) ++
         map (fun name => (INFO, ("Importing " ++ name)%string)) (take k files))%list).
Proof.
  assert (Hnames : forall filepath files,
             files <> [] ->
             Forall (fun name => Py.contains name "/" = false) files ->
             map msg_importing (selected_paths filepath files)
             = map (fun name => (INFO, ("Importing " ++ name)%string)) files).
  { intros filepath files Hne Hplain.
    destruct files as [|f files]; [done|]. unfold selected_paths.
    rewrite map_map. apply map_ext_in. intros name Hin.
    unfold msg_importing. rewrite basename_path_join; [done|].
    rewrite Forall_forall in Hplain. by apply Hplain, list_elem_of_In. }
  split; [done|]. split; [|split].
  - intros filepath files Hne. destruct files as [|f files]; [done|].
    split; [done|]. cbn. by rewrite length_map.
  - intros h filepath files w Hd Hne Hplain. unfold execute.
    rewrite import_archives_info by done. f_equal. by apply Hnames.
  - intros h filepath files w Hne Hplain. unfold execute.
    destruct (import_archives_info_prefix h (selected_paths filepath files) w)
      as [k Hk].
    exists k. rewrite Hk. f_equal.
    assert (Htake : take k (selected_paths filepath files)
                    = map (Py.path_join (Py.dirname filepath)) (take k files)).
    { destruct files as [|f files]; [done|]. unfold selected_paths.
      by rewrite <- fmap_take. }
    rewrite Htake, map_map. apply map_ext_in. intros name Hin.
    unfold msg_importing. rewrite basename_path_join; [done|].
    rewrite Forall_forall in Hplain. apply Hplain.
    apply list_elem_of_In, elem_of_take in Hin as (i & Hi & _).
    by eapply list_elem_of_lookup_2.
Qed.

Lemma messages_name_the_selected_files_witness :
  reports_of INFO
    (reports (snd (execute bricks_host "/in/whatever.zip" ["bad.zip"; "Bricks.zip"]
                     empty_world)))
  = [(INFO, "Importing bad.zip"); (INFO, "Importing Bricks.zip")].
Proof.
  exact (proj1 (proj2 (proj2 messages_name_the_selected_files)) bricks_host
           "/in/whatever.zip" ["bad.zip"; "Bricks.zip"] empty_world
           (fun _ => eq_refl) ltac:(done)
           ltac:(repeat (apply Forall_cons; split; [reflexivity|]); apply Forall_nil_2)).
Defined.


(** ** A successful archive *)

Lemma fmap_pointwise {A B} (f g : A -> B) (l : list A) :
  (forall x, f x = g x) -> f <$> l = g <$> l.
Proof. intros Hfg. induction l as [|x l IH]; cbn; [done|]. by rewrite Hfg, IH. Qed.

(** What step 15 packs: the images the host can pack. *)
Lemma elem_of_pack_all_images (h : Host) (s : Scene) (i : nat) :
  i ∈ pack_all_images h s <->
  exists img, images s !! i = Some img /\ packable h img = true.
Proof.
  unfold pack_all_images.
  rewrite elem_of_list_to_set, list_elem_of_In, filter_In, in_seq. split.
  - intros [_ Hp]. destruct (images s !! i) as [img|]; [|done]. by exists img.
  - intros (img & Hi & Hp). rewrite Hi. split; [|done].
    apply lookup_lt_Some in Hi. lia.
Qed.

(** X13.  When the temporary directory, the extraction, the import, every
    image load and every host call succeed and the new material has a
    node tree, the archive completes with the "Importing" message as its
    only report and leaves: the new material with displacement method
    "BOTH", marked as asset, every UV-map node on "UVMap", the old nodes
    followed by one texture node per kept file, labelled as the host
    stores the file name; one new object, the sphere carrying that
    material in its one slot, named as the host makes of
    "ImportedSphere_" and the material name of the import, which is the
    active object; the loaded images after the older ones; every image
    the host can pack, older ones included, packed; and no temporary
    directory. *)
Theorem successful_archive (h : Host) (zip_path : string) (w : World)
    (entries : list string) (usdc_file : string) (others : list string)
    (s' : Scene) (new_mat : nat) (rest : list nat) (m : Material)
    (nodes : list Node) :
  let d := fresh_dir (tmpfs w) in
  mkdtemp_error h (announced zip_path w) = None ->
  zip_extractall h zip_path = Ok entries ->
  List.filter (fun f => Py.endswith f ".usdc") entries = usdc_file :: others ->
  usd_import h (Py.path_join (temp_path d) usdc_file) (scene w) = Ok s' ->
  new_materials (list_to_set (map mat_name (materials (scene w)))) s'
    = new_mat :: rest ->
  materials s' !! new_mat = Some m ->
  node_tree m = Some nodes ->
  Forall (fun f => gets_texture_node h (existing_images_of nodes) f = true ->
                   is_Some (loaded_image h d f)) entries ->
  (forall op s, op_error h op s = None) ->
  let kept := List.filter (gets_texture_node h (existing_images_of nodes)) entries in
  let r := process_archive h zip_path w in
  fst r = Normal tt /\
  reports (snd r) = (reports w ++ [msg_importing zip_path])%list /\
  tmpfs (snd r) = tmpfs w /\
  objects (scene (snd r)) =
    (objects s' ++
     [mkObject (id_name h ObjectID (map obj_name (objects s'))
                  ("ImportedSphere_" ++ mat_name m))
        [new_mat]])%list /\
  active_object (scene (snd r)) = Some (length (objects s')) /\
  images (scene (snd r)) = (images s' ++ omap (loaded_image h d) kept)%list /\
  packed_images s' ⊆ packed_images (scene (snd r)) /\
  (forall i img, images (scene (snd r)) !! i = Some img -> packable h img = true ->
                 i ∈ packed_images (scene (snd r))) /\
  (forall i, i ∈ packed_images (scene (snd r)) ->
             i ∈ packed_images s' \/
             exists img, images (scene (snd r)) !! i = Some img /\ packable h img = true) /\
  exists m' nodes',
    materials (scene (snd r)) !! new_mat = Some m' /\
    displacement_method m' = "BOTH" /\
    is_Some (asset_data m') /\
    node_tree m' = Some nodes' /\
    node_label <$> nodes' = ((node_label <$> nodes) ++ (stored_label h <$> kept))%list /\
    Forall (fun n => node_type n = "UVMAP" -> node_uv_map n = "UVMap") nodes'.
Proof.
  intros d Hd Hz Hu Hok Hnew Hm Hn Hload Hop kept r. subst r.
  rewrite process_archive_end by done. fold d.
  rewrite (try_body_extracted _ _ _ _ _ Hz), Hu.
  set (w0 := set_tmpfs _ (try_start zip_path w)).
  rewrite (import_usdc_new h zip_path d usdc_file w0 s' new_mat rest Hok Hnew).
  unfold build_material.
  erewrite bind_normal;
    [|apply (add_textures_run h new_mat d (set_scene s' w0) m nodes entries);
      [exact Hm|exact Hn|subst w0; cbn; apply lookup_insert_eq|exact Hload]].
  fold kept.
  set (new_nodes := map (texture_node_for h d) kept).
  set (origin := grid_start (find_output_node nodes)).
  set (placed_nodes := placed (fst origin) (snd origin) 0
                         (seq (length nodes) (length kept)) (nodes ++ new_nodes)%list).
  erewrite finish_material_run;
    [|eapply with_material_lookup; unfold with_textures; cbn;
      apply list_lookup_insert_eq; by eapply lookup_lt_Some
     |reflexivity|exact Hop].
  unfold preview_object_name.
  cbn [fst snd scene tmpfs reports set_tmpfs set_scene with_material with_textures
       materials images objects active_object packed_images set_materials set_images
       mat_name set_node_tree].
  assert (Hlt : (new_mat < length (materials s'))%nat) by (by eapply lookup_lt_Some).
  split; [done|]. split; [done|].
  split.
  { subst w0. cbn. rewrite !delete_insert_eq. apply delete_id, fresh_dir_fresh. }
  split; [done|]. split; [done|]. split; [done|].
  split; [apply union_subseteq_l|].
  split.
  { intros i img Hi Hp. apply elem_of_union_r, elem_of_pack_all_images.
    exists img. split; [exact Hi|exact Hp]. }
  split.
  { intros i [Hin | Hin]%elem_of_union; [by left|right].
    apply elem_of_pack_all_images in Hin. exact Hin. }
  eexists _, _. split.
  { rewrite !list_insert_insert_eq. by apply list_lookup_insert_eq. }
  split; [done|]. split.
  { cbn. destruct (Py.startswith _ _); [done|apply asset_mark_is_asset]. }
  split; [reflexivity|]. split.
  - rewrite <- list_fmap_compose.
    assert (Hlab : forall n, (node_label ∘ uvmap_default) n = node_label n).
    { intros n. unfold uvmap_default. cbn. by destruct (String.eqb _ _). }
    rewrite (fmap_pointwise _ node_label _ Hlab).
    subst placed_nodes. rewrite placed_fmap by done. rewrite fmap_app. f_equal.
    subst new_nodes. by rewrite <- list_fmap_compose.
  - apply Forall_forall. intros n Hin.
    apply list_elem_of_In, in_map_iff in Hin as (n0 & <- & _).
    unfold uvmap_default. destruct (String.eqb (node_type n0) "UVMAP") eqn:E.
    + done.
    + intros Hty. cbn in Hty. rewrite Hty in E. done.
Qed.

Lemma successful_archive_witness :
  fst (process_archive bricks_host "/in/Bricks.zip" empty_world) = Normal tt /\
  reports (snd (process_archive bricks_host "/in/Bricks.zip" empty_world))
    = (reports empty_world ++ [msg_importing "/in/Bricks.zip"])%list.
Proof.
  destruct (successful_archive bricks_host "/in/Bricks.zip" empty_world
              ["Bricks.usdc"; "Bricks_Color.png"; "Bricks_Normal.jpg"]
              "Bricks.usdc" []
              (set_materials [sample_material "aCG_Bricks" "Bricks_Color" (300, 100)]
                             empty_scene)
              0%nat []
              (sample_material "aCG_Bricks" "Bricks_Color" (300, 100))
              (default [] (node_tree (sample_material "aCG_Bricks" "Bricks_Color" (300, 100))))
              eq_refl eq_refl eq_refl eq_refl ltac:(by vm_compute) eq_refl eq_refl
              ltac:(repeat (apply Forall_cons; split; [intros _; by eexists|]);
                    apply Forall_nil_2)
              (fun _ _ => eq_refl))
    as (Hout & Hrep & _).
  by split.
Defined.

